(** * entrypoint_github_actions_audit.py: a shallow embedding

    The script reads its configuration from the environment, runs the
    42Crunch audit binary, converts every audit report to SARIF, optionally
    uploads each SARIF file, optionally enforces the security gate and
    optionally merges the SARIF files.

    Conventions of the embedding.
    - A Python [str] is a [string]; its characters are read as the code
      points U+0000..U+00FF.  A Python [bytes] is a [string] too, one
      character for each byte; [bytes.decode] is the world's, and it has no
      answer for bytes that are not UTF-8.  [None] is [None] of an [option].
    - Everything outside the script (subprocesses, the file system, the
      network, [uuid], [json], [gzip], [base64], the codec) is a field of a [world]
      record; the answers of the stateful ones depend on a world state that
      every call may change.
    - A computation is a function from the world state to an outcome, the
      next world state and the events it emitted; [SystemExit] and the
      other exceptions are outcomes of their own.
    - Every call of the logger is an event, whatever the level the logger
      was set up with: the message is built before the logger sees it.

    Embedded: [RunningConfiguration], [extract_audit_log_text],
    [get_running_configuration], [display_header], [execute],
    [is_security_issues_found], [upload_sarif], [get_binary_path],
    [discovery_run] and [main]. *)

From Stdlib Require Import String Ascii List ZArith Lia Bool DecimalString.
Import ListNotations.

Open Scope string_scope.
Close Scope list_scope.
Open Scope list_scope.

(** String concatenation is written [+++]; [++] is kept for lists. *)
Infix "+++" := String.append (right associativity, at level 60).

(** ** Python strings *)

Module PyStr.

Definition nl : string := String (ascii_of_nat 10) EmptyString.

(** [str.lower] on the code points below 256: the upper-case letters are
    A-Z and U+00C0..U+00DE without the multiplication sign U+00D7. *)
Definition lower_char (c : ascii) : ascii :=
  let n := nat_of_ascii c in
  if (((65 <=? n) && (n <=? 90)) || ((192 <=? n) && (n <=? 222) && negb (n =? 215)))%nat
  then ascii_of_nat (n + 32)
  else c.

Fixpoint lower (s : string) : string :=
  match s with
  | EmptyString => EmptyString
  | String c s' => String (lower_char c) (lower s')
  end.

(** [str.isspace] of one character, for the code points below 256. *)
Definition isspace (c : ascii) : bool :=
  let n := nat_of_ascii c in
  (((9 <=? n) && (n <=? 13)) || ((28 <=? n) && (n <=? 32)) || (n =? 133) || (n =? 160))%nat.

Definition is_empty (s : string) : bool :=
  match s with EmptyString => true | String _ _ => false end.

Fixpoint lstrip (s : string) : string :=
  match s with
  | EmptyString => EmptyString
  | String c s' => if isspace c then lstrip s' else s
  end.

Fixpoint rstrip (s : string) : string :=
  match s with
  | EmptyString => EmptyString
  | String c s' =>
      let r := rstrip s' in
      if isspace c && is_empty r then EmptyString else String c r
  end.

(** [s.strip()] *)
Definition strip (s : string) : string := rstrip (lstrip s).

(** [sub in s] *)
Fixpoint contains (sub s : string) : bool :=
  prefix sub s ||
  match s with
  | EmptyString => false
  | String _ s' => contains sub s'
  end.

Fixpoint replace_empty (new s : string) : string :=
  match s with
  | EmptyString => new
  | String c s' => new +++ String c (replace_empty new s')
  end.

(** The scan of [str.replace]: [skip] counts the characters of a match that
    are still to be dropped. *)
Fixpoint replace_from (old new : string) (skip : nat) (s : string) : string :=
  match s with
  | EmptyString => EmptyString
  | String c s' =>
      match skip with
      | S k => replace_from old new k s'
      | O =>
          if prefix old s
          then new +++ replace_from old new (String.length old - 1) s'
          else String c (replace_from old new 0 s')
      end
  end.

(** [s.replace(old, new)]: the occurrences are found from the left and do
    not overlap. *)
Definition replace (old new s : string) : string :=
  match old with
  | EmptyString => replace_empty new s
  | String _ _ => replace_from old new 0 s
  end.

(** [s.split(sep)] for a separator of one character. *)
Fixpoint split (sep : ascii) (s : string) : list string :=
  match s with
  | EmptyString => [EmptyString]
  | String c s' =>
      if Ascii.eqb c sep then EmptyString :: split sep s'
      else
        match split sep s' with
        | [] => [String c EmptyString]
        | w :: ws => String c w :: ws
        end
  end.

(** [sep.join(l)] *)
Definition join (sep : string) (l : list string) : string := String.concat sep l.

(** [c * n] *)
Fixpoint repeat_char (c : ascii) (n : nat) : string :=
  match n with
  | O => EmptyString
  | S k => String c (repeat_char c k)
  end.

(** [str(n)] for an [int] *)
Definition str_of_Z (z : Z) : string := NilZero.string_of_int (Z.to_int z).
Definition str_of_nat (n : nat) : string := NilZero.string_of_uint (Nat.to_uint n).

(** [str(b)] for a [bool] *)
Definition str_of_bool (b : bool) : string := if b then "True" else "False".

(** [f"{x}"] for a value that is a [str] or [None] *)
Definition str_of_opt (o : option string) : string :=
  match o with
  | Some s => s
  | None => "None"
  end.

(** Truth value of a [str] or [None] *)
Definition truthy (o : option string) : bool :=
  match o with
  | Some s => negb (is_empty s)
  | None => false
  end.

Definition starts_with (p s : string) : bool := prefix p s.

Fixpoint ends_with_char (c : ascii) (s : string) : bool :=
  match s with
  | EmptyString => false
  | String d EmptyString => Ascii.eqb d c
  | String _ s' => ends_with_char c s'
  end.

End PyStr.

(** ** [os.path] on POSIX *)

Module PosixPath.

Definition sep : ascii := "/"%char.
Definition extsep : ascii := "."%char.

Definition has_sep (s : string) : bool := PyStr.contains (String sep EmptyString) s.

(** [os.path.join(a, b)] *)
Definition join (a b : string) : string :=
  if PyStr.starts_with (String sep EmptyString) b then b
  else if PyStr.is_empty a || PyStr.ends_with_char sep a then a +++ b
  else a +++ String sep b.

(** [os.path.basename(p)]: what follows the last separator. *)
Fixpoint basename (p : string) : string :=
  match p with
  | EmptyString => EmptyString
  | String c p' =>
      if has_sep p' then basename p'
      else if Ascii.eqb c sep then p'
      else p
  end.

(** [p.rfind(c)], -1 when [c] does not occur. *)
Fixpoint rfind_from (c : ascii) (s : string) (i last : Z) : Z :=
  match s with
  | EmptyString => last
  | String d s' => rfind_from c s' (i + 1) (if Ascii.eqb d c then i else last)
  end.

Definition rfind (c : ascii) (s : string) : Z := rfind_from c s 0 (-1).

Fixpoint all_char (c : ascii) (s : string) : bool :=
  match s with
  | EmptyString => true
  | String d s' => Ascii.eqb d c && all_char c s'
  end.

(** [os.path.splitext(p)]: the extension starts at the last dot of the last
    component, unless only dots precede it there. *)
Definition splitext (p : string) : string * string :=
  let sepIndex := rfind sep p in
  let dotIndex := rfind extsep p in
  if (sepIndex <? dotIndex)%Z then
    let filenameIndex := Z.to_nat (sepIndex + 1) in
    let dot := Z.to_nat dotIndex in
    if all_char extsep (substring filenameIndex (dot - filenameIndex) p)
    then (p, EmptyString)
    else (substring 0 dot p, substring dot (String.length p - dot) p)
  else (p, EmptyString).

End PosixPath.

(** ** Values, exceptions and outcomes *)

(** What [json.load] returns.  A [JDict] lists the members in the order of
    the document; as in a Python [dict], a later member with the same key
    replaces an earlier one. *)
#[warnings="-register-all"]
Inductive json : Type :=
| JNull
| JBool (b : bool)
| JInt (z : Z)
| JFloat (lexeme : string)
| JStr (s : string)
| JList (l : list json)
| JDict (members : list (string * json)).

Inductive exn : Type :=
| ExecutionError (message : string)
| KeyError
| IndexError
| TypeError
| AttributeError
| FileNotFoundError
| JSONDecodeError
| PermissionError
| OSError
| UnicodeDecodeError.

(** A call returns, or ends the process ([exit], [sys.exit]), or raises. *)
Inductive outcome (A : Type) : Type :=
| Ret (a : A)
| Exit (code : Z)
| Raise (e : exn).

Arguments Ret {A} a.
Arguments Exit {A} code.
Arguments Raise {A} e.

(** The [CompletedProcess] of [subprocess.run]; [stdout] and [stderr] are
    the bytes captured from the process. *)
Record completed : Type := mkCompleted {
  returncode : Z;
  stdout : string;
  stderr : string
}.

(** The body of the upload request, before [json.dumps]. *)
Record payload : Type := mkPayload {
  commit_sha : option string;
  ref : option string;
  sarif : string;
  tool_name : string;
  checkout_uri : string
}.

Record request : Type := mkRequest {
  url : string;
  headers : list (string * string);
  data : payload
}.

(** Why [subprocess.run] did not start the executable. *)
Inductive spawn_error : Type :=
| NoSuchFile
| NotPermitted
| OtherOSError.

(** What [subprocess.run] raises then. *)
Definition spawn_exn (e : spawn_error) : exn :=
  match e with
  | NoSuchFile => FileNotFoundError
  | NotPermitted => PermissionError
  | OtherOSError => OSError
  end.

(** What [urlopen] and reading the response do: answer, raise [HTTPError],
    or raise another exception.  The bodies are the bytes read. *)
Inductive http_result : Type :=
| HttpOk (body : string)
| HttpError (code : Z) (reason : string) (body : string)
| OtherError (message : string).

Inductive level : Type := DEBUG | INFO | ERROR.

(** What the script does to the outside, in the order it does it. *)
Inductive event : Type :=
| EvLog (lvl : level) (msg : string)
| EvPrint (msg : string)
| EvUuid (hex : string)
| EvRun (cmd : list string) (result : completed)
| EvListdir (path : string) (names : option (list string))
| EvOpenText (path : string) (content : option string)
| EvOpenBytes (path : string) (content : option string)
| EvUrlopen (req : request) (result : http_result).

(** The outside.  [subprocess_start] tells whether the executable of a
    command can be started, and why not; the answer does not depend on the
    state: an executable that started once starts again.  [subprocess_run]
    is the process once started.  [os_listdir] and [read_file] answer
    [None] when the path does not exist, [json_loads] when the text is not
    JSON, [bytes_decode] when the bytes are not UTF-8.  [urlopen] stands for
    the request and the reading of its answer. *)
Record world (W : Type) : Type := mkWorld {
  uuid4_hex : W -> string * W;
  subprocess_start : string -> option spawn_error;
  subprocess_run : W -> list string -> completed * W;
  os_listdir : W -> string -> option (list string) * W;
  read_file : W -> string -> option string * W;
  os_getcwd : W -> string;
  os_path_abspath : W -> string -> string;
  urlopen : W -> request -> http_result * W;
  json_loads : string -> option json;
  gzip_compress : string -> string;
  b64encode : string -> string;
  bytes_decode : string -> option string
}.

Arguments uuid4_hex {W} _ _.
Arguments subprocess_start {W} _ _.
Arguments subprocess_run {W} _ _ _.
Arguments os_listdir {W} _ _ _.
Arguments read_file {W} _ _ _.
Arguments os_getcwd {W} _ _.
Arguments os_path_abspath {W} _ _ _.
Arguments urlopen {W} _ _ _.
Arguments json_loads {W} _ _.
Arguments gzip_compress {W} _ _.
Arguments b64encode {W} _ _.
Arguments bytes_decode {W} _ _.

(** ** The monad of the script *)

Definition M (W A : Type) : Type := W -> outcome A * W * list event.

Definition ret {W A} (a : A) : M W A := fun s => (Ret a, s, []).

Definition bind {W A B} (m : M W A) (f : A -> M W B) : M W B :=
  fun s =>
    match m s with
    | (Ret a, s1, t1) => let '(o, s2, t2) := f a s1 in (o, s2, t1 ++ t2)
    | (Exit c, s1, t1) => (Exit c, s1, t1)
    | (Raise e, s1, t1) => (Raise e, s1, t1)
    end.

Definition emit {W} (e : event) : M W unit := fun s => (Ret tt, s, [e]).
Definition raise {W A} (e : exn) : M W A := fun s => (Raise e, s, []).
Definition sys_exit {W A} (c : Z) : M W A := fun s => (Exit c, s, []).

(** [try: m  except ...: h e]; the handler answers [None] for an exception
    its clauses do not name. [SystemExit] is never caught. *)
Definition try_except {W A} (m : M W A) (h : exn -> option (M W A)) : M W A :=
  fun s =>
    match m s with
    | (Raise e, s1, t1) =>
        match h e with
        | Some k => let '(o, s2, t2) := k s1 in (o, s2, t1 ++ t2)
        | None => (Raise e, s1, t1)
        end
    | r => r
    end.

Declare Scope monad_scope.
Delimit Scope monad_scope with monad.
Notation "x <- m ;; k" := (bind m (fun x => k))
  (at level 61, m at next level, right associativity) : monad_scope.
Notation "m ;; k" := (bind m (fun _ => k))
  (at level 61, right associativity) : monad_scope.
Open Scope monad_scope.

Definition log {W} (lvl : level) (msg : string) : M W unit := emit (EvLog lvl msg).
Definition print {W} (msg : string) : M W unit := emit (EvPrint msg).

Definition outcome_of {W A} (r : outcome A * W * list event) : outcome A := fst (fst r).
Definition events_of {W A} (r : outcome A * W * list event) : list event := snd r.

(** ** The script *)

Record RunningConfiguration : Type := mkRunningConfiguration {
  enforce : bool;
  log_level : string;
  data_enrich : bool;
  upload_to_code_scanning : bool;
  sarif_report : option string;
  export_as_pdf : option string;
  github_token : option string;
  github_repository : option string;
  github_organization : option string;
  github_repository_owner : option string;
  github_ref : option string;
  github_sha : option string
}.

(** [RunningConfiguration.__repr__] *)
Definition repr (c : RunningConfiguration) : string :=
  PyStr.nl +++ "RunningConfiguration:" +++ PyStr.nl +++
  "    log_level: " +++ log_level c +++ PyStr.nl +++
  "    data_enrich: " +++ PyStr.str_of_bool (data_enrich c) +++ PyStr.nl +++
  "    enforce_sqgl: " +++ PyStr.str_of_bool (enforce c) +++ PyStr.nl +++
  "    upload_to_code_scanning: " +++ PyStr.str_of_bool (upload_to_code_scanning c) +++ PyStr.nl +++
  "    sarif_report: " +++ PyStr.str_of_opt (sarif_report c) +++ PyStr.nl +++
  "    export_as_pdf: " +++ PyStr.str_of_opt (export_as_pdf c) +++ PyStr.nl +++
  "    github_token: " +++ PyStr.str_of_opt (github_token c) +++ PyStr.nl +++
  "    github_repository: " +++ PyStr.str_of_opt (github_repository c) +++ PyStr.nl +++
  "    github_organization: " +++ PyStr.str_of_opt (github_organization c) +++ PyStr.nl +++
  "    github_repository_owner: " +++ PyStr.str_of_opt (github_repository_owner c) +++ PyStr.nl +++
  "    github_ref: " +++ PyStr.str_of_opt (github_ref c) +++ PyStr.nl +++
  "    github_sha: " +++ PyStr.str_of_opt (github_sha c) +++ PyStr.nl +++
  "    ".

(** [RunningConfiguration.__post_init__] *)
Definition post_init (c : RunningConfiguration) : RunningConfiguration :=
  if PyStr.is_empty (log_level c) then c
  else
    mkRunningConfiguration (enforce c) (PyStr.lower (log_level c)) (data_enrich c)
      (upload_to_code_scanning c) (sarif_report c) (export_as_pdf c) (github_token c)
      (github_repository c) (github_organization c) (github_repository_owner c)
      (github_ref c) (github_sha c).

(** *** [get_running_configuration] *)

(** [os.environ] *)
Definition environ : Type := string -> option string.

(** [os.getenv(name, default)] *)
Definition getenv (env : environ) (name : string) (default : option string) : option string :=
  match env name with
  | Some v => Some v
  | None => default
  end.

Definition _to_bool (value : option string) : bool :=
  match value with
  | None => false
  | Some v => if PyStr.lower v =? "true" then true else false
  end.

Definition _none_or_empty (value : option string) : option string :=
  match value with
  | None => None
  | Some v => if PyStr.strip v =? EmptyString then None else Some v
  end.

Definition known_log_levels : list string := ["fail"; "error"; "warn"; "info"; "debug"].

Definition resolve_log_level (value : option string) : string :=
  match value with
  | None => "info"
  | Some l =>
      if negb (existsb (String.eqb (PyStr.lower l)) known_log_levels) then "info"
      else PyStr.lower l
  end.

Definition get_running_configuration (env : environ) : RunningConfiguration :=
  let enforce := _to_bool (getenv env "INPUT_ENFORCE-SQG" (Some "false")) in
  let data_enrich := _to_bool (getenv env "INPUT_DATA-ENRICH" (Some "false")) in
  let upload_to_code_scanning :=
    _to_bool (getenv env "INPUT_UPLOAD-TO-CODE-SCANNING" (Some "false")) in
  let log_level := resolve_log_level (getenv env "INPUT_LOG-LEVEL" (Some "info")) in
  post_init
    {| log_level := PyStr.lower log_level;
       data_enrich := data_enrich;
       enforce := enforce;
       sarif_report := _none_or_empty (getenv env "INPUT_SARIF-REPORT" None);
       export_as_pdf := _none_or_empty (getenv env "INPUT_EXPORT-AS-PDF" None);
       upload_to_code_scanning := upload_to_code_scanning;
       github_token := getenv env "INPUT_TOKEN" None;
       github_repository := getenv env "GITHUB_REPOSITORY" None;
       github_organization := getenv env "GITHUB_REPOSITORY_OWNER" None;
       github_repository_owner := getenv env "GITHUB_REPOSITORY_OWNER" None;
       github_ref := getenv env "GITHUB_REF" None;
       github_sha := getenv env "GITHUB_SHA" None |}.

(** *** [display_header] *)

Definition display_header (title text : string) : string :=
  PyStr.nl +++ PyStr.repeat_char "!" 80 +++ PyStr.nl +++
  "! " +++ title +++ PyStr.nl +++
  "!" +++ PyStr.nl +++
  "! " +++ text +++ PyStr.nl +++
  PyStr.repeat_char "!" 80 +++ PyStr.nl.

(** *** [is_security_issues_found]: the part on the parsed document *)

(** The last member with key [k], as a [dict] built from the document keeps it. *)
Fixpoint dict_get (members : list (string * json)) (k : string) : option json :=
  match members with
  | [] => None
  | (k', v) :: rest =>
      match dict_get rest k with
      | Some v' => Some v'
      | None => if k' =? k then Some v else None
      end
  end.

(** The keys of the [dict], each once. *)
Fixpoint dict_keys (members : list (string * json)) : list string :=
  match members with
  | [] => []
  | (k, _) :: rest =>
      let ks := dict_keys rest in
      if existsb (String.eqb k) ks then ks else k :: ks
  end.

(** [x[k]] for a [str] key *)
Definition getitem_key (x : json) (k : string) : outcome json :=
  match x with
  | JDict members =>
      match dict_get members k with
      | Some v => Ret v
      | None => Raise KeyError
      end
  | _ => Raise TypeError
  end.

(** [x[0]]; the keys of a parsed document are strings, so a [dict] has no key 0. *)
Definition getitem_0 (x : json) : outcome json :=
  match x with
  | JList l =>
      match l with
      | v :: _ => Ret v
      | [] => Raise IndexError
      end
  | JStr s =>
      match s with
      | String c _ => Ret (JStr (String c EmptyString))
      | EmptyString => Raise IndexError
      end
  | JDict _ => Raise KeyError
  | _ => Raise TypeError
  end.

(** [len(x)] *)
Definition py_len (x : json) : outcome Z :=
  match x with
  | JList l => Ret (Z.of_nat (List.length l))
  | JDict members => Ret (Z.of_nat (List.length (dict_keys members)))
  | JStr s => Ret (Z.of_nat (String.length s))
  | _ => Raise TypeError
  end.

Definition and_then {A B} (o : outcome A) (f : A -> outcome B) : outcome B :=
  match o with
  | Ret a => f a
  | Exit c => Exit c
  | Raise e => Raise e
  end.

(** [len(data["runs"][0]["results"])] *)
Definition len_results (doc : json) : outcome Z :=
  and_then (getitem_key doc "runs") (fun runs =>
  and_then (getitem_0 runs) (fun run0 =>
  and_then (getitem_key run0 "results") py_len)).

(** The [try] block of [is_security_issues_found]. *)
Definition security_issues_in (doc : json) : outcome (bool * Z) :=
  match len_results doc with
  | Ret issues_found =>
      if (0 <? issues_found)%Z then Ret (true, issues_found) else Ret (false, (-1)%Z)
  | Raise KeyError => Ret (false, (-1)%Z)
  | Raise IndexError => Ret (false, (-1)%Z)
  | Raise e => Raise e
  | Exit c => Exit c
  end.

(** No argument of the command is [None]. *)
Definition all_present (cmd : list (option string)) : bool :=
  forallb (fun a => match a with Some _ => true | None => false end) cmd.

(** The arguments of a command that has them all. *)
Definition present (cmd : list (option string)) : list string :=
  flat_map (fun a => match a with Some x => [x] | None => [] end) cmd.

Section Script.

Context {W : Type} (w : world W).

(** *** Calls to the outside *)

Definition call_uuid4_hex : M W string :=
  fun s => let '(h, s1) := uuid4_hex w s in (Ret h, s1, [EvUuid h]).

(** [subprocess.run(cmd, capture_output=True)].  Nothing is started when
    an argument is [None] ([TypeError]), when there is no argument at all
    ([IndexError]) or when the executable, the first argument, cannot be
    started (the error of the operating system). *)
Definition call_subprocess_run (cmd : list (option string)) : M W completed :=
  fun s =>
    if all_present cmd then
      match present cmd with
      | [] => (Raise IndexError, s, [])
      | executable :: _ =>
          match subprocess_start w executable with
          | Some e => (Raise (spawn_exn e), s, [])
          | None =>
              let args := present cmd in
              let '(r, s1) := subprocess_run w s args in (Ret r, s1, [EvRun args r])
          end
      end
    else (Raise TypeError, s, []).

(** [b.decode()] *)
Definition call_decode (b : string) : M W string :=
  fun s =>
    match bytes_decode w b with
    | Some text => (Ret text, s, [])
    | None => (Raise UnicodeDecodeError, s, [])
    end.

(** [os.listdir(path)] *)
Definition call_listdir (path : string) : M W (list string) :=
  fun s =>
    let '(r, s1) := os_listdir w s path in
    match r with
    | Some names => (Ret names, s1, [EvListdir path r])
    | None => (Raise FileNotFoundError, s1, [EvListdir path r])
    end.

(** [open(path, "r")] and reading the whole file *)
Definition call_open_text (path : string) : M W string :=
  fun s =>
    let '(r, s1) := read_file w s path in
    match r with
    | Some content => (Ret content, s1, [EvOpenText path r])
    | None => (Raise FileNotFoundError, s1, [EvOpenText path r])
    end.

(** [open(path, 'rb')] and [f.read()] *)
Definition call_open_bytes (path : string) : M W string :=
  fun s =>
    let '(r, s1) := read_file w s path in
    match r with
    | Some content => (Ret content, s1, [EvOpenBytes path r])
    | None => (Raise FileNotFoundError, s1, [EvOpenBytes path r])
    end.

Definition call_getcwd : M W string := fun s => (Ret (os_getcwd w s), s, []).

Definition call_abspath (path : string) : M W string :=
  fun s => (Ret (os_path_abspath w s path), s, []).

Definition call_urlopen (req : request) : M W http_result :=
  fun s => let '(r, s1) := urlopen w s req in (Ret r, s1, [EvUrlopen req r]).

Definition lift {A} (o : outcome A) : M W A := fun s => (o, s, []).

(** *** [is_security_issues_found] *)

Definition is_security_issues_found (sarif_report : string) : M W (bool * Z) :=
  content <- call_open_text sarif_report ;;
  match json_loads w content with
  | None => raise JSONDecodeError
  | Some doc => lift (security_issues_in doc)
  end.

(** *** [upload_sarif] *)

Definition upload_sarif (github_token github_repository github_sha ref : option string)
    (sarif_file_path : string) : M W unit :=
  (if negb (PyStr.truthy github_token) then
     log ERROR (display_header "GitHub token not found"
                  "Unable to upload SARIF file to GitHub code scanning") ;;
     sys_exit 1
   else ret tt) ;;
  zipped_sarif <-
    try_except
      (content <- call_open_bytes sarif_file_path ;;
       ret (b64encode w (gzip_compress w content)))
      (fun e =>
         match e with
         | FileNotFoundError =>
             Some (abs <- call_abspath sarif_file_path ;;
                   log ERROR (display_header "SARIF file not found"
                                ("Unable to upload SARIF file to GitHub code scanning: "
                                 +++ abs +++ " not found")) ;;
                   sys_exit 1)
         | _ => None
         end) ;;
  repository <-
    match github_repository with
    | None => raise TypeError
    | Some r =>
        if negb (PyStr.contains "/" r) then
          log ERROR (display_header "Invalid repository"
                       ("Unable to upload SARIF file to GitHub code scanning: '"
                        +++ r +++ "' is not a valid repository")) ;;
          sys_exit 1
        else ret r
    end ;;
  cwd <- call_getcwd ;;
  let checkout_uri := "file://" +++ cwd in
  let url := "https://api.github.com/repos/" +++ repository +++ "/code-scanning/sarifs" in
  let headers :=
    [("Authorization", "Bearer " +++ PyStr.str_of_opt github_token);
     ("Accept", "application/vnd.github+json");
     ("X-GitHub-Api-Version", "2022-11-28")] in
  let data :=
    {| commit_sha := github_sha;
       ref := ref;
       sarif := zipped_sarif;
       tool_name := "42Crunch REST API Static Security Testing";
       checkout_uri := checkout_uri |} in
  let req := {| url := url; headers := headers; data := data |} in
  log DEBUG ("Uploading SARIF file to GitHub code scanning: " +++ url) ;;
  response <- call_urlopen req ;;
  match response with
  | HttpOk body =>
      (* the body is decoded inside the [try]: a failure is an [Exception] *)
      try_except (call_decode body ;; ret tt) (fun _ => Some (raise TypeError))
  | HttpError code reason body =>
      (* the body is decoded inside the handler *)
      text <- call_decode body ;;
      log ERROR (display_header
                   ("Unable to upload SARIF file to GitHub code scanning: "
                    +++ PyStr.str_of_Z code +++ ". " +++ reason) text) ;;
      sys_exit 1
  | OtherError _ =>
      (* display_header is called with its title only *)
      raise TypeError
  end.

(** *** [execute] *)

Inductive command : Type :=
| CmdStr (s : string)
| CmdList (l : list (option string)).

(** The argument vector [cmd]: a string is split at every space. *)
Definition argv (command : command) : list (option string) :=
  match command with
  | CmdStr s => map Some (PyStr.split " " s)
  | CmdList l => l
  end.

Definition execute (command : command) (capture_output : bool)
  : M W (option (string * string)) :=
  let cmd := argv command in
  result <- call_subprocess_run cmd ;;
  if negb (returncode result =? 0)%Z then
    let message :=
      ["Command failed with exit code " +++ PyStr.str_of_Z (returncode result)] in
    message <-
      (if negb (PyStr.is_empty (stdout result)) then
         text <- call_decode (stdout result) ;;
         ret (message ++ ["stdout: " +++ text])
       else ret message) ;;
    message <-
      (if negb (PyStr.is_empty (stderr result)) then
         text <- call_decode (stderr result) ;;
         ret (message ++ ["stderr: " +++ text])
       else ret message) ;;
    raise (ExecutionError (PyStr.join PyStr.nl message))
  else if capture_output then
    stdout_text <- call_decode (stdout result) ;;
    stderr_text <- call_decode (stderr result) ;;
    ret (Some (stdout_text, stderr_text))
  else ret None.

(** *** [discovery_run] *)

(** [report.replace(".audit-report.json", "")] *)
Definition openapi_file (report : string) : string :=
  PyStr.replace ".audit-report.json" EmptyString report.

(** [f"{os.path.splitext(os.path.basename(report_path))[0]}.sarif"] *)
Definition sarif_file (report_path : string) : string :=
  fst (PosixPath.splitext (PosixPath.basename report_path)) +++ ".sarif".

Definition convert_cmd (report_path openapi sarif : string) : list (option string) :=
  map Some ["42ctl"; "audit"; "report"; "sarif"; "convert";
            "-r"; report_path; "-a"; openapi; "-o"; sarif].

Definition merge_cmd (output : option string) (sarif_reports : list string)
  : list (option string) :=
  map Some ["42ctl"; "audit"; "report"; "sarif"; "merge"; "-o"]
  ++ [output] ++ map Some sarif_reports.

Definition enabled (b : bool) : string := if b then "enabled" else "disabled".

(** The rest of the loop body, after a conversion that succeeded: the
    upload and the gate. *)
Definition upload_and_enforce (running_config : RunningConfiguration) (sarif : string)
  : M W unit :=
  log DEBUG ("Uploading SARIF file to GitHub code scanning is "
             +++ enabled (upload_to_code_scanning running_config)) ;;
  (if upload_to_code_scanning running_config then
     log INFO ("Uploading '" +++ sarif +++ "' to GitHub code scanning") ;;
     upload_sarif (github_token running_config) (github_repository running_config)
       (github_sha running_config) (github_ref running_config) sarif
   else ret tt) ;;
  log DEBUG ("Enforce security issues is " +++ enabled (enforce running_config)) ;;
  if enforce running_config then
    log INFO ("Checking for security issues in '" +++ sarif +++ "'") ;;
    r <- is_security_issues_found sarif ;;
    let '(found, issues) := r in
    log INFO ("Security issues found: " +++ PyStr.str_of_bool found) ;;
    if found then
      log INFO (display_header "Security issues found"
                  (PyStr.str_of_Z issues +++ " issues found")) ;;
      sys_exit 1
    else ret tt
  else ret tt.

(** The body of the loop over the reports; it answers the list
    [sarif_reports] as the iteration leaves it.  [None] from the [try]
    statement stands for the [continue] of its handler. *)
Definition process_report (running_config : RunningConfiguration)
    (output_directory report : string) (sarif_reports : list string)
  : M W (list string) :=
  if negb (PyStr.contains "audit-report" report) then ret sarif_reports
  else
    let report_path := PosixPath.join output_directory report in
    log DEBUG ("Converting '" +++ report_path +++ "' to SARIF") ;;
    let openapi := openapi_file report in
    log DEBUG ("Using '" +++ openapi +++ "' as input OpenAPI file for the SARIF generator") ;;
    let sarif := sarif_file report_path in
    log DEBUG ("Using '" +++ sarif +++ "' as output SARIF file") ;;
    converted <-
      try_except
        (execute (CmdList (convert_cmd report_path openapi sarif)) false ;;
         ret (Some (sarif_reports ++ [sarif])))
        (fun e =>
           match e with
           | ExecutionError message =>
               Some (log ERROR (display_header "Convert to SARIF command failed" message) ;;
                     ret None)
           | _ => None
           end) ;;
    match converted with
    | None => ret sarif_reports
    | Some sarif_reports' =>
        upload_and_enforce running_config sarif ;;
        ret sarif_reports'
    end.

(** [for report in os.listdir(output_directory): ...] *)
Fixpoint process_reports (running_config : RunningConfiguration)
    (output_directory : string) (reports : list string) (sarif_reports : list string)
  : M W (list string) :=
  match reports with
  | [] => ret sarif_reports
  | report :: rest =>
      sarif_reports' <- process_report running_config output_directory report sarif_reports ;;
      process_reports running_config output_directory rest sarif_reports'
  end.

(** [for report in results_files: logger.debug(f" - {report}")] *)
Fixpoint log_reports (results_files : list string) : M W unit :=
  match results_files with
  | [] => ret tt
  | report :: rest => log DEBUG (" - " +++ report) ;; log_reports rest
  end.

(** The first part of [discovery_run]: the audit itself.  It answers the
    output directory. *)
Definition run_audit (running_config : RunningConfiguration)
    (base_dir binaries : string) : M W string :=
  hex <- call_uuid4_hex ;;
  let output_directory := PosixPath.join base_dir hex in
  log DEBUG ("Running configuration: " +++ repr running_config) ;;
  let audit_cmd :=
    [Some "42ctl"; Some "audit"; Some "run"; Some "local";
     Some "-b"; Some binaries;
     Some "-i"; Some base_dir;
     Some "-r"; Some output_directory;
     Some "-c";
     Some "--github-user"; github_repository_owner running_config;
     Some "--github-org"; github_organization running_config;
     Some "--log-level"; Some (log_level running_config);
     Some "--github-repo"; github_repository running_config] in
  log INFO "Running audit" ;;
  log DEBUG ("Using GitHub user: "
             +++ PyStr.str_of_opt (github_repository_owner running_config)) ;;
  log DEBUG ("Using GitHub org: "
             +++ PyStr.str_of_opt (github_organization running_config)) ;;
  repo_name <-
    match github_repository running_config with
    | None => raise AttributeError
    | Some r =>
        match nth_error (PyStr.split "/" r) 1 with
        | Some name => ret name
        | None => raise IndexError
        end
    end ;;
  log DEBUG ("Using GitHub repo: " +++ repo_name) ;;
  log DEBUG ("Using log level: " +++ log_level running_config) ;;
  log DEBUG ("Using '" +++ output_directory +++ "' as result directory") ;;
  log DEBUG ("Using '" +++ base_dir +++ "' as input directory to look for OpenAPI files") ;;
  let audit_cmd :=
    if data_enrich running_config then audit_cmd ++ [Some "--enrich"] else audit_cmd in
  response <-
    try_except (execute (CmdList audit_cmd) true)
      (fun e =>
         match e with
         | ExecutionError message =>
             Some (log ERROR (display_header "Audit command failed" message) ;;
                   sys_exit 1)
         | _ => None
         end) ;;
  out <-
    match response with
    | Some (stdout_response, stderr_response) => ret (stdout_response, stderr_response)
    | None => raise TypeError
    end ;;
  print "STDOUT" ;;
  print (fst out) ;;
  print "STDERR" ;;
  print (snd out) ;;
  ret output_directory.

(** The second part: the output directory is listed for the debug log, and
    listed again for the loop.  It answers the second listing. *)
Definition list_reports (output_directory : string) : M W (list string) :=
  results_files <- call_listdir output_directory ;;
  log DEBUG ("Reports are generated at: '" +++ output_directory +++ "'") ;;
  log DEBUG ("Found " +++ PyStr.str_of_nat (List.length results_files)
             +++ " files in '" +++ output_directory +++ "'") ;;
  log_reports results_files ;;
  log INFO "Converting the audit reports to SARIF" ;;
  call_listdir output_directory.

(** The last part: the merge of the SARIF files. *)
Definition merge_sarif_files (running_config : RunningConfiguration)
    (sarif_reports : list string) : M W unit :=
  log DEBUG ("Merging SARIF files is " +++ enabled (PyStr.truthy (sarif_report running_config))) ;;
  if PyStr.truthy (sarif_report running_config) then
    log INFO ("Merging SARIF files into '"
              +++ PyStr.str_of_opt (sarif_report running_config) +++ "'") ;;
    try_except
      (execute (CmdList (merge_cmd (sarif_report running_config) sarif_reports)) false ;;
       ret tt)
      (fun e =>
         match e with
         | ExecutionError message =>
             Some (log ERROR (display_header "Merge SARIF files command failed" message) ;;
                   sys_exit 1)
         | _ => None
         end)
  else ret tt.

Definition discovery_run (running_config : RunningConfiguration)
    (base_dir binaries : string) : M W unit :=
  output_directory <- run_audit running_config base_dir binaries ;;
  reports <- list_reports output_directory ;;
  sarif_reports <- process_reports running_config output_directory reports [] ;;
  merge_sarif_files running_config sarif_reports.

End Script.

(** *** [extract_audit_log_text] *)

(** [audit_logs["audit_log"]], and the empty string on [KeyError]. *)
Definition extract_audit_log_text (audit_logs : json) : outcome json :=
  match getitem_key audit_logs "audit_log" with
  | Raise KeyError => Ret (JStr EmptyString)
  | r => r
  end.

(** *** [get_binary_path] and [main] *)

(** What the host tells: [platform.system()] and [os.path.isfile]. *)
Record host (W : Type) : Type := mkHost {
  platform_system : W -> string;
  os_path_isfile : W -> string -> bool
}.

Arguments platform_system {W} _ _.
Arguments os_path_isfile {W} _ _ _.

Section Main.

Context {W : Type} (w : world W) (h : host W).

Definition call_platform_system : M W string :=
  fun s => (Ret (platform_system h s), s, []).

Definition call_isfile (path : string) : M W bool :=
  fun s => (Ret (os_path_isfile h s path), s, []).

Definition _get_audit_binary (_is_local_development : bool) : M W string :=
  if _is_local_development then ret "/usr/local/bin/42c-ast-darwin-amd64"
  else
    system <- call_platform_system ;;
    if system =? "Windows" then ret "/usr/local/bin/42c-ast-windows-amd64.exe"
    else
      system <- call_platform_system ;;
      if system =? "Darwin" then ret "/usr/local/bin/42c-ast-darwin-amd64"
      else
        system <- call_platform_system ;;
        if system =? "Linux" then ret "/usr/local/bin/42c-ast-linux-amd64"
        else
          print EmptyString ;;
          print "[!] Unable to detect operating system from GitHub action environment variables" ;;
          print EmptyString ;;
          sys_exit 1.

Definition _check_binary_exists (ast_binary : string) : M W unit :=
  found <- call_isfile ast_binary ;;
  if negb found then
    print EmptyString ;;
    print ("[!] Unable to find binary at " +++ ast_binary) ;;
    print EmptyString ;;
    sys_exit 1
  else ret tt.

Definition get_binary_path (env : environ) : M W string :=
  binary_path <-
    (if PyStr.truthy (getenv env "LOCAL_DEVELOPMENT" None)
     then _get_audit_binary true
     else _get_audit_binary false) ;;
  _check_binary_exists binary_path ;;
  ret binary_path.

(** What [logging.basicConfig] is given: the level and the format. *)
Definition basic_config (running_config : RunningConfiguration) : level * string :=
  if log_level running_config =? "debug"
  then (DEBUG, "[DEBUG]<*> %(message)s")
  else (INFO, "[*] %(message)s").

(** [main]; the logger set up by [basic_config] shows or hides the logged
    lines and changes none of the calls. *)
Definition main (env : environ) : M W unit :=
  binary <- get_binary_path env ;;
  current_dir <- call_getcwd w ;;
  let running_config := get_running_configuration env in
  discovery_run w running_config current_dir binary.

End Main.

(** * The vocabulary of the properties *)

(** ** Strings and names *)

(** [x] occurs in [m] as a substring. *)
Definition occurs_in (x m : string) : Prop := exists pre post, m = pre +++ x +++ post.

(** Every character of [s] is white space; the empty string is blank. *)
Fixpoint blank (s : string) : bool :=
  match s with
  | EmptyString => true
  | String c s' => PyStr.isspace c && blank s'
  end.

(** [s] is one of the sixteen spellings of "true" in upper and lower case. *)
Definition spells_true (s : string) : Prop :=
  exists c1 c2 c3 c4 : ascii,
    s = String c1 (String c2 (String c3 (String c4 EmptyString)))
    /\ (c1 = "t" \/ c1 = "T")%char
    /\ (c2 = "r" \/ c2 = "R")%char
    /\ (c3 = "u" \/ c3 = "U")%char
    /\ (c4 = "e" \/ c4 = "E")%char.

(** [s] ends with [suffix]. *)
Definition ends_with (suffix s : string) : Prop := exists stem, s = stem +++ suffix.

Definition report_suffix : string := ".audit-report.json".

Fixpoint drop (k : nat) (s : string) : string :=
  match k, s with
  | O, _ => s
  | S _, EmptyString => EmptyString
  | S k', String _ s' => drop k' s'
  end.

(** No proper, non-empty end of [p] is a start of [p]: two occurrences of [p]
    cannot overlap. *)
Definition overlap_free (p : string) : bool :=
  forallb (fun k => negb (prefix (drop k p) p)) (seq 1 (String.length p - 1)).

(** ** Reading a trace *)

Definition is_network (e : event) : bool :=
  match e with
  | EvUrlopen _ _ => true
  | _ => false
  end.

Definition is_run (e : event) : bool :=
  match e with
  | EvRun _ _ => true
  | _ => false
  end.

Definition is_error_log (e : event) : bool :=
  match e with
  | EvLog ERROR _ => true
  | _ => false
  end.

Fixpoint words_prefix (p cmd : list string) : bool :=
  match p, cmd with
  | [], _ => true
  | _ :: _, [] => false
  | x :: p', y :: cmd' => (x =? y) && words_prefix p' cmd'
  end.

Definition is_convert (cmd : list string) : bool :=
  words_prefix ["42ctl"; "audit"; "report"; "sarif"; "convert"] cmd.

Definition is_merge (cmd : list string) : bool :=
  words_prefix ["42ctl"; "audit"; "report"; "sarif"; "merge"] cmd.

(** The conversions a trace started, each with its result. *)
Definition conversions (t : list event) : list (list string * completed) :=
  flat_map (fun e =>
              match e with
              | EvRun cmd r => if is_convert cmd then [(cmd, r)] else []
              | _ => []
              end) t.

(** The merge commands a trace started. *)
Definition merges (t : list event) : list (list string) :=
  flat_map (fun e =>
              match e with
              | EvRun cmd _ => if is_merge cmd then [cmd] else []
              | _ => []
              end) t.

(** The SARIF files of the conversions that exited with zero: the argument
    of [-o] of each. *)
Definition converted (t : list event) : list string :=
  flat_map (fun c => if (returncode (snd c) =? 0)%Z then [nth 10 (fst c) EmptyString] else [])
    (conversions t).

(** The directory listings a trace obtained. *)
Definition listings (t : list event) : list (string * list string) :=
  flat_map (fun e =>
              match e with
              | EvListdir path (Some names) => [(path, names)]
              | _ => []
              end) t.

(** A report file carries the marker in its name. *)
Definition marked (report : string) : bool := PyStr.contains "audit-report" report.

(** The conversion command of a report, as [subprocess.run] receives it. *)
Definition convert_args (output_directory report : string) : list string :=
  ["42ctl"; "audit"; "report"; "sarif"; "convert";
   "-r"; PosixPath.join output_directory report;
   "-a"; openapi_file report;
   "-o"; sarif_file (PosixPath.join output_directory report)].

(** The merge command for the output [out] and the files [files]. *)
Definition merge_args (out : string) (files : list string) : list string :=
  ["42ctl"; "audit"; "report"; "sarif"; "merge"; "-o"; out] ++ files.

(** What the three debug lines before a conversion say. *)
Definition conversion_logs (output_directory report : string) : list event :=
  [EvLog DEBUG ("Converting '" +++ PosixPath.join output_directory report +++ "' to SARIF");
   EvLog DEBUG ("Using '" +++ openapi_file report
                +++ "' as input OpenAPI file for the SARIF generator");
   EvLog DEBUG ("Using '" +++ sarif_file (PosixPath.join output_directory report)
                +++ "' as output SARIF file")].

(** The files the gate opened, in their order. *)
Definition checked (t : list event) : list string :=
  flat_map (fun e =>
              match e with
              | EvOpenText path _ => [path]
              | _ => []
              end) t.

(** ** The outcome of a command *)

(** The lines of the failure message for one captured stream: none when
    nothing was captured, no answer when the bytes have no text. *)
Definition stream_lines {W} (w : world W) (name bytes : string) : option (list string) :=
  if PyStr.is_empty bytes then Some []
  else option_map (fun text => [name +++ ": " +++ text]) (bytes_decode w bytes).

(** The message of the [ExecutionError] for a completed process, when its
    output has a text. *)
Definition failure_message {W} (w : world W) (result : completed) : option string :=
  match stream_lines w "stdout" (stdout result) with
  | None => None
  | Some out =>
      match stream_lines w "stderr" (stderr result) with
      | None => None
      | Some err =>
          Some (PyStr.join PyStr.nl
                  (["Command failed with exit code " +++ PyStr.str_of_Z (returncode result)]
                   ++ out ++ err))
      end
  end.

(** How [execute] ends once the process has completed. *)
Definition execute_outcome {W} (w : world W) (result : completed) (capture_output : bool)
  : outcome (option (string * string)) :=
  if (returncode result =? 0)%Z then
    if capture_output then
      match bytes_decode w (stdout result), bytes_decode w (stderr result) with
      | Some out, Some err => Ret (Some (out, err))
      | _, _ => Raise UnicodeDecodeError
      end
    else Ret None
  else
    match failure_message w result with
    | Some message => Raise (ExecutionError message)
    | None => Raise UnicodeDecodeError
    end.

(** A command that failed and whose captured output has no text. *)
Definition garbled {W} (w : world W) (e : event) : bool :=
  match e with
  | EvRun _ result =>
      negb (returncode result =? 0)%Z
      && match failure_message w result with
         | Some _ => false
         | None => true
         end
  | _ => false
  end.

(** Neither a subprocess nor a directory listing. *)
Definition quiet (e : event) : bool :=
  match e with
  | EvRun _ _ | EvListdir _ _ => false
  | _ => true
  end.

(** Neither a conversion, nor a merge, nor a directory listing. *)
Definition preliminary (e : event) : bool :=
  match e with
  | EvRun cmd _ => negb (is_convert cmd) && negb (is_merge cmd)
  | EvListdir _ _ => false
  | _ => true
  end.

(** Not the read of a gate file. *)
Definition no_gate_read (e : event) : bool :=
  match e with
  | EvOpenText _ _ => false
  | _ => true
  end.

(** Every event of [m] satisfies [p], from every state. *)
Definition emits_only {W A} (p : event -> bool) (m : M W A) : Prop :=
  forall s, forallb p (events_of (m s)) = true.

(** ** The gate in a trace *)

(** The gate file read by this event has findings. *)
Definition finds_issues {W} (w : world W) (e : event) : bool :=
  match e with
  | EvOpenText _ (Some content) =>
      match json_loads w content with
      | Some doc =>
          match security_issues_in doc with
          | Ret (true, _) => true
          | _ => false
          end
      | None => false
      end
  | _ => false
  end.






(** ** Sample worlds *)

(** UTF-8, for the texts the embedding has: one byte below 128 is its
    character, the two-byte sequences of U+0080..U+00FF are theirs, and
    every other sequence has no answer. *)
Fixpoint utf8_decode (bytes : string) : option string :=
  match bytes with
  | EmptyString => Some EmptyString
  | String b rest =>
      let n := nat_of_ascii b in
      if (n <? 128)%nat then option_map (String b) (utf8_decode rest)
      else if ((n =? 194) || (n =? 195))%nat then
        match rest with
        | String c rest' =>
            let m := nat_of_ascii c in
            if ((128 <=? m) && (m <? 192))%nat then
              option_map (String (ascii_of_nat (if (n =? 194)%nat then m else m + 64)))
                (utf8_decode rest')
            else None
        | EmptyString => None
        end
      else None
  end.

(** One byte that is not UTF-8. *)
Definition not_utf8 : string := String (ascii_of_nat 255) EmptyString.

(** A world without state: every call is answered from a table, every
    executable starts and the codec is [utf8_decode]. *)
Definition table_world (run : list string -> completed)
    (listing : string -> option (list string)) (files : string -> option string)
    (parse : string -> option json) (http : request -> http_result) : world unit :=
  {| uuid4_hex := fun s => ("c0ffee", s);
     subprocess_start := fun _ => None;
     subprocess_run := fun s cmd => (run cmd, s);
     os_listdir := fun s path => (listing path, s);
     read_file := fun s path => (files path, s);
     os_getcwd := fun _ => "/github/workspace";
     os_path_abspath := fun _ path => PosixPath.join "/github/workspace" path;
     urlopen := fun s req => (http req, s);
     json_loads := parse;
     gzip_compress := fun b => b;
     b64encode := fun b => b;
     bytes_decode := utf8_decode |}.

(** The world [w] in which the executable [name] does not exist. *)
Definition without_executable {W} (w : world W) (name : string) : world W :=
  {| uuid4_hex := uuid4_hex w;
     subprocess_start := fun executable =>
                           if executable =? name then Some NoSuchFile
                           else subprocess_start w executable;
     subprocess_run := subprocess_run w;
     os_listdir := os_listdir w;
     read_file := read_file w;
     os_getcwd := os_getcwd w;
     os_path_abspath := os_path_abspath w;
     urlopen := urlopen w;
     json_loads := json_loads w;
     gzip_compress := gzip_compress w;
     b64encode := b64encode w;
     bytes_decode := bytes_decode w |}.

Definition succeeded : completed := mkCompleted 0 EmptyString EmptyString.

(** A SARIF document with [n] results in its first run. *)
Definition sarif_doc (n : nat) : json :=
  JDict [("version", JStr "2.1.0");
         ("runs", JList [JDict [("tool", JDict []);
                                ("results", JList (repeat (JDict []) n))]])].

(** Three files: one with three results, one with none, one without [runs];
    a fourth that is not JSON.  The file contents stand for the documents. *)
Definition gate_files (path : string) : option string :=
  if path =? "three.sarif" then Some "three results"
  else if path =? "clean.sarif" then Some "no result"
  else if path =? "noruns.sarif" then Some "no runs"
  else if path =? "broken.sarif" then Some "<html>"
  else None.

Definition gate_parse (content : string) : option json :=
  if content =? "three results" then Some (sarif_doc 3)
  else if content =? "no result" then Some (sarif_doc 0)
  else if content =? "no runs" then Some (JDict [("version", JStr "2.1.0")])
  else None.

Definition gate_world : world unit :=
  table_world (fun _ => succeeded) (fun _ => Some []) gate_files gate_parse
    (fun _ => HttpOk EmptyString).

(** The subprocess exits with code 2 and writes "boom" to stderr. *)
Definition boom_world : world unit :=
  table_world (fun _ => mkCompleted 2 EmptyString "boom") (fun _ => Some [])
    (fun _ => None) (fun _ => None) (fun _ => HttpOk EmptyString).

(** The subprocess exits with code 2 and writes "boom" and a byte that is
    not UTF-8 to stderr. *)
Definition garbled_boom_world : world unit :=
  table_world (fun _ => mkCompleted 2 EmptyString ("boom" +++ not_utf8)) (fun _ => Some [])
    (fun _ => None) (fun _ => None) (fun _ => HttpOk EmptyString).

(** An environment in which only [INPUT_TOKEN] is set, to three spaces. *)
Definition blank_token_env : environ :=
  fun name => if name =? "INPUT_TOKEN" then Some "   " else None.

Definition three_reports : list string :=
  ["a.yaml.audit-report.json"; "b.yaml.audit-report.json"; "c.yaml.audit-report.json"].

(** The conversion of [b.yaml] fails; every other command succeeds. *)
Definition second_fails (cmd : list string) : completed :=
  if is_convert cmd && (nth 8 cmd EmptyString =? "b.yaml")
  then mkCompleted 1 EmptyString "cannot convert"
  else succeeded.

(** The conversion of [b.yaml] fails and writes a byte that is not UTF-8
    to stderr; every other command succeeds. *)
Definition second_garbled (cmd : list string) : completed :=
  if is_convert cmd && (nth 8 cmd EmptyString =? "b.yaml")
  then mkCompleted 1 EmptyString not_utf8
  else succeeded.

(** The SARIF file of [b.yaml] has three results, the other two have none. *)
Definition sarif_files (path : string) : option string :=
  if path =? "a.yaml.audit-report.sarif" then Some "no result"
  else if path =? "b.yaml.audit-report.sarif" then Some "three results"
  else if path =? "c.yaml.audit-report.sarif" then Some "no result"
  else None.

Definition second_fails_world : world unit :=
  table_world second_fails (fun _ => Some three_reports) sarif_files gate_parse
    (fun _ => HttpOk EmptyString).

Definition second_garbled_world : world unit :=
  table_world second_garbled (fun _ => Some three_reports) sarif_files gate_parse
    (fun _ => HttpOk EmptyString).

Definition findings_world : world unit :=
  table_world (fun _ => succeeded) (fun _ => Some three_reports) sarif_files gate_parse
    (fun _ => HttpOk EmptyString).

Definition sample_config (enforce : bool) (repository : option string)
  : RunningConfiguration :=
  {| enforce := enforce;
     log_level := "info";
     data_enrich := false;
     upload_to_code_scanning := false;
     sarif_report := Some "merged.sarif";
     export_as_pdf := None;
     github_token := Some "secret";
     github_repository := repository;
     github_organization := Some "owner";
     github_repository_owner := Some "owner";
     github_ref := Some "refs/heads/main";
     github_sha := Some "abc123" |}.

Definition sample_run (w : world unit) (enforce : bool) :=
  discovery_run w (sample_config enforce (Some "owner/repo")) "/github/workspace"
    "/usr/local/bin/42c-ast-linux-amd64" tt.



(** ** The upload request *)

(** The request of an upload: for the token, the repository, the commit, the
    ref, the encoded file and the working directory. *)
Definition upload_request (token repository : string) (github_sha ref : option string)
    (zipped_sarif cwd : string) : request :=
  {| url := "https://api.github.com/repos/" +++ repository +++ "/code-scanning/sarifs";
     headers := [("Authorization", "Bearer " +++ token);
                 ("Accept", "application/vnd.github+json");
                 ("X-GitHub-Api-Version", "2022-11-28")];
     data := {| commit_sha := github_sha;
                ref := ref;
                sarif := zipped_sarif;
                tool_name := "42Crunch REST API Static Security Testing";
                checkout_uri := "file://" +++ cwd |} |}.

(** What [upload_sarif] logs after the answer [response]: the banner of an
    HTTP error whose body has a text. *)
Definition upload_answer_logs {W} (w : world W) (response : http_result) : list event :=
  match response with
  | HttpError code reason body =>
      match bytes_decode w body with
      | Some text =>
          [EvLog ERROR
             (display_header ("Unable to upload SARIF file to GitHub code scanning: "
                              +++ PyStr.str_of_Z code +++ ". " +++ reason) text)]
      | None => []
      end
  | _ => []
  end.

(** How [upload_sarif] ends after the answer [response]. *)
Definition upload_answer_outcome {W A} (w : world W) (response : http_result) (a : A)
  : outcome A :=
  match response with
  | HttpOk body =>
      match bytes_decode w body with
      | Some _ => Ret a
      | None => Raise TypeError
      end
  | HttpError _ _ body =>
      match bytes_decode w body with
      | Some _ => Exit 1
      | None => Raise UnicodeDecodeError
      end
  | OtherError _ => Raise TypeError
  end.

(** ** The audit command *)

(** The audit command as [subprocess.run] receives it, for a configuration
    whose owner, organization and repository are set. *)
Definition audit_args (running_config : RunningConfiguration)
    (owner organization repository base_dir binaries output_directory : string)
  : list string :=
  ["42ctl"; "audit"; "run"; "local";
   "-b"; binaries;
   "-i"; base_dir;
   "-r"; output_directory;
   "-c";
   "--github-user"; owner;
   "--github-org"; organization;
   "--log-level"; log_level running_config;
   "--github-repo"; repository]
  ++ (if data_enrich running_config then ["--enrich"] else []).

(** What [discovery_run] logs before it starts the audit, after the line
    with the configuration. *)
Definition audit_logs (running_config : RunningConfiguration)
    (repo_name base_dir output_directory : string) : list event :=
  [EvLog INFO "Running audit";
   EvLog DEBUG ("Using GitHub user: "
                +++ PyStr.str_of_opt (github_repository_owner running_config));
   EvLog DEBUG ("Using GitHub org: "
                +++ PyStr.str_of_opt (github_organization running_config));
   EvLog DEBUG ("Using GitHub repo: " +++ repo_name);
   EvLog DEBUG ("Using log level: " +++ log_level running_config);
   EvLog DEBUG ("Using '" +++ output_directory +++ "' as result directory");
   EvLog DEBUG ("Using '" +++ base_dir +++ "' as input directory to look for OpenAPI files")].

(** ** Uploads in a trace *)

(** Neither a connection nor the read of a file for an upload. *)
Definition no_upload (e : event) : bool :=
  match e with
  | EvUrlopen _ _ | EvOpenBytes _ _ => false
  | _ => true
  end.

(** An upload that was not answered well: an error, or an answer whose
    body has no text. *)
Definition failed_upload {W} (w : world W) (e : event) : bool :=
  match e with
  | EvUrlopen _ (HttpOk body) =>
      match bytes_decode w body with
      | Some _ => false
      | None => true
      end
  | EvUrlopen _ _ => true
  | _ => false
  end.

(** What is logged after the event of a failed upload. *)
Definition upload_tail {W} (w : world W) (e : event) : list event :=
  match e with
  | EvUrlopen _ response => upload_answer_logs w response
  | _ => []
  end.

(** ** Events that end a computation *)

(** How a computation is ended from within. *)
Inductive ending : Type :=
| EndExit (code : Z)
| EndRaise (e : exn).

Definition ended {A} (h : ending) : outcome A :=
  match h with
  | EndExit code => Exit code
  | EndRaise e => Raise e
  end.

(** How the event of a failed upload ends the computation. *)
Definition upload_ending {W} (w : world W) (e : event) : ending :=
  match e with
  | EvUrlopen _ (HttpError _ _ body) =>
      match bytes_decode w body with
      | Some _ => EndExit 1
      | None => EndRaise UnicodeDecodeError
      end
  | _ => EndRaise TypeError
  end.

(** Either no event of [t] is [bad], or the first [bad] event is the last
    one but for [tail], and the computation ended as [final] says. *)
Definition halted_by {A} (bad : event -> bool) (tail : event -> list event)
    (final : event -> ending) (o : outcome A) (t : list event) : Prop :=
  existsb bad t = false
  \/ exists pre g,
       t = pre ++ g :: tail g
       /\ existsb bad pre = false
       /\ bad g = true
       /\ o = ended (final g).

Definition halts {W A} (bad : event -> bool) (tail : event -> list event)
    (final : event -> ending) (m : M W A) : Prop :=
  forall s, halted_by bad tail final (outcome_of (m s)) (events_of (m s)).


(** ** More sample worlds *)

(** An environment with a log level in upper case, and one with a level
    that does not exist. *)
Definition log_level_env (value : string) : environ :=
  fun name => if name =? "INPUT_LOG-LEVEL" then Some value else None.

(** A file whose document is a list, not a mapping. *)
Definition list_document_world : world unit :=
  table_world (fun _ => succeeded) (fun _ => Some [])
    (fun _ => Some "[]") (fun _ => Some (JList [])) (fun _ => HttpOk EmptyString).

(** The server answers 403. *)
Definition forbidden_world : world unit :=
  table_world (fun _ => succeeded) (fun _ => Some three_reports) sarif_files gate_parse
    (fun _ => HttpError 403 "Forbidden" "Resource not accessible by integration").

(** The server answers 502 with a body that is not UTF-8. *)
Definition bad_gateway_world : world unit :=
  table_world (fun _ => succeeded) (fun _ => Some three_reports) sarif_files gate_parse
    (fun _ => HttpError 502 "Bad Gateway" not_utf8).

(** The connection fails. *)
Definition offline_world : world unit :=
  table_world (fun _ => succeeded) (fun _ => Some three_reports) sarif_files gate_parse
    (fun _ => OtherError "Name or service not known").

(** The audit exits with code 3 and writes a byte that is not UTF-8 to
    stdout. *)
Definition audit_garbled_world : world unit :=
  table_world (fun _ => mkCompleted 3 not_utf8 EmptyString) (fun _ => None)
    (fun _ => None) (fun _ => None) (fun _ => HttpOk EmptyString).

(** The audit exits with code 3; nothing else is asked of this world. *)
Definition audit_fails_world : world unit :=
  table_world (fun _ => mkCompleted 3 "scanning" "no OpenAPI file found") (fun _ => None)
    (fun _ => None) (fun _ => None) (fun _ => HttpOk EmptyString).

(** A configuration whose owner is not set. *)
Definition no_owner_config : RunningConfiguration :=
  {| enforce := false;
     log_level := "info";
     data_enrich := false;
     upload_to_code_scanning := false;
     sarif_report := None;
     export_as_pdf := None;
     github_token := None;
     github_repository := Some "owner/repo";
     github_organization := Some "owner";
     github_repository_owner := None;
     github_ref := None;
     github_sha := None |}.

(** The audit leaves only a log file in the output directory. *)
Definition no_report_world : world unit :=
  table_world (fun _ => succeeded) (fun _ => Some ["audit.log"]) (fun _ => None)
    (fun _ => None) (fun _ => HttpOk EmptyString).

(** Every command succeeds but the merge. *)
Definition merge_fails (cmd : list string) : completed :=
  if is_merge cmd then mkCompleted 1 EmptyString "cannot merge" else succeeded.

Definition merge_fails_world : world unit :=
  table_world merge_fails (fun _ => Some three_reports) sarif_files gate_parse
    (fun _ => HttpOk EmptyString).

(** Every command succeeds but the merge, which writes a byte that is not
    UTF-8 to stderr. *)
Definition merge_garbled (cmd : list string) : completed :=
  if is_merge cmd then mkCompleted 1 EmptyString not_utf8 else succeeded.

Definition merge_garbled_world : world unit :=
  table_world merge_garbled (fun _ => Some three_reports) sarif_files gate_parse
    (fun _ => HttpOk EmptyString).

(** Every conversion fails. *)
Definition conversions_fail (cmd : list string) : completed :=
  if is_convert cmd then mkCompleted 1 EmptyString "cannot convert" else succeeded.

Definition conversions_fail_world : world unit :=
  table_world conversions_fail (fun _ => Some three_reports) sarif_files gate_parse
    (fun _ => HttpOk EmptyString).

(** Uploads are on, enforcement is off. *)
Definition upload_config : RunningConfiguration :=
  {| enforce := false;
     log_level := "info";
     data_enrich := false;
     upload_to_code_scanning := true;
     sarif_report := Some "merged.sarif";
     export_as_pdf := None;
     github_token := Some "secret";
     github_repository := Some "owner/repo";
     github_organization := Some "owner";
     github_repository_owner := Some "owner";
     github_ref := Some "refs/heads/main";
     github_sha := Some "abc123" |}.

(** A run with three reports in which the server answers 403. *)
Definition forbidden_run : outcome unit * unit * list event :=
  discovery_run forbidden_world upload_config "/github/workspace"
    "/usr/local/bin/42c-ast-linux-amd64" tt.

(** A run with three reports in which the server answers 502 with a body
    that is not UTF-8. *)
Definition bad_gateway_run : outcome unit * unit * list event :=
  discovery_run bad_gateway_world upload_config "/github/workspace"
    "/usr/local/bin/42c-ast-linux-amd64" tt.

(** The three paths [get_binary_path] knows. *)
Definition known_binaries : list string :=
  ["/usr/local/bin/42c-ast-windows-amd64.exe";
   "/usr/local/bin/42c-ast-darwin-amd64";
   "/usr/local/bin/42c-ast-linux-amd64"].

(** The path [get_binary_path] goes for: the macOS one under local
    development, else the one of the platform, and none for a platform it
    does not know. *)
Definition selected_binary (local_development : bool) (system : string) : option string :=
  if local_development then Some "/usr/local/bin/42c-ast-darwin-amd64"
  else if system =? "Windows" then Some "/usr/local/bin/42c-ast-windows-amd64.exe"
  else if system =? "Darwin" then Some "/usr/local/bin/42c-ast-darwin-amd64"
  else if system =? "Linux" then Some "/usr/local/bin/42c-ast-linux-amd64"
  else None.

(** Three printed lines: a message between two empty ones. *)
Definition notice (msg : string) : list event :=
  [EvPrint EmptyString; EvPrint msg; EvPrint EmptyString].

(** A host of the given platform that holds the given files. *)
Definition table_host (system : string) (files : list string) : host unit :=
  {| platform_system := fun _ => system;
     os_path_isfile := fun _ path => existsb (String.eqb path) files |}.

Definition local_development_env (value : string) : environ :=
  fun name => if name =? "LOCAL_DEVELOPMENT" then Some value else None.

(** * Properties *)

(** ** Examples of the string and path functions *)

Example lower_ex : PyStr.lower "TrUe" = "true".
Proof. reflexivity. Qed.

Example strip_ex : PyStr.strip "  a b  " = "a b".
Proof. reflexivity. Qed.

Example replace_ex :
  PyStr.replace ".audit-report.json" EmptyString "petstore.yaml.audit-report.json" = "petstore.yaml".
Proof. reflexivity. Qed.

Example split_ex : PyStr.split "/" "owner/repo" = ["owner"; "repo"].
Proof. reflexivity. Qed.

Example split_ex2 : PyStr.split "/" "myrepo" = ["myrepo"].
Proof. reflexivity. Qed.

Example splitext_ex :
  PosixPath.splitext "petstore.yaml.audit-report.json" = ("petstore.yaml.audit-report", ".json").
Proof. reflexivity. Qed.

Example splitext_ex2 : PosixPath.splitext ".bashrc" = (".bashrc", EmptyString).
Proof. reflexivity. Qed.

Example basename_ex : PosixPath.basename (PosixPath.join "/w/abc" "x.json") = "x.json".
Proof. reflexivity. Qed.

Example replace_overlap_ex : PyStr.replace "aa" EmptyString "aaa" = "a".
Proof. reflexivity. Qed.

Example split_trailing_ex : PyStr.split "/" "a/" = ["a"; EmptyString].
Proof. reflexivity. Qed.

Example join_ex :
  PosixPath.join "/w/" "x" = "/w/x" /\ PosixPath.join "/w" "/x" = "/x"
  /\ PosixPath.join EmptyString "x" = "x".
Proof. repeat split. Qed.

Example str_of_Z_ex : PyStr.str_of_Z (-9) = "-9" /\ PyStr.str_of_Z 0 = "0" /\ PyStr.str_of_nat 12 = "12".
Proof. repeat split. Qed.

(** ** Strings *)

Lemma append_assoc (a b c : string) : (a +++ b) +++ c = a +++ (b +++ c).
Proof. induction a as [|x a IH]; simpl; [reflexivity | now rewrite IH]. Qed.

Lemma append_empty_r (a : string) : a +++ EmptyString = a.
Proof. induction a as [|x a IH]; simpl; [reflexivity | now rewrite IH]. Qed.

Lemma length_append (a b : string) :
  String.length (a +++ b) = String.length a + String.length b.
Proof. induction a as [|x a IH]; simpl; [reflexivity | now rewrite IH]. Qed.

Lemma occurs_in_here (x post : string) : occurs_in x (x +++ post).
Proof. exists EmptyString, post. reflexivity. Qed.

Lemma occurs_in_append_l (x a m : string) : occurs_in x m -> occurs_in x (a +++ m).
Proof.
  intros (pre & post & ->). exists (a +++ pre), post. now rewrite append_assoc.
Qed.

Lemma occurs_in_append_r (x a m : string) : occurs_in x m -> occurs_in x (m +++ a).
Proof.
  intros (pre & post & ->). exists pre, (post +++ a). now rewrite !append_assoc.
Qed.

Lemma occurs_in_end (x : string) : occurs_in x x.
Proof. exists EmptyString, EmptyString. simpl. now rewrite append_empty_r. Qed.

Lemma prefix_iff (p s : string) : prefix p s = true <-> exists post, s = p +++ post.
Proof.
  revert s. induction p as [|a p IH]; intros s; simpl.
  - destruct s; split; eauto.
  - destruct s as [|b s].
    + split; [discriminate|]. intros (post & H). discriminate H.
    + simpl. destruct (ascii_dec a b) as [->|Hab].
      * rewrite IH. split; intros (post & H); exists post; congruence.
      * split; [discriminate|]. intros (post & H). congruence.
Qed.

Lemma prefix_refl (p : string) : prefix p p = true.
Proof. apply prefix_iff. exists EmptyString. now rewrite append_empty_r. Qed.

Lemma prefix_append (p x y : string) :
  prefix p (x +++ y) = true ->
  prefix p x = true
  \/ (String.length x < String.length p /\ prefix (drop (String.length x) p) y = true).
Proof.
  revert p. induction x as [|c x IH]; intros p H.
  - destruct p as [|a p]; [left; reflexivity|]. right. simpl. split; [lia|exact H].
  - destruct p as [|a p]; [left; reflexivity|].
    simpl in H. simpl. destruct (ascii_dec a c) as [_|_]; [|discriminate H].
    destruct (IH p H) as [Hl | [Hlt Hr]]; [now left|]. right. split; [lia|exact Hr].
Qed.

Lemma contains_iff (sub s : string) : PyStr.contains sub s = true <-> occurs_in sub s.
Proof.
  induction s as [|c s IH]; cbn [PyStr.contains].
  - rewrite orb_false_r, prefix_iff. split.
    + intros (post & H). exists EmptyString, post. exact H.
    + intros (pre & post & H). destruct pre; [now exists post|discriminate H].
  - rewrite orb_true_iff, prefix_iff, IH. split.
    + intros [(post & H) | (pre & post & H)].
      * exists EmptyString, post. exact H.
      * exists (String c pre), post. simpl. now rewrite H.
    + intros (pre & post & H). destruct pre as [|d pre]; simpl in H.
      * left. now exists post.
      * right. exists pre, post. congruence.
Qed.

Lemma not_contains_iff (sub s : string) :
  PyStr.contains sub s = false <-> ~ occurs_in sub s.
Proof.
  rewrite <- contains_iff. destruct (PyStr.contains sub s); split; congruence.
Qed.

Lemma contains_char_cons (c d : ascii) (s : string) :
  PyStr.contains (String c EmptyString) (String d s) =
  Ascii.eqb d c || PyStr.contains (String c EmptyString) s.
Proof.
  simpl. destruct (ascii_dec c d) as [->|H].
  - rewrite Ascii.eqb_refl. now destruct s.
  - apply not_eq_sym in H. apply Ascii.eqb_neq in H. now rewrite H.
Qed.

Lemma split_no_sep (c : ascii) (s : string) :
  PyStr.contains (String c EmptyString) s = false -> PyStr.split c s = [s].
Proof.
  induction s as [|d s IH]; [reflexivity|].
  rewrite contains_char_cons. intros H. apply orb_false_iff in H as [Hd Hs].
  simpl. rewrite Hd, (IH Hs). reflexivity.
Qed.

Lemma lstrip_blank (s : string) : blank s = true -> PyStr.lstrip s = EmptyString.
Proof.
  induction s as [|c s IH]; simpl; [reflexivity|].
  intros H. apply andb_true_iff in H as [Hc Hs]. rewrite Hc. auto.
Qed.

Lemma rstrip_empty_blank (s : string) : PyStr.rstrip s = EmptyString -> blank s = true.
Proof.
  induction s as [|c s IH]; simpl; [reflexivity|].
  destruct (PyStr.isspace c); simpl; [|discriminate].
  destruct (PyStr.rstrip s); simpl; [auto | discriminate].
Qed.

Lemma lstrip_not_blank (s : string) :
  blank s = false -> blank (PyStr.lstrip s) = false.
Proof.
  induction s as [|c s IH]; simpl; [discriminate|].
  destruct (PyStr.isspace c) eqn:Hc; simpl; [auto|].
  now rewrite Hc.
Qed.

Lemma strip_empty_iff (s : string) : PyStr.strip s = EmptyString <-> blank s = true.
Proof.
  unfold PyStr.strip. split.
  - intros H. apply rstrip_empty_blank in H.
    destruct (blank s) eqn:Hb; [reflexivity|].
    apply lstrip_not_blank in Hb. congruence.
  - intros H. now rewrite (lstrip_blank _ H).
Qed.

Ltac dest_ascii c := destruct c as [[] [] [] [] [] [] [] []].

Lemma lower_char_t (c : ascii) :
  (PyStr.lower_char c = "t" <-> c = "t" \/ c = "T")%char.
Proof.
  split.
  - dest_ascii c; vm_compute; intros H; try discriminate H; auto.
  - intros [-> | ->]; reflexivity.
Qed.

Lemma lower_char_r (c : ascii) :
  (PyStr.lower_char c = "r" <-> c = "r" \/ c = "R")%char.
Proof.
  split.
  - dest_ascii c; vm_compute; intros H; try discriminate H; auto.
  - intros [-> | ->]; reflexivity.
Qed.

Lemma lower_char_u (c : ascii) :
  (PyStr.lower_char c = "u" <-> c = "u" \/ c = "U")%char.
Proof.
  split.
  - dest_ascii c; vm_compute; intros H; try discriminate H; auto.
  - intros [-> | ->]; reflexivity.
Qed.

Lemma lower_char_e (c : ascii) :
  (PyStr.lower_char c = "e" <-> c = "e" \/ c = "E")%char.
Proof.
  split.
  - dest_ascii c; vm_compute; intros H; try discriminate H; auto.
  - intros [-> | ->]; reflexivity.
Qed.

Lemma lower_true_iff (s : string) : PyStr.lower s = "true" <-> spells_true s.
Proof.
  split.
  - intros H.
    destruct s as [|c1 [|c2 [|c3 [|c4 [|c5 s]]]]]; simpl in H; try discriminate H.
    injection H as H1 H2 H3 H4.
    exists c1, c2, c3, c4. split; [reflexivity|].
    rewrite <- lower_char_t, <- lower_char_r, <- lower_char_u, <- lower_char_e. auto.
  - intros (c1 & c2 & c3 & c4 & -> & H1 & H2 & H3 & H4). simpl.
    apply lower_char_t in H1. apply lower_char_r in H2.
    apply lower_char_u in H3. apply lower_char_e in H4. congruence.
Qed.

(** ** The configuration loader *)

Lemma none_or_empty_spec (value : option string) :
  _none_or_empty value =
  match value with
  | Some s => if blank s then None else Some s
  | None => None
  end.
Proof.
  destruct value as [s|]; simpl; [|reflexivity].
  destruct (String.eqb_spec (PyStr.strip s) EmptyString) as [E|E].
  - apply strip_empty_iff in E. now rewrite E.
  - destruct (blank s) eqn:Hb; [|reflexivity].
    apply strip_empty_iff in Hb. contradiction.
Qed.

Lemma to_bool_spec (value : option string) :
  _to_bool value = true <-> exists s, value = Some s /\ spells_true s.
Proof.
  destruct value as [v|]; simpl.
  - destruct (String.eqb_spec (PyStr.lower v) "true") as [E|E].
    + split; [|reflexivity]. intros _. exists v. split; [reflexivity|].
      now apply lower_true_iff.
    + split; [discriminate|]. intros (s & [= <-] & Hs).
      apply lower_true_iff in Hs. contradiction.
  - split; [discriminate|]. intros (s & H & _). discriminate H.
Qed.

Lemma spells_true_false : ~ spells_true "false".
Proof. intros (c1 & c2 & c3 & c4 & H & _). discriminate H. Qed.

Lemma to_bool_getenv (env : environ) (name : string) :
  _to_bool (getenv env name (Some "false")) = true
  <-> exists s, env name = Some s /\ spells_true s.
Proof.
  rewrite to_bool_spec. unfold getenv.
  destruct (env name) as [v|].
  - reflexivity.
  - split.
    + intros (s & [= <-] & Hs). exfalso. exact (spells_true_false Hs).
    + intros (s & H & _). discriminate H.
Qed.

Lemma post_init_fields (c : RunningConfiguration) :
  enforce (post_init c) = enforce c
  /\ data_enrich (post_init c) = data_enrich c
  /\ upload_to_code_scanning (post_init c) = upload_to_code_scanning c
  /\ sarif_report (post_init c) = sarif_report c
  /\ export_as_pdf (post_init c) = export_as_pdf c
  /\ github_token (post_init c) = github_token c
  /\ github_repository (post_init c) = github_repository c
  /\ github_organization (post_init c) = github_organization c
  /\ github_repository_owner (post_init c) = github_repository_owner c
  /\ github_ref (post_init c) = github_ref c
  /\ github_sha (post_init c) = github_sha c.
Proof. unfold post_init. destruct (PyStr.is_empty (log_level c)); repeat split. Qed.

(** C8. A boolean input is true exactly when the variable is set to one of
    the spellings of "true" in upper and lower case; every other value, and
    a variable that is not set, gives false.  This holds for [_to_bool] and
    for the three flags of the configuration. *)
Theorem to_bool_only_true (env : environ) (value : option string) :
  (_to_bool value = true <-> exists s, value = Some s /\ spells_true s)
  /\ (_to_bool value = false <-> ~ exists s, value = Some s /\ spells_true s)
  /\ (enforce (get_running_configuration env) = true
      <-> exists s, env "INPUT_ENFORCE-SQG" = Some s /\ spells_true s)
  /\ (data_enrich (get_running_configuration env) = true
      <-> exists s, env "INPUT_DATA-ENRICH" = Some s /\ spells_true s)
  /\ (upload_to_code_scanning (get_running_configuration env) = true
      <-> exists s, env "INPUT_UPLOAD-TO-CODE-SCANNING" = Some s /\ spells_true s).
Proof.
  split; [apply to_bool_spec|].
  split.
  { rewrite <- to_bool_spec. destruct (_to_bool value); split; intros H;
      try discriminate; try reflexivity; try (exfalso; now apply H). }
  unfold get_running_configuration.
  match goal with
  | |- context [post_init ?c] => destruct (post_init_fields c) as (E1 & E2 & E3 & _)
  end.
  rewrite E1, E2, E3. simpl.
  repeat split; apply to_bool_getenv.
Qed.

Example to_bool_examples :
  _to_bool (Some "TRUE") = true /\ _to_bool (Some "tRuE") = true
  /\ _to_bool (Some "true ") = false /\ _to_bool (Some "yes") = false
  /\ _to_bool (Some "1") = false /\ _to_bool None = false.
Proof. repeat split. Qed.

(** C5, as the code has it.  The report path and the export path are absent
    when the variable is unset or blank and are the value of the variable
    otherwise; the token, the repository, the organization, the owner, the
    ref and the commit are the value of their variable as it is, blank or
    not. *)
Theorem string_inputs_resolved (env : environ) :
  let c := get_running_configuration env in
  sarif_report c =
    match env "INPUT_SARIF-REPORT" with
    | Some s => if blank s then None else Some s
    | None => None
    end
  /\ export_as_pdf c =
    match env "INPUT_EXPORT-AS-PDF" with
    | Some s => if blank s then None else Some s
    | None => None
    end
  /\ github_token c = env "INPUT_TOKEN"
  /\ github_repository c = env "GITHUB_REPOSITORY"
  /\ github_organization c = env "GITHUB_REPOSITORY_OWNER"
  /\ github_repository_owner c = env "GITHUB_REPOSITORY_OWNER"
  /\ github_ref c = env "GITHUB_REF"
  /\ github_sha c = env "GITHUB_SHA".
Proof.
  intros c. subst c. unfold get_running_configuration.
  match goal with
  | |- context [post_init ?c] =>
      destruct (post_init_fields c) as (_ & _ & _ & E4 & E5 & E6 & E7 & E8 & E9 & E10 & E11)
  end.
  rewrite E4, E5, E6, E7, E8, E9, E10, E11. simpl.
  rewrite !none_or_empty_spec. unfold getenv.
  repeat split;
    match goal with |- context [env ?n] => destruct (env n); reflexivity end.
Qed.

(** C5 as stated fails: a blank token is kept as it is. *)
Lemma blank_token_kept :
  blank "   " = true
  /\ blank_token_env "INPUT_TOKEN" = Some "   "
  /\ github_token (get_running_configuration blank_token_env) = Some "   "
  /\ github_token (get_running_configuration blank_token_env) <> None.
Proof. repeat split. discriminate. Qed.

(** ** The process runner *)

Lemma all_present_map_Some (args : list string) : all_present (map Some args) = true.
Proof. induction args; simpl; auto. Qed.

Lemma present_map_Some (args : list string) : present (map Some args) = args.
Proof. induction args; simpl; congruence. Qed.

Lemma call_subprocess_run_args {W} (w : world W) (executable : string)
    (rest : list string) (s : W) :
  call_subprocess_run w (map Some (executable :: rest)) s =
  match subprocess_start w executable with
  | Some e => (Raise (spawn_exn e), s, [])
  | None =>
      let args := executable :: rest in
      (Ret (fst (subprocess_run w s args)), snd (subprocess_run w s args),
       [EvRun args (fst (subprocess_run w s args))])
  end.
Proof.
  unfold call_subprocess_run.
  rewrite all_present_map_Some, present_map_Some.
  destruct (subprocess_start w executable); [reflexivity|].
  cbv zeta. now destruct (subprocess_run w s (executable :: rest)).
Qed.

(** What [execute] does after the process has completed: it emits
    nothing, keeps the state and ends as [execute_outcome] says. *)
Lemma execute_after_run {W} (w : world W) (result : completed) (capture_output : bool)
    (s : W) :
  (if negb (returncode result =? 0)%Z then
     let message :=
       ["Command failed with exit code " +++ PyStr.str_of_Z (returncode result)] in
     message <-
       (if negb (PyStr.is_empty (stdout result)) then
          text <- call_decode w (stdout result) ;;
          ret (message ++ ["stdout: " +++ text])
        else ret message) ;;
     message <-
       (if negb (PyStr.is_empty (stderr result)) then
          text <- call_decode w (stderr result) ;;
          ret (message ++ ["stderr: " +++ text])
        else ret message) ;;
     raise (ExecutionError (PyStr.join PyStr.nl message))
   else if capture_output then
     stdout_text <- call_decode w (stdout result) ;;
     stderr_text <- call_decode w (stderr result) ;;
     ret (Some (stdout_text, stderr_text))
   else ret None) s
  = (execute_outcome w result capture_output, s, []).
Proof.
  unfold execute_outcome, failure_message, stream_lines.
  destruct (returncode result =? 0)%Z; cbn [negb].
  - destruct capture_output; [|reflexivity].
    unfold bind, call_decode, ret.
    destruct (bytes_decode w (stdout result)); [|reflexivity].
    destruct (bytes_decode w (stderr result)); reflexivity.
  - cbv zeta. unfold bind, call_decode, ret, raise.
    destruct (PyStr.is_empty (stdout result)); cbn [negb].
    + destruct (PyStr.is_empty (stderr result)); cbn [negb]; [reflexivity|].
      destruct (bytes_decode w (stderr result)); reflexivity.
    + destruct (bytes_decode w (stdout result)); [|reflexivity]. cbn [option_map].
      destruct (PyStr.is_empty (stderr result)); cbn [negb]; [reflexivity|].
      destruct (bytes_decode w (stderr result)); reflexivity.
Qed.

Lemma execute_args {W} (w : world W) (command : command) (executable : string)
    (rest : list string) (capture_output : bool) (s : W) :
  argv command = map Some (executable :: rest) ->
  execute w command capture_output s =
  match subprocess_start w executable with
  | Some e => (Raise (spawn_exn e), s, [])
  | None =>
      let args := executable :: rest in
      let result := fst (subprocess_run w s args) in
      (execute_outcome w result capture_output, snd (subprocess_run w s args),
       [EvRun args result])
  end.
Proof.
  intros E. unfold execute. cbv zeta. unfold bind at 1.
  rewrite E, call_subprocess_run_args.
  destruct (subprocess_start w executable); [reflexivity|].
  pose proof (execute_after_run w (fst (subprocess_run w s (executable :: rest)))
                capture_output (snd (subprocess_run w s (executable :: rest)))) as H.
  cbv zeta in *. cbn beta iota. now rewrite H.
Qed.

Ltac occurs_with pre post :=
  exists pre, post; simpl; rewrite ?append_assoc, ?append_empty_r; simpl;
  rewrite ?append_assoc, ?append_empty_r; reflexivity.

Lemma failure_message_contains {W} (w : world W) (result : completed) (message : string) :
  failure_message w result = Some message ->
  occurs_in (PyStr.str_of_Z (returncode result)) message
  /\ (forall text, stdout result <> EmptyString ->
                   bytes_decode w (stdout result) = Some text -> occurs_in text message)
  /\ (forall text, stderr result <> EmptyString ->
                   bytes_decode w (stderr result) = Some text -> occurs_in text message).
Proof.
  destruct result as [rc out err]. unfold failure_message, stream_lines, PyStr.join.
  cbn [returncode stdout stderr].
  set (code := PyStr.str_of_Z rc).
  set (head := "Command failed with exit code ").
  destruct out as [|a out], err as [|b err]; cbn [PyStr.is_empty].
  - intros [= <-]. split; [occurs_with head EmptyString|].
    split; intros text H; now contradiction H.
  - destruct (bytes_decode w (String b err)) as [e|]; [|discriminate].
    intros [= <-]. split; [occurs_with head (PyStr.nl +++ "stderr: " +++ e)|].
    split; intros text H; [now contradiction H|].
    intros [= <-]. occurs_with (head +++ code +++ PyStr.nl +++ "stderr: ") EmptyString.
  - destruct (bytes_decode w (String a out)) as [o|]; [|discriminate].
    intros [= <-]. split; [occurs_with head (PyStr.nl +++ "stdout: " +++ o)|].
    split; intros text H; [|now contradiction H].
    intros [= <-]. occurs_with (head +++ code +++ PyStr.nl +++ "stdout: ") EmptyString.
  - destruct (bytes_decode w (String a out)) as [o|]; [|discriminate].
    destruct (bytes_decode w (String b err)) as [e|]; [|discriminate].
    intros [= <-].
    split; [occurs_with head
              (PyStr.nl +++ "stdout: " +++ o +++ PyStr.nl +++ "stderr: " +++ e)|].
    split; intros text H [= <-].
    + occurs_with (head +++ code +++ PyStr.nl +++ "stdout: ")
        (PyStr.nl +++ "stderr: " +++ e).
    + occurs_with (head +++ code +++ PyStr.nl +++ "stdout: " +++ o
                   +++ PyStr.nl +++ "stderr: ") EmptyString.
Qed.

Lemma failure_message_none {W} (w : world W) (result : completed) :
  failure_message w result = None
  <-> (stdout result <> EmptyString /\ bytes_decode w (stdout result) = None)
      \/ (stderr result <> EmptyString /\ bytes_decode w (stderr result) = None).
Proof.
  destruct result as [rc out err]. unfold failure_message, stream_lines.
  cbn [returncode stdout stderr].
  destruct out as [|a out], err as [|b err]; cbn [PyStr.is_empty];
    repeat match goal with
           | |- context [bytes_decode w ?x] => destruct (bytes_decode w x); cbn [option_map]
           end;
    split; intros H;
    try discriminate H;
    try (destruct H as [[H1 H2] | [H1 H2]]; try discriminate H2; now contradiction H1);
    try reflexivity;
    first [ left; split; [discriminate|reflexivity]
          | right; split; [discriminate|reflexivity] ].
Qed.

(** C7.  For a process that was started and exits with a code other than
    zero: when its captured output has a text, [execute] raises
    [ExecutionError] with a message that contains the exit code and the
    text of whatever was captured on stdout and on stderr; when bytes
    captured on stdout or on stderr are not UTF-8, [execute] raises
    [UnicodeDecodeError] instead, which no caller of [execute] handles. *)
Theorem execute_on_failure {W} (w : world W) (command : command) (executable : string)
    (rest : list string) (capture_output : bool) (s : W) :
  argv command = map Some (executable :: rest) ->
  subprocess_start w executable = None ->
  let result := fst (subprocess_run w s (executable :: rest)) in
  returncode result <> 0%Z ->
  (forall message,
      failure_message w result = Some message ->
      outcome_of (execute w command capture_output s) = Raise (ExecutionError message)
      /\ occurs_in (PyStr.str_of_Z (returncode result)) message
      /\ (forall text, stdout result <> EmptyString ->
                       bytes_decode w (stdout result) = Some text -> occurs_in text message)
      /\ (forall text, stderr result <> EmptyString ->
                       bytes_decode w (stderr result) = Some text -> occurs_in text message))
  /\ ((stdout result <> EmptyString /\ bytes_decode w (stdout result) = None)
       \/ (stderr result <> EmptyString /\ bytes_decode w (stderr result) = None) ->
       outcome_of (execute w command capture_output s) = Raise UnicodeDecodeError).
Proof.
  intros E Hstart result Hrc.
  rewrite (execute_args w command executable rest capture_output s E), Hstart.
  cbv zeta. fold result. unfold outcome_of. cbn [fst].
  unfold execute_outcome. apply Z.eqb_neq in Hrc. rewrite Hrc. split.
  - intros message Hm. rewrite Hm. split; [reflexivity|].
    now apply failure_message_contains.
  - intros H. apply failure_message_none in H. now rewrite H.
Qed.

(** Exit code 2 with "boom" and a byte that is not UTF-8 on stderr. *)
Lemma execute_on_failure_witness :
  outcome_of (execute garbled_boom_world (CmdList [Some "42ctl"; Some "audit"]) false tt)
  = Raise UnicodeDecodeError.
Proof.
  apply (execute_on_failure garbled_boom_world (CmdList [Some "42ctl"; Some "audit"])
           "42ctl" ["audit"] false tt eq_refl eq_refl).
  - discriminate.
  - right. split; [discriminate|reflexivity].
Defined.

(** Exit code 2 with "boom" on stderr: the message has both. *)
Example execute_boom_message :
  outcome_of (execute boom_world (CmdStr "42ctl audit") false tt)
  = Raise (ExecutionError ("Command failed with exit code 2" +++ PyStr.nl +++ "stderr: boom")).
Proof. reflexivity. Qed.

Example execute_garbled_events :
  execute garbled_boom_world (CmdStr "42ctl audit") false tt
  = (Raise UnicodeDecodeError, tt,
     [EvRun ["42ctl"; "audit"] (mkCompleted 2 EmptyString ("boom" +++ not_utf8))]).
Proof. reflexivity. Qed.

(** ** The gate evaluator *)

Lemma is_security_issues_found_unfold {W} (w : world W) (path : string) (s : W) :
  is_security_issues_found w path s =
  match fst (read_file w s path) with
  | None => (Raise FileNotFoundError, snd (read_file w s path), [EvOpenText path None])
  | Some content =>
      (match json_loads w content with
       | None => Raise JSONDecodeError
       | Some doc => security_issues_in doc
       end, snd (read_file w s path), [EvOpenText path (Some content)])
  end.
Proof.
  unfold is_security_issues_found, bind, call_open_text, raise, lift.
  destruct (read_file w s path) as [[content|] s1]; simpl; [|reflexivity].
  destruct (json_loads w content) as [doc|]; [|reflexivity].
  destruct (security_issues_in doc); reflexivity.
Qed.

Lemma security_issues_in_results (members run0 : list (string * json))
    (runs results : list json) :
  dict_get members "runs" = Some (JList (JDict run0 :: runs)) ->
  dict_get run0 "results" = Some (JList results) ->
  security_issues_in (JDict members) =
  match results with
  | [] => Ret (false, (-1)%Z)
  | _ :: _ => Ret (true, Z.of_nat (List.length results))
  end.
Proof.
  intros H1 H2. unfold security_issues_in, len_results, getitem_key. simpl.
  rewrite H1. simpl. rewrite H2. simpl.
  destruct results as [|r results]; [reflexivity|].
  replace (0 <? Z.of_nat (List.length (r :: results)))%Z with true; [reflexivity|].
  symmetry. apply Z.ltb_lt. simpl List.length. lia.
Qed.

(** C1. On a document that was read and parsed, the gate evaluator answers
    "issues found" with the length of [runs[0].results] when that list is
    not empty, and "no issues" with -1 when the list is empty, when the
    document has no [runs] member, when [runs] is an empty list and when the
    first run has no [results] member. *)
Theorem gate_evaluator_verdict {W} (w : world W) (path content : string)
    (members : list (string * json)) (s : W) :
  fst (read_file w s path) = Some content ->
  json_loads w content = Some (JDict members) ->
  let verdict := outcome_of (is_security_issues_found w path s) in
  (forall run0 runs results,
      dict_get members "runs" = Some (JList (JDict run0 :: runs)) ->
      dict_get run0 "results" = Some (JList results) ->
      (results <> [] -> verdict = Ret (true, Z.of_nat (List.length results)))
      /\ (results = [] -> verdict = Ret (false, (-1)%Z)))
  /\ (dict_get members "runs" = None -> verdict = Ret (false, (-1)%Z))
  /\ (dict_get members "runs" = Some (JList []) -> verdict = Ret (false, (-1)%Z))
  /\ (forall run0 runs,
         dict_get members "runs" = Some (JList (JDict run0 :: runs)) ->
         dict_get run0 "results" = None ->
         verdict = Ret (false, (-1)%Z)).
Proof.
  intros Hread Hparse verdict. subst verdict.
  rewrite is_security_issues_found_unfold, Hread, Hparse. unfold outcome_of. simpl.
  repeat split.
  - intros Hne. rewrite (security_issues_in_results _ _ _ _ H H0).
    destruct results; [contradiction|reflexivity].
  - intros ->. now rewrite (security_issues_in_results _ _ _ _ H H0).
  - intros H. unfold security_issues_in, len_results, getitem_key. now rewrite H.
  - intros H. unfold security_issues_in, len_results, getitem_key. now rewrite H.
  - intros run0 runs H1 H2.
    unfold security_issues_in, len_results, getitem_key. rewrite H1. simpl. now rewrite H2.
Qed.

Lemma gate_evaluator_verdict_witness :
  outcome_of (is_security_issues_found gate_world "three.sarif" tt) = Ret (true, 3%Z)
  /\ outcome_of (is_security_issues_found gate_world "clean.sarif" tt) = Ret (false, (-1)%Z)
  /\ outcome_of (is_security_issues_found gate_world "noruns.sarif" tt) = Ret (false, (-1)%Z).
Proof.
  split; [|split].
  - refine (proj1 (proj1 (gate_evaluator_verdict gate_world "three.sarif" "three results"
              _ tt eq_refl eq_refl) _ _ _ eq_refl eq_refl) _).
    discriminate.
  - exact (proj2 (proj1 (gate_evaluator_verdict gate_world "clean.sarif" "no result"
              _ tt eq_refl eq_refl) _ _ _ eq_refl eq_refl) eq_refl).
  - exact (proj1 (proj2 (gate_evaluator_verdict gate_world "noruns.sarif" "no runs"
              _ tt eq_refl eq_refl)) eq_refl).
Defined.

Example security_issues_in_odd_documents :
  security_issues_in (JList []) = Raise TypeError
  /\ security_issues_in JNull = Raise TypeError
  /\ security_issues_in (JDict [("runs", JDict [])]) = Ret (false, (-1)%Z)
  /\ security_issues_in (JDict [("runs", JStr EmptyString)]) = Ret (false, (-1)%Z)
  /\ security_issues_in (JDict [("runs", JList [JDict [("results", JInt 3)]])])
     = Raise TypeError
  /\ security_issues_in (JDict [("runs", JList [JDict [("results", JStr "ab")]])])
     = Ret (true, 2%Z).
Proof. repeat split. Qed.

(** C10. The gate evaluator raises [FileNotFoundError] when the file does
    not exist and the decode error when its content is not JSON, and it
    answers "no issues" only for a file that was read and parsed: one whose
    result count is not positive, or whose lookup raised [KeyError] or
    [IndexError]. *)
Theorem gate_evaluator_not_total {W} (w : world W) (path : string) (s : W) :
  let verdict := outcome_of (is_security_issues_found w path s) in
  (fst (read_file w s path) = None -> verdict = Raise FileNotFoundError)
  /\ (forall content,
         fst (read_file w s path) = Some content ->
         json_loads w content = None ->
         verdict = Raise JSONDecodeError)
  /\ (forall found issues,
         verdict = Ret (found, issues) ->
         exists content doc,
           fst (read_file w s path) = Some content
           /\ json_loads w content = Some doc
           /\ (found = false ->
               len_results doc = Raise KeyError \/ len_results doc = Raise IndexError
               \/ exists n, len_results doc = Ret n /\ (n <= 0)%Z)).
Proof.
  intros verdict. subst verdict. rewrite is_security_issues_found_unfold.
  unfold outcome_of.
  destruct (fst (read_file w s path)) as [content|]; simpl.
  - split; [discriminate|]. split.
    + intros c [= <-] H. now rewrite H.
    + intros found issues H. exists content.
      destruct (json_loads w content) as [doc|]; [|discriminate H].
      exists doc. repeat split. intros ->.
      unfold security_issues_in in H.
      destruct (len_results doc) as [n| |[]]; try discriminate H; auto.
      right. right. exists n. split; [reflexivity|].
      destruct (0 <? n)%Z eqn:E; [discriminate H|]. now apply Z.ltb_ge.
  - split; [reflexivity|]. split.
    + intros c H. discriminate H.
    + intros found issues H. discriminate H.
Qed.

Lemma gate_evaluator_not_total_witness :
  outcome_of (is_security_issues_found gate_world "missing.sarif" tt) = Raise FileNotFoundError
  /\ outcome_of (is_security_issues_found gate_world "broken.sarif" tt) = Raise JSONDecodeError.
Proof.
  split.
  - exact (proj1 (gate_evaluator_not_total gate_world "missing.sarif" tt) eq_refl).
  - exact (proj1 (proj2 (gate_evaluator_not_total gate_world "broken.sarif" tt))
             "<html>" eq_refl eq_refl).
Defined.

(** ** The uploader *)

Ltac run_script :=
  unfold bind, try_except, log, print, emit, sys_exit, raise, ret, lift,
    call_open_bytes, call_abspath, call_getcwd, call_urlopen, call_uuid4_hex,
    outcome_of, events_of; simpl.

(** C4. An upload without a token, or with an empty one, or for a repository
    name without a slash, ends the process with exit code 1 and opens no
    connection. *)
Theorem upload_fatal_before_network {W} (w : world W)
    (github_token github_repository github_sha ref : option string)
    (sarif_file_path : string) (s : W) :
  github_token = None \/ github_token = Some EmptyString
  \/ (exists r, github_repository = Some r /\ ~ occurs_in "/" r) ->
  let run := upload_sarif w github_token github_repository github_sha ref sarif_file_path s in
  outcome_of run = Exit 1 /\ filter is_network (events_of run) = [].
Proof.
  intros H run. subst run.
  assert (Hfalsy : PyStr.truthy github_token = false ->
          outcome_of (upload_sarif w github_token github_repository github_sha ref
                        sarif_file_path s) = Exit 1
          /\ filter is_network (events_of (upload_sarif w github_token github_repository
                                             github_sha ref sarif_file_path s)) = []).
  { intros E. unfold upload_sarif. rewrite E. run_script. split; reflexivity. }
  destruct H as [-> | [-> | (r & -> & Hr)]]; try (apply Hfalsy; reflexivity).
  destruct (PyStr.truthy github_token) eqn:E; [|now apply Hfalsy].
  apply not_contains_iff in Hr.
  unfold upload_sarif. rewrite E, Hr. run_script.
  destruct (read_file w s sarif_file_path) as [[content|] s1]; simpl; split; reflexivity.
Qed.

Lemma upload_fatal_before_network_witness :
  (outcome_of (upload_sarif gate_world None (Some "owner/repo") None None "three.sarif" tt)
   = Exit 1
   /\ filter is_network
        (events_of (upload_sarif gate_world None (Some "owner/repo") None None
                      "three.sarif" tt)) = [])
  /\ (outcome_of (upload_sarif gate_world (Some "secret") (Some "myrepo") None None
                    "three.sarif" tt) = Exit 1
      /\ filter is_network
           (events_of (upload_sarif gate_world (Some "secret") (Some "myrepo") None None
                         "three.sarif" tt)) = []).
Proof.
  split.
  - apply (upload_fatal_before_network gate_world None (Some "owner/repo") None None
             "three.sarif" tt).
    left. reflexivity.
  - apply (upload_fatal_before_network gate_world (Some "secret") (Some "myrepo") None None
             "three.sarif" tt).
    right. right. exists "myrepo". split; [reflexivity|].
    apply not_contains_iff. reflexivity.
Defined.

Example upload_reaches_network :
  filter is_network
    (events_of (upload_sarif gate_world (Some "secret") (Some "owner/repo") (Some "abc123")
                  (Some "refs/heads/main") "three.sarif" tt))
  = [EvUrlopen
       {| url := "https://api.github.com/repos/owner/repo/code-scanning/sarifs";
          headers := [("Authorization", "Bearer secret");
                      ("Accept", "application/vnd.github+json");
                      ("X-GitHub-Api-Version", "2022-11-28")];
          data := {| commit_sha := Some "abc123";
                     ref := Some "refs/heads/main";
                     sarif := "three results";
                     tool_name := "42Crunch REST API Static Security Testing";
                     checkout_uri := "file:///github/workspace" |} |}
       (HttpOk EmptyString)].
Proof. reflexivity. Qed.

(** ** The names derived from a report *)

Lemma has_sep_cons (c : ascii) (s : string) :
  PosixPath.has_sep (String c s) = Ascii.eqb c PosixPath.sep || PosixPath.has_sep s.
Proof. apply contains_char_cons. Qed.

Lemma basename_no_sep (p : string) :
  PosixPath.has_sep p = false -> PosixPath.basename p = p.
Proof.
  destruct p as [|c p]; [reflexivity|].
  rewrite has_sep_cons. intros H. apply orb_false_iff in H as [Hc Hp].
  simpl. fold (PosixPath.has_sep p). now rewrite Hp, Hc.
Qed.

Lemma has_sep_append_sep (a r : string) :
  PosixPath.has_sep (a +++ String PosixPath.sep r) = true.
Proof. apply contains_iff. now exists a, r. Qed.

Lemma basename_append_sep (a r : string) :
  PosixPath.has_sep r = false -> PosixPath.basename (a +++ String PosixPath.sep r) = r.
Proof.
  intros Hr. induction a as [|c a IH].
  - change (PosixPath.basename (String PosixPath.sep r) = r).
    cbn [PosixPath.basename]. now rewrite Hr, Ascii.eqb_refl.
  - change (PosixPath.basename (String c (a +++ String PosixPath.sep r)) = r).
    cbn [PosixPath.basename]. now rewrite has_sep_append_sep.
Qed.

Lemma ends_with_char_split (c : ascii) (s : string) :
  PyStr.ends_with_char c s = true -> exists s', s = s' +++ String c EmptyString.
Proof.
  induction s as [|d s IH]; [discriminate|].
  destruct s as [|e s].
  - simpl. intros H. apply Ascii.eqb_eq in H as ->. now exists EmptyString.
  - intros H. destruct (IH H) as (s' & E). exists (String d s'). simpl. now rewrite <- E.
Qed.

Lemma basename_join (output_directory report : string) :
  PosixPath.has_sep report = false ->
  PosixPath.basename (PosixPath.join output_directory report) = report.
Proof.
  intros Hr. unfold PosixPath.join, PyStr.starts_with.
  assert (Hp : prefix (String PosixPath.sep EmptyString) report = false).
  { destruct (prefix (String PosixPath.sep EmptyString) report) eqn:E; [|reflexivity].
    apply prefix_iff in E as (post & E).
    assert (H : PosixPath.has_sep report = true)
      by (apply contains_iff; now exists EmptyString, post).
    congruence. }
  rewrite Hp.
  destruct output_directory as [|c a].
  - simpl. now apply basename_no_sep.
  - cbn [PyStr.is_empty orb].
    destruct (PyStr.ends_with_char PosixPath.sep (String c a)) eqn:E.
    + apply ends_with_char_split in E as (s' & ->).
      rewrite append_assoc. now apply basename_append_sep.
    + now apply basename_append_sep.
Qed.

Lemma replace_absent (old new s : string) :
  old <> EmptyString -> PyStr.contains old s = false -> PyStr.replace old new s = s.
Proof.
  intros Hold. unfold PyStr.replace. destruct old as [|a old]; [contradiction|].
  clear Hold. induction s as [|c s IH]; [reflexivity|].
  cbn [PyStr.contains PyStr.replace_from]. intros H.
  apply orb_false_iff in H as [Hp Hs]. now rewrite Hp, (IH Hs).
Qed.

Lemma replace_from_length (old : string) (k : nat) (s : string) :
  String.length (PyStr.replace_from old EmptyString k s) <= String.length s.
Proof.
  revert k. induction s as [|c s IH]; intros k; [simpl; lia|].
  cbn [PyStr.replace_from]. destruct k as [|k].
  - destruct (prefix old (String c s)).
    + simpl. specialize (IH (String.length old - 1)). lia.
    + simpl. specialize (IH 0). lia.
  - simpl. specialize (IH k). lia.
Qed.

Lemma replace_present_shorter (a : ascii) (old s : string) :
  PyStr.contains (String a old) s = true ->
  String.length (PyStr.replace_from (String a old) EmptyString 0 s) < String.length s.
Proof.
  induction s as [|c s IH]; [discriminate|].
  cbn [PyStr.contains PyStr.replace_from]. intros H.
  destruct (prefix (String a old) (String c s)).
  - cbn [String.append String.length].
    match goal with
    | |- context [PyStr.replace_from ?o _ ?k s] => pose proof (replace_from_length o k s)
    end.
    lia.
  - simpl in H. specialize (IH H). simpl. lia.
Qed.

Lemma replace_changes_iff (a : ascii) (old s : string) :
  PyStr.replace (String a old) EmptyString s = s <-> PyStr.contains (String a old) s = false.
Proof.
  split.
  - intros E. destruct (PyStr.contains (String a old) s) eqn:H; [|reflexivity].
    apply replace_present_shorter in H. unfold PyStr.replace in E. rewrite E in H. lia.
  - apply replace_absent. discriminate.
Qed.

Lemma replace_from_skip_all (old new : string) (s : string) (k : nat) :
  String.length s <= k -> PyStr.replace_from old new k s = EmptyString.
Proof.
  revert k. induction s as [|c s IH]; intros k H; [reflexivity|].
  simpl in H. destruct k as [|k]; [lia|]. cbn [PyStr.replace_from]. apply IH. lia.
Qed.

Lemma replace_whole (a : ascii) (old : string) :
  PyStr.replace_from (String a old) EmptyString 0 (String a old) = EmptyString.
Proof.
  cbn [PyStr.replace_from]. rewrite prefix_refl. cbn [String.append].
  apply replace_from_skip_all. simpl. lia.
Qed.

Lemma replace_strips_suffix (a : ascii) (old stem : string) :
  overlap_free (String a old) = true ->
  PyStr.contains (String a old) stem = false ->
  PyStr.replace (String a old) EmptyString (stem +++ String a old) = stem.
Proof.
  intros Hfree. unfold PyStr.replace.
  induction stem as [|c stem IH]; intros H.
  - apply replace_whole.
  - cbn [PyStr.contains] in H. apply orb_false_iff in H as [Hp Hs].
    change (String c stem +++ String a old) with (String c (stem +++ String a old)).
    cbn [PyStr.replace_from].
    destruct (prefix (String a old) (String c (stem +++ String a old))) eqn:E.
    + exfalso.
      change (String c (stem +++ String a old)) with (String c stem +++ String a old) in E.
      apply prefix_append in E as [E | [Hlt E]]; [congruence|].
      unfold overlap_free in Hfree. rewrite forallb_forall in Hfree.
      specialize (Hfree (String.length (String c stem))).
      rewrite E in Hfree. simpl negb in Hfree.
      assert (false = true); [|discriminate].
      apply Hfree. apply in_seq. simpl in *. lia.
    + now rewrite (IH Hs).
Qed.

Lemma length_drop (k : nat) (s : string) :
  String.length (drop k s) = String.length s - k.
Proof.
  revert s. induction k as [|k IH]; intros [|c s]; simpl; try lia. apply IH.
Qed.

Lemma prefix_append_short (p x y : string) :
  prefix p (x +++ y) = true -> String.length p <= String.length x -> prefix p x = true.
Proof.
  intros H Hlen. apply prefix_append in H as [H | [Hlt _]]; [exact H|lia].
Qed.

Lemma replace_from_skip (old new x post : string) :
  PyStr.replace_from old new (String.length x) (x +++ post)
  = PyStr.replace_from old new 0 post.
Proof.
  induction x as [|c x IH]; [reflexivity|].
  change (String c x +++ post) with (String c (x +++ post)).
  cbn [String.length PyStr.replace_from]. exact IH.
Qed.

(** The leftmost occurrence is removed, and the scan goes on behind it. *)
Lemma replace_first (a : ascii) (old pre post : string) :
  overlap_free (String a old) = true ->
  PyStr.contains (String a old) pre = false ->
  PyStr.replace (String a old) EmptyString (pre +++ String a old +++ post)
  = pre +++ PyStr.replace (String a old) EmptyString post.
Proof.
  intros Hfree. unfold PyStr.replace.
  induction pre as [|c pre IH]; intros H.
  - change (EmptyString +++ String a old +++ post) with (String a (old +++ post)).
    cbn [PyStr.replace_from].
    assert (Hp : prefix (String a old) (String a (old +++ post)) = true)
      by (apply prefix_iff; now exists post).
    rewrite Hp.
    replace (String.length (String a old) - 1) with (String.length old)
      by (simpl; lia).
    cbn [String.append]. apply replace_from_skip.
  - cbn [PyStr.contains] in H. apply orb_false_iff in H as [Hp Hs].
    change (String c pre +++ String a old +++ post)
      with (String c (pre +++ String a old +++ post)).
    cbn [PyStr.replace_from].
    destruct (prefix (String a old) (String c (pre +++ String a old +++ post))) eqn:E.
    + exfalso.
      change (String c (pre +++ String a old +++ post))
        with (String c pre +++ (String a old +++ post)) in E.
      apply prefix_append in E as [E | [Hlt E]]; [congruence|].
      apply prefix_append_short in E; [|rewrite length_drop; lia].
      unfold overlap_free in Hfree. rewrite forallb_forall in Hfree.
      specialize (Hfree (String.length (String c pre))).
      rewrite E in Hfree. simpl negb in Hfree.
      assert (false = true); [|discriminate].
      apply Hfree. apply in_seq. simpl in *. lia.
    + change (String c pre +++ PyStr.replace_from (String a old) EmptyString 0 post)
        with (String c (pre +++ PyStr.replace_from (String a old) EmptyString 0 post)).
      now rewrite (IH Hs).
Qed.

(** Pieces without the text, joined by the text, lose every copy of it. *)
Lemma replace_pieces (a : ascii) (old : string) (pieces : list string) :
  overlap_free (String a old) = true ->
  Forall (fun piece => PyStr.contains (String a old) piece = false) pieces ->
  PyStr.replace (String a old) EmptyString (String.concat (String a old) pieces)
  = String.concat EmptyString pieces.
Proof.
  intros Hfree H. induction H as [|p l Hp Hl IH]; [reflexivity|].
  destruct l as [|q l].
  - cbn [String.concat]. apply replace_absent; [discriminate|exact Hp].
  - change (String.concat (String a old) (p :: q :: l))
      with (p +++ String a old +++ String.concat (String a old) (q :: l)).
    change (String.concat EmptyString (p :: q :: l))
      with (p +++ String.concat EmptyString (q :: l)).
    rewrite (replace_first a old p _ Hfree Hp). now rewrite IH.
Qed.

(** C6, as the code has it.  For [petstore.yaml.audit-report.json] the
    specification name is [petstore.yaml] and the SARIF name is
    [petstore.yaml.audit-report.sarif], in every output directory.  For
    every report name, [.audit-report.json] is removed wherever it occurs:
    the name is unchanged exactly when it does not contain that text; a
    name that ends with it and has it nowhere else loses the ending; the
    leftmost occurrence is removed and what follows it is treated in the
    same way; so a name made of pieces without the text, joined by the
    text, becomes the pieces put together. *)
Theorem derived_names :
  openapi_file "petstore.yaml.audit-report.json" = "petstore.yaml"
  /\ (forall output_directory,
         sarif_file (PosixPath.join output_directory "petstore.yaml.audit-report.json")
         = "petstore.yaml.audit-report.sarif")
  /\ (forall report, openapi_file report = report <-> ~ occurs_in report_suffix report)
  /\ (forall stem,
         ~ occurs_in report_suffix stem -> openapi_file (stem +++ report_suffix) = stem)
  /\ (forall pre post,
         ~ occurs_in report_suffix pre ->
         openapi_file (pre +++ report_suffix +++ post) = pre +++ openapi_file post)
  /\ (forall pieces,
         Forall (fun piece => ~ occurs_in report_suffix piece) pieces ->
         openapi_file (String.concat report_suffix pieces)
         = String.concat EmptyString pieces).
Proof.
  split; [reflexivity|]. split; [|split; [|split; [|split]]].
  - intros od. unfold sarif_file. now rewrite basename_join.
  - intros report. unfold openapi_file, report_suffix.
    now rewrite replace_changes_iff, not_contains_iff.
  - intros stem H. apply not_contains_iff in H.
    unfold openapi_file, report_suffix in *. now apply replace_strips_suffix.
  - intros pre post H. apply not_contains_iff in H.
    unfold openapi_file, report_suffix in *. now apply replace_first.
  - intros pieces H. unfold openapi_file, report_suffix in *.
    apply replace_pieces; [reflexivity|].
    induction H as [|p l Hp Hl IH]; constructor; [|exact IH].
    now apply not_contains_iff.
Qed.

Lemma derived_names_witness :
  openapi_file "openapi.yaml" = "openapi.yaml"
  /\ openapi_file ("api/v1.yaml" +++ report_suffix) = "api/v1.yaml"
  /\ openapi_file ("a" +++ report_suffix +++ "b.audit-report.json.bak")
     = "a" +++ openapi_file "b.audit-report.json.bak"
  /\ openapi_file (String.concat report_suffix ["a"; "b"; ".bak"])
     = String.concat EmptyString ["a"; "b"; ".bak"].
Proof.
  pose proof derived_names as (_ & _ & H3 & H4 & H5 & H6).
  split; [|split; [|split]].
  - apply H3. apply not_contains_iff. reflexivity.
  - apply H4. apply not_contains_iff. reflexivity.
  - apply H5. apply not_contains_iff. reflexivity.
  - apply H6. repeat constructor; apply not_contains_iff; reflexivity.
Defined.

Example openapi_file_twice :
  openapi_file "a.audit-report.jsonb.audit-report.json.bak" = "ab.bak".
Proof. reflexivity. Qed.

(** C6 as stated fails: this report name does not end with
    [.audit-report.json], and yet the derived name differs from it. *)
Lemma openapi_file_not_only_suffix :
  PyStr.contains "audit-report" "x.audit-report.json.bak" = true
  /\ ~ ends_with report_suffix "x.audit-report.json.bak"
  /\ openapi_file "x.audit-report.json.bak" = "x.bak"
  /\ openapi_file "x.audit-report.json.bak" <> "x.audit-report.json.bak".
Proof.
  split; [reflexivity|]. split; [|split; [reflexivity|discriminate]].
  intros (stem & H).
  destruct stem as [|c1 [|c2 [|c3 [|c4 [|c5 [|c6 stem]]]]]]; try discriminate H.
  apply (f_equal String.length) in H. simpl in H. rewrite length_append in H. simpl in H. lia.
Qed.

(** ** The events of a computation *)

Section Emits.

Context {W : Type} (w : world W) (p : event -> bool).

Lemma emits_only_ret {A} (a : A) : emits_only p (@ret W A a).
Proof. intros s. reflexivity. Qed.

Lemma emits_only_raise {A} (e : exn) : emits_only p (@raise W A e).
Proof. intros s. reflexivity. Qed.

Lemma emits_only_exit {A} (c : Z) : emits_only p (@sys_exit W A c).
Proof. intros s. reflexivity. Qed.

Lemma emits_only_lift {A} (o : outcome A) : emits_only p (@lift W A o).
Proof. intros s. reflexivity. Qed.

Lemma emits_only_emit (e : event) : p e = true -> emits_only p (@emit W e).
Proof. intros H s. unfold emit, events_of. simpl. now rewrite H. Qed.

Lemma emits_only_bind {A B} (m : M W A) (f : A -> M W B) :
  emits_only p m -> (forall a, emits_only p (f a)) -> emits_only p (bind m f).
Proof.
  intros Hm Hf s. specialize (Hm s). unfold bind, events_of in *.
  destruct (m s) as [[[a|c|e] s1] t1]; simpl in *; try exact Hm.
  specialize (Hf a s1). unfold events_of in Hf.
  destruct (f a s1) as [[o s2] t2]. simpl in *.
  rewrite forallb_app. now rewrite Hm, Hf.
Qed.

Lemma emits_only_try {A} (m : M W A) (h : exn -> option (M W A)) :
  emits_only p m ->
  (forall e k, h e = Some k -> emits_only p k) ->
  emits_only p (try_except m h).
Proof.
  intros Hm Hh s. specialize (Hm s). unfold try_except, events_of in *.
  destruct (m s) as [[[a|c|e] s1] t1]; simpl in *; try exact Hm.
  destruct (h e) as [k|] eqn:E; [|exact Hm].
  specialize (Hh e k E s1). unfold events_of in Hh.
  destruct (k s1) as [[o s2] t2]. simpl in *.
  rewrite forallb_app. now rewrite Hm, Hh.
Qed.

End Emits.

Lemma forallb_quiet_conversions (t : list event) :
  forallb quiet t = true -> conversions t = [] /\ merges t = [] /\ listings t = [].
Proof.
  induction t as [|e t IH]; [repeat split|].
  simpl. intros H. apply andb_true_iff in H as [He Ht].
  destruct (IH Ht) as (E1 & E2 & E3).
  unfold conversions, merges, listings in *. simpl. rewrite E1, E2, E3.
  destruct e; try discriminate He; repeat split.
Qed.

Lemma forallb_preliminary (t : list event) :
  forallb preliminary t = true -> conversions t = [] /\ merges t = [] /\ listings t = [].
Proof.
  induction t as [|e t IH]; [repeat split|].
  simpl. intros H. apply andb_true_iff in H as [He Ht].
  destruct (IH Ht) as (E1 & E2 & E3).
  unfold conversions, merges, listings in *. simpl. rewrite E1, E2, E3.
  destruct e; try discriminate He; try (repeat split; fail).
  simpl in He. apply andb_true_iff in He as [H1 H2].
  apply negb_true_iff in H1, H2. rewrite H1, H2. repeat split.
Qed.

Lemma conversions_app (a b : list event) : conversions (a ++ b) = conversions a ++ conversions b.
Proof. apply flat_map_app. Qed.

Lemma merges_app (a b : list event) : merges (a ++ b) = merges a ++ merges b.
Proof. apply flat_map_app. Qed.

Lemma listings_app (a b : list event) : listings (a ++ b) = listings a ++ listings b.
Proof. apply flat_map_app. Qed.

Lemma converted_app (a b : list event) : converted (a ++ b) = converted a ++ converted b.
Proof. unfold converted. now rewrite conversions_app, flat_map_app. Qed.

Section Calls.

Context {W : Type} (w : world W) (p : event -> bool).

Lemma emits_only_open_text (path : string) :
  (forall c, p (EvOpenText path c) = true) -> emits_only p (call_open_text w path).
Proof.
  intros H s. unfold call_open_text, events_of.
  destruct (read_file w s path) as [[c|] s1]; simpl; now rewrite H.
Qed.

Lemma emits_only_open_bytes (path : string) :
  (forall c, p (EvOpenBytes path c) = true) -> emits_only p (call_open_bytes w path).
Proof.
  intros H s. unfold call_open_bytes, events_of.
  destruct (read_file w s path) as [[c|] s1]; simpl; now rewrite H.
Qed.

Lemma emits_only_getcwd : emits_only p (call_getcwd w).
Proof. intros s. reflexivity. Qed.

Lemma emits_only_abspath (path : string) : emits_only p (call_abspath w path).
Proof. intros s. reflexivity. Qed.

Lemma emits_only_decode (bytes : string) : emits_only p (call_decode w bytes).
Proof. intros s. unfold call_decode, events_of. now destruct (bytes_decode w bytes). Qed.

Lemma emits_only_urlopen (req : request) :
  (forall r, p (EvUrlopen req r) = true) -> emits_only p (call_urlopen w req).
Proof.
  intros H s. unfold call_urlopen, events_of.
  destruct (urlopen w s req) as [r s1]. simpl. now rewrite H.
Qed.

Lemma emits_only_uuid :
  (forall h, p (EvUuid h) = true) -> emits_only p (call_uuid4_hex w).
Proof.
  intros H s. unfold call_uuid4_hex, events_of.
  destruct (uuid4_hex w s) as [h s1]. simpl. now rewrite H.
Qed.

End Calls.

Ltac emits_step :=
  lazymatch goal with
  | |- emits_only _ (ret _) => apply emits_only_ret
  | |- emits_only _ (raise _) => apply emits_only_raise
  | |- emits_only _ (sys_exit _) => apply emits_only_exit
  | |- emits_only _ (lift _) => apply emits_only_lift
  | |- emits_only _ (emit _) => apply emits_only_emit; reflexivity
  | |- emits_only _ (call_open_text _ _) => apply emits_only_open_text; intros; reflexivity
  | |- emits_only _ (call_open_bytes _ _) => apply emits_only_open_bytes; intros; reflexivity
  | |- emits_only _ (call_getcwd _) => apply emits_only_getcwd
  | |- emits_only _ (call_abspath _ _) => apply emits_only_abspath
  | |- emits_only _ (call_decode _ _) => apply emits_only_decode
  | |- emits_only _ (call_urlopen _ _) => apply emits_only_urlopen; intros; reflexivity
  | |- emits_only _ (call_uuid4_hex _) => apply emits_only_uuid; intros; reflexivity
  | |- emits_only _ (bind _ _) => apply emits_only_bind; [|intros]
  | |- emits_only _ (try_except _ _) =>
      apply emits_only_try;
      [|let e := fresh "e" in
        let k := fresh "k" in
        let E := fresh "E" in
        intros e k E; destruct e; inversion E; subst; clear E]
  | |- emits_only _ (if ?b then _ else _) => destruct b
  | |- emits_only _ (match ?x with _ => _ end) => destruct x
  end.

Ltac emits_script := unfold log, print; repeat emits_step.

Section QuietScript.

Context {W : Type} (w : world W).

Lemma quiet_is_security_issues_found (path : string) :
  emits_only quiet (is_security_issues_found w path).
Proof. unfold is_security_issues_found. emits_script. Qed.

Lemma quiet_upload_sarif (github_token github_repository github_sha ref : option string)
    (path : string) :
  emits_only quiet (upload_sarif w github_token github_repository github_sha ref path).
Proof. unfold upload_sarif. emits_script. Qed.

Lemma quiet_upload_and_enforce (running_config : RunningConfiguration) (sarif : string) :
  emits_only quiet (upload_and_enforce w running_config sarif).
Proof.
  unfold upload_and_enforce. emits_script;
    first [apply quiet_upload_sarif | apply quiet_is_security_issues_found].
Qed.

End QuietScript.

(** ** The loop over the reports *)

Section Loop.

Context {W : Type} (w : world W) (running_config : RunningConfiguration).

Lemma process_report_unmarked (output_directory report : string)
    (sarif_reports : list string) (s : W) :
  marked report = false ->
  process_report w running_config output_directory report sarif_reports s
  = (Ret sarif_reports, s, []).
Proof. intros H. unfold process_report. fold (marked report). now rewrite H. Qed.

Lemma process_report_marked (output_directory report : string)
    (sarif_reports : list string) (s : W) :
  marked report = true ->
  process_report w running_config output_directory report sarif_reports s
  = match subprocess_start w "42ctl" with
    | Some e => (Raise (spawn_exn e), s, conversion_logs output_directory report)
    | None =>
        let args := convert_args output_directory report in
        let result := fst (subprocess_run w s args) in
        let s1 := snd (subprocess_run w s args) in
        let sarif := sarif_file (PosixPath.join output_directory report) in
        if (returncode result =? 0)%Z then
          let '(o, s2, t2) := upload_and_enforce w running_config sarif s1 in
          (match o with
           | Ret _ => Ret (sarif_reports ++ [sarif])
           | Exit c => Exit c
           | Raise e => Raise e
           end, s2, conversion_logs output_directory report ++ [EvRun args result] ++ t2)
        else
          match failure_message w result with
          | Some message =>
              (Ret sarif_reports, s1,
               conversion_logs output_directory report
               ++ [EvRun args result;
                   EvLog ERROR (display_header "Convert to SARIF command failed" message)])
          | None =>
              (Raise UnicodeDecodeError, s1,
               conversion_logs output_directory report ++ [EvRun args result])
          end
    end.
Proof.
  intros H. unfold process_report. fold (marked report). rewrite H. cbn [negb].
  unfold bind at 1 2 3. unfold log, emit. cbn iota beta.
  unfold bind at 1. unfold try_except at 1. unfold bind at 1.
  rewrite (execute_args w
             (CmdList (convert_cmd (PosixPath.join output_directory report)
                         (openapi_file report)
                         (sarif_file (PosixPath.join output_directory report))))
             "42ctl" (tl (convert_args output_directory report)) false s eq_refl).
  destruct (subprocess_start w "42ctl") as [[]|]; [reflexivity..|].
  cbv zeta.
  change ("42ctl" :: tl (convert_args output_directory report))
    with (convert_args output_directory report).
  unfold execute_outcome.
  destruct (returncode (fst (subprocess_run w s (convert_args output_directory report))) =? 0)%Z;
    unfold bind, ret; cbn beta iota.
  - destruct (upload_and_enforce w running_config
                (sarif_file (PosixPath.join output_directory report))
                (snd (subprocess_run w s (convert_args output_directory report))))
      as [[[[]|c|e] s2] t2]; unfold conversion_logs; cbn [app]; rewrite ?app_nil_r;
      reflexivity.
  - destruct (failure_message w _); reflexivity.
Qed.

Lemma process_report_spec (output_directory report : string)
    (sarif_reports : list string) (s : W) :
  let run := process_report w running_config output_directory report sarif_reports s in
  merges (events_of run) = []
  /\ listings (events_of run) = []
  /\ forall sarif_reports',
       outcome_of run = Ret sarif_reports' ->
       map fst (conversions (events_of run))
       = map (convert_args output_directory) (filter marked [report])
       /\ sarif_reports' = sarif_reports ++ converted (events_of run).
Proof.
  intros run. subst run. cbn [filter].
  destruct (marked report) eqn:Hm.
  - rewrite (process_report_marked _ _ _ _ Hm).
    destruct (subprocess_start w "42ctl");
      [unfold events_of, outcome_of; cbn [fst snd];
       split; [reflexivity|]; split; [reflexivity|]; discriminate|].
    cbv zeta.
    set (args := convert_args output_directory report).
    set (result := fst (subprocess_run w s args)).
    set (s1 := snd (subprocess_run w s args)).
    set (sarif := sarif_file (PosixPath.join output_directory report)).
    destruct (returncode result =? 0)%Z eqn:Hrc.
    + pose proof (quiet_upload_and_enforce w running_config sarif s1) as Hq.
      unfold events_of in Hq.
      destruct (upload_and_enforce w running_config sarif s1) as [[o s2] t2].
      simpl in Hq. apply forallb_quiet_conversions in Hq as (Q1 & Q2 & Q3).
      unfold events_of, outcome_of. cbn [fst snd].
      rewrite !merges_app, !listings_app, !conversions_app, !converted_app, Q1, Q2, Q3.
      unfold converted. rewrite Q1.
      unfold conversions, merges, listings. simpl. rewrite Hrc.
      split; [reflexivity|]. split; [reflexivity|].
      intros acc Ho. split; [reflexivity|].
      destruct o; inversion Ho. now rewrite !app_nil_r.
    + destruct (failure_message w result);
        unfold events_of, outcome_of; cbn [fst snd];
        unfold converted, conversions, merges, listings; simpl; rewrite Hrc;
        (split; [reflexivity|]); (split; [reflexivity|]);
        intros acc Ho; [|discriminate Ho].
      split; [reflexivity|]. inversion Ho. now rewrite !app_nil_r.
  - rewrite (process_report_unmarked _ _ _ _ Hm). unfold events_of, outcome_of. simpl.
    split; [reflexivity|]. split; [reflexivity|].
    intros acc Ho. split; [reflexivity|].
    inversion Ho. now rewrite !app_nil_r.
Qed.

Lemma process_reports_cons (output_directory report : string) (rest : list string)
    (sarif_reports : list string) (s : W) :
  process_reports w running_config output_directory (report :: rest) sarif_reports s
  = match process_report w running_config output_directory report sarif_reports s with
    | (Ret sarif_reports', s1, t1) =>
        let '(o, s2, t2) :=
          process_reports w running_config output_directory rest sarif_reports' s1 in
        (o, s2, t1 ++ t2)
    | (Exit c, s1, t1) => (Exit c, s1, t1)
    | (Raise e, s1, t1) => (Raise e, s1, t1)
    end.
Proof. reflexivity. Qed.

Lemma process_reports_spec (output_directory : string) (reports : list string) :
  forall (sarif_reports : list string) (s : W),
  let run := process_reports w running_config output_directory reports sarif_reports s in
  merges (events_of run) = []
  /\ listings (events_of run) = []
  /\ forall sarif_reports',
       outcome_of run = Ret sarif_reports' ->
       map fst (conversions (events_of run))
       = map (convert_args output_directory) (filter marked reports)
       /\ sarif_reports' = sarif_reports ++ converted (events_of run).
Proof.
  induction reports as [|report rest IH]; intros sarif_reports s run; subst run.
  - unfold events_of, outcome_of. simpl.
    split; [reflexivity|]. split; [reflexivity|].
    intros acc Ho. split; [reflexivity|].
    inversion Ho. now rewrite !app_nil_r.
  - rewrite process_reports_cons.
    pose proof (process_report_spec output_directory report sarif_reports s) as Hb.
    cbv zeta in Hb. unfold events_of, outcome_of in *.
    destruct (process_report w running_config output_directory report sarif_reports s)
      as [[[acc1|c|e] s1] t1]; cbn [fst snd] in *.
    + destruct Hb as (B1 & B2 & B3). destruct (B3 acc1 eq_refl) as [B4 B5].
      specialize (IH acc1 s1). cbv zeta in IH. unfold events_of, outcome_of in IH.
      destruct (process_reports w running_config output_directory rest acc1 s1)
        as [[o s2] t2]. cbn [fst snd] in *.
      destruct IH as (I1 & I2 & I3).
      rewrite merges_app, listings_app, conversions_app, converted_app, B1, B2, I1, I2.
      split; [reflexivity|]. split; [reflexivity|].
      intros acc2 Ho. destruct (I3 acc2 Ho) as [I4 I5].
      rewrite map_app, B4, I4, I5, B5, app_assoc. split; [|reflexivity].
      cbn [filter]. destruct (marked report); reflexivity.
    + destruct Hb as (B1 & B2 & _). split; [exact B1|]. split; [exact B2|]. discriminate.
    + destruct Hb as (B1 & B2 & _). split; [exact B1|]. split; [exact B2|]. discriminate.
Qed.

End Loop.

(** ** The parts of [discovery_run] around the loop *)

Section Phases.

Context {W : Type} (w : world W) (running_config : RunningConfiguration).

Lemma emits_only_execute (p : event -> bool) (command : command) (capture_output : bool) :
  (forall r, p (EvRun (present (argv command)) r) = true) ->
  emits_only p (execute w command capture_output).
Proof.
  intros H. unfold execute. cbv zeta. apply emits_only_bind.
  - intros s. unfold call_subprocess_run, events_of.
    destruct (all_present (argv command)); [|reflexivity].
    destruct (present (argv command)) as [|executable rest]; [reflexivity|].
    destruct (subprocess_start w executable); [reflexivity|].
    cbv zeta. destruct (subprocess_run w s (executable :: rest)) as [r s1].
    simpl. now rewrite H.
  - intros result. emits_script.
Qed.

Lemma run_audit_events (base_dir binaries : string) (s : W) :
  forallb preliminary (events_of (run_audit w running_config base_dir binaries s)) = true.
Proof.
  revert s. change (emits_only preliminary (run_audit w running_config base_dir binaries)).
  unfold run_audit. emits_script.
  apply emits_only_execute. intros r.
  destruct (data_enrich running_config); reflexivity.
Qed.

Lemma log_reports_run (results_files : list string) (s : W) :
  log_reports results_files s
  = (Ret tt, s, map (fun report => EvLog DEBUG (" - " +++ report)) results_files).
Proof.
  induction results_files as [|report rest IH]; [reflexivity|].
  cbn [log_reports]. unfold bind, log, emit. rewrite IH. reflexivity.
Qed.

Lemma listings_logs (l : list string) (f : string -> string) :
  listings (map (fun x => EvLog DEBUG (f x)) l) = []
  /\ conversions (map (fun x => EvLog DEBUG (f x)) l) = []
  /\ merges (map (fun x => EvLog DEBUG (f x)) l) = [].
Proof. induction l as [|x l IH]; [repeat split|]. exact IH. Qed.

Lemma list_reports_spec (output_directory : string) (s : W) :
  let run := list_reports w output_directory s in
  conversions (events_of run) = []
  /\ merges (events_of run) = []
  /\ forall reports,
       outcome_of run = Ret reports ->
       exists results_files,
         listings (events_of run)
         = [(output_directory, results_files); (output_directory, reports)].
Proof.
  intros run. subst run. unfold list_reports, bind, call_listdir, log, emit.
  destruct (os_listdir w s output_directory) as [[files|] s1];
    [|unfold events_of, outcome_of; simpl; repeat split; discriminate].
  rewrite log_reports_run.
  destruct (os_listdir w s1 output_directory) as [[names|] s2];
    unfold events_of, outcome_of; cbn [fst snd].
  - destruct (listings_logs files (fun report => " - " +++ report)) as (L1 & L2 & L3).
    rewrite ?conversions_app, ?merges_app, ?listings_app, L1, L2, L3.
    split; [reflexivity|]. split; [reflexivity|].
    intros reports [= <-]. exists files. reflexivity.
  - destruct (listings_logs files (fun report => " - " +++ report)) as (L1 & L2 & L3).
    rewrite ?conversions_app, ?merges_app, L2, L3.
    split; [reflexivity|]. split; [reflexivity|]. discriminate.
Qed.

Lemma merge_cmd_present (out : string) (sarif_reports : list string) :
  merge_cmd (Some out) sarif_reports = map Some (merge_args out sarif_reports).
Proof. unfold merge_cmd, merge_args. now rewrite map_app. Qed.

Lemma merge_sarif_files_run (sarif_reports : list string) (s : W) :
  merge_sarif_files w running_config sarif_reports s
  = match sarif_report running_config with
    | Some (String c out') =>
        let out := String c out' in
        let args := merge_args out sarif_reports in
        let result := fst (subprocess_run w s args) in
        let logs := [EvLog DEBUG "Merging SARIF files is enabled";
                     EvLog INFO ("Merging SARIF files into '" +++ out +++ "'")] in
        match subprocess_start w "42ctl" with
        | Some e => (Raise (spawn_exn e), s, logs)
        | None =>
            if (returncode result =? 0)%Z
            then (Ret tt, snd (subprocess_run w s args), logs ++ [EvRun args result])
            else
              match failure_message w result with
              | Some message =>
                  (Exit 1, snd (subprocess_run w s args),
                   logs ++ [EvRun args result;
                            EvLog ERROR (display_header "Merge SARIF files command failed"
                                           message)])
              | None =>
                  (Raise UnicodeDecodeError, snd (subprocess_run w s args),
                   logs ++ [EvRun args result])
              end
        end
    | _ => (Ret tt, s, [EvLog DEBUG "Merging SARIF files is disabled"])
    end.
Proof.
  unfold merge_sarif_files.
  destruct (sarif_report running_config) as [[|c out]|]; try reflexivity.
  rewrite merge_cmd_present. cbn [PyStr.truthy PyStr.is_empty negb enabled PyStr.str_of_opt].
  unfold bind, log, emit, try_except.
  rewrite (execute_args w (CmdList (map Some (merge_args (String c out) sarif_reports)))
             "42ctl" (tl (merge_args (String c out) sarif_reports)) false s eq_refl).
  cbv zeta.
  destruct (subprocess_start w "42ctl") as [[]|]; [reflexivity..|].
  change ("42ctl" :: tl (merge_args (String c out) sarif_reports))
    with (merge_args (String c out) sarif_reports).
  unfold execute_outcome.
  destruct (returncode (fst (subprocess_run w s (merge_args (String c out) sarif_reports)))
            =? 0)%Z; [reflexivity|].
  destruct (failure_message w _); reflexivity.
Qed.

Lemma merge_sarif_files_spec (sarif_reports : list string) (s : W) :
  let run := merge_sarif_files w running_config sarif_reports s in
  conversions (events_of run) = []
  /\ listings (events_of run) = []
  /\ (forall cmd,
         In cmd (merges (events_of run)) ->
         exists out, sarif_report running_config = Some out
                     /\ cmd = merge_args out sarif_reports)
  /\ (PyStr.truthy (sarif_report running_config) = false -> outcome_of run = Ret tt).
Proof.
  intros run. subst run. rewrite merge_sarif_files_run.
  destruct (sarif_report running_config) as [[|c out]|]; cbv zeta;
    try (unfold events_of, outcome_of; simpl;
         split; [reflexivity|]; split; [reflexivity|]; split; [intros cmd []|reflexivity]).
  destruct (subprocess_start w "42ctl");
    [unfold events_of, outcome_of; simpl;
     split; [reflexivity|]; split; [reflexivity|]; split; [intros cmd []|discriminate]|].
  destruct (returncode (fst (subprocess_run w s (merge_args (String c out) sarif_reports)))
            =? 0)%Z; [|destruct (failure_message w _)];
    unfold events_of, outcome_of; simpl;
    (split; [reflexivity|]); (split; [reflexivity|]);
    (split; [|discriminate]);
    intros cmd [<- | []]; exists (String c out); split; reflexivity.
Qed.

End Phases.

Section Driver.

Context {W : Type} (w : world W) (running_config : RunningConfiguration).

Lemma converted_of_conversions (t t' : list event) :
  conversions t = conversions t' -> converted t = converted t'.
Proof. unfold converted. now intros ->. Qed.

Lemma discovery_run_spec (base_dir binaries : string) (s : W) :
  let run := discovery_run w running_config base_dir binaries s in
  (forall cmd,
      In cmd (merges (events_of run)) ->
      exists out, sarif_report running_config = Some out
                  /\ cmd = merge_args out (converted (events_of run)))
  /\ (forall output_directory names,
         nth_error (listings (events_of run)) 1 = Some (output_directory, names) ->
         outcome_of run = Ret tt \/ merges (events_of run) <> [] ->
         map fst (conversions (events_of run))
         = map (convert_args output_directory) (filter marked names)).
Proof.
  intros run. subst run. unfold discovery_run, bind.
  pose proof (run_audit_events w running_config base_dir binaries s) as Ha.
  apply forallb_preliminary in Ha as (A1 & A2 & A3). unfold events_of in A1, A2, A3.
  destruct (run_audit w running_config base_dir binaries s) as [[[od|c|e] s1] t1];
    cbn [fst snd] in *;
    try (unfold events_of, outcome_of; cbn [fst snd]; rewrite A2, A3; split;
         [intros cmd []|intros ? ? H; discriminate H]).
  pose proof (list_reports_spec w od s1) as Hl. cbv zeta in Hl.
  unfold events_of, outcome_of in Hl.
  destruct (list_reports w od s1) as [[[names|c|e] s2] t2]; cbn [fst snd] in *;
    destruct Hl as (L1 & L2 & L3);
    try (unfold events_of, outcome_of; cbn [fst snd]; rewrite merges_app, A2, L2; split;
         [intros cmd []|intros ? ? _ [H|H]; [discriminate H|now contradiction H]]).
  destruct (L3 names eq_refl) as (files & L4). clear L3.
  pose proof (process_reports_spec w running_config od names [] s2) as Hp. cbv zeta in Hp.
  unfold events_of, outcome_of in Hp.
  destruct (process_reports w running_config od names [] s2) as [[[acc|c|e] s3] t3];
    cbn [fst snd] in *; destruct Hp as (P1 & P2 & P3);
    try (unfold events_of, outcome_of; cbn [fst snd];
         rewrite !merges_app, A2, L2, P1; split;
         [intros cmd []|intros ? ? _ [H|H]; [discriminate H|now contradiction H]]).
  destruct (P3 acc eq_refl) as [P4 P5]. clear P3. simpl in P5.
  pose proof (merge_sarif_files_spec w running_config acc s3) as Hm. cbv zeta in Hm.
  unfold events_of, outcome_of in Hm.
  destruct (merge_sarif_files w running_config acc s3) as [[o4 s4] t4].
  cbn [fst snd] in *. destruct Hm as (M1 & M2 & M3 & _).
  unfold events_of, outcome_of. cbn [fst snd].
  assert (Ec : conversions (t1 ++ t2 ++ t3 ++ t4) = conversions t3).
  { rewrite !conversions_app, A1, L1, M1. simpl. now rewrite app_nil_r. }
  rewrite (converted_of_conversions _ _ Ec), Ec.
  rewrite !merges_app, A2, L2, P1. rewrite !listings_app, A3, L4, P2, M2. simpl.
  split.
  - intros cmd Hin. destruct (M3 cmd Hin) as (out & E1 & E2). exists out. now rewrite <- P5.
  - intros od' names' [= <- <-] _. exact P4.
Qed.

Lemma upload_and_enforce_disabled (sarif : string) (s : W) :
  upload_to_code_scanning running_config = false ->
  enforce running_config = false ->
  outcome_of (upload_and_enforce w running_config sarif s) = Ret tt.
Proof. intros E1 E2. unfold upload_and_enforce. now rewrite E1, E2. Qed.

Lemma process_reports_completes (output_directory : string) (reports : list string) :
  upload_to_code_scanning running_config = false ->
  enforce running_config = false ->
  subprocess_start w "42ctl" = None ->
  forall sarif_reports s,
    existsb (garbled w)
      (events_of (process_reports w running_config output_directory reports sarif_reports s))
    = false ->
    exists sarif_reports',
      outcome_of (process_reports w running_config output_directory reports sarif_reports s)
      = Ret sarif_reports'.
Proof.
  intros E1 E2 Hstart. induction reports as [|report rest IH]; intros acc s Hg.
  - now exists acc.
  - rewrite process_reports_cons in *.
    assert (H : exists acc1 s1 t1,
               process_report w running_config output_directory report acc s
               = (Ret acc1, s1, t1)).
    { destruct (marked report) eqn:Hm.
      - rewrite (process_report_marked _ _ _ _ _ _ Hm), Hstart in *. cbv zeta in *.
        destruct (returncode _ =? 0)%Z eqn:Hrc.
        + match goal with
          | |- context [upload_and_enforce w running_config ?f ?x] =>
              pose proof (upload_and_enforce_disabled f x E1 E2) as Hu;
              unfold outcome_of in Hu;
              destruct (upload_and_enforce w running_config f x) as [[o s2] t2]
          end.
          simpl in Hu. subst o. eauto.
        + destruct (failure_message w _) eqn:Hf; [eauto|].
          exfalso. unfold events_of in Hg. cbn [snd] in Hg.
          rewrite existsb_app in Hg. apply orb_false_iff in Hg as [_ Hg].
          cbn [existsb garbled] in Hg. now rewrite Hrc, Hf in Hg.
      - rewrite (process_report_unmarked _ _ _ _ _ _ Hm). eauto. }
    destruct H as (acc1 & s1 & t1 & E). rewrite E in *.
    specialize (IH acc1 s1). unfold outcome_of, events_of in *.
    destruct (process_reports w running_config output_directory rest acc1 s1) as [[o s2] t2].
    cbn [fst snd] in *. rewrite existsb_app in Hg. apply orb_false_iff in Hg as [_ Hg].
    destruct (IH Hg) as (acc2 & H). now exists acc2.
Qed.

End Driver.

(** ** The audit driver *)

(** C9. When the repository name is absent or has no slash, [discovery_run]
    raises while it builds the debug message for the repository
    ([AttributeError] for an absent name, [IndexError] for a name without a
    slash): no subprocess has been started and no error banner logged. *)
Theorem discovery_run_needs_repository {W} (w : world W)
    (running_config : RunningConfiguration) (base_dir binaries : string) (s : W) :
  github_repository running_config = None
  \/ (exists r, github_repository running_config = Some r /\ ~ occurs_in "/" r) ->
  let run := discovery_run w running_config base_dir binaries s in
  outcome_of run =
    Raise (match github_repository running_config with
           | None => AttributeError
           | Some _ => IndexError
           end)
  /\ filter is_run (events_of run) = []
  /\ filter is_error_log (events_of run) = [].
Proof.
  intros H run. subst run. unfold discovery_run, run_audit.
  destruct H as [E | (r & E & Hr)]; rewrite E.
  - run_script. destruct (uuid4_hex w s) as [hex s1]. simpl. repeat split.
  - apply not_contains_iff in Hr. rewrite (split_no_sep _ _ Hr).
    run_script. destruct (uuid4_hex w s) as [hex s1]. simpl. repeat split.
Qed.

Lemma discovery_run_needs_repository_witness :
  outcome_of (discovery_run gate_world (sample_config false None) "/github/workspace"
                "/usr/local/bin/42c-ast-linux-amd64" tt) = Raise AttributeError
  /\ outcome_of (discovery_run gate_world (sample_config false (Some "myrepo"))
                   "/github/workspace" "/usr/local/bin/42c-ast-linux-amd64" tt)
     = Raise IndexError.
Proof.
  split.
  - apply (discovery_run_needs_repository gate_world (sample_config false None)
             "/github/workspace" "/usr/local/bin/42c-ast-linux-amd64" tt).
    left. reflexivity.
  - apply (discovery_run_needs_repository gate_world (sample_config false (Some "myrepo"))
             "/github/workspace" "/usr/local/bin/42c-ast-linux-amd64" tt).
    right. exists "myrepo". split; [reflexivity|].
    apply not_contains_iff. reflexivity.
Defined.

Example second_fails_run :
  outcome_of (sample_run second_fails_world false) = Ret tt
  /\ map fst (conversions (events_of (sample_run second_fails_world false)))
     = map (convert_args "/github/workspace/c0ffee") three_reports
  /\ merges (events_of (sample_run second_fails_world false))
     = [["42ctl"; "audit"; "report"; "sarif"; "merge"; "-o"; "merged.sarif";
         "a.yaml.audit-report.sarif"; "c.yaml.audit-report.sarif"]].
Proof. vm_compute. repeat split. Qed.

(** ** The gate in the loop *)

Section Gate.

Context {W : Type} (w : world W).






Lemma no_gate_read_clean (t : list event) :
  forallb no_gate_read t = true -> existsb (finds_issues w) t = false.
Proof.
  induction t as [|e t IH]; [reflexivity|].
  simpl. intros H. apply andb_true_iff in H as [He Ht]. rewrite (IH Ht).
  destruct e; try discriminate He; reflexivity.
Qed.



End Gate.


Section GatedScript.

Context {W : Type} (w : world W) (running_config : RunningConfiguration).

Lemma no_gate_read_upload (github_token github_repository github_sha ref : option string)
    (path : string) :
  emits_only no_gate_read
    (upload_sarif w github_token github_repository github_sha ref path).
Proof. unfold upload_sarif. emits_script. Qed.

Lemma no_gate_read_execute (command : command) (capture_output : bool) :
  emits_only no_gate_read (execute w command capture_output).
Proof. apply emits_only_execute. reflexivity. Qed.

Lemma no_gate_read_listdir (path : string) : emits_only no_gate_read (call_listdir w path).
Proof.
  intros s. unfold call_listdir, events_of.
  now destruct (os_listdir w s path) as [[names|] s1].
Qed.

Lemma no_gate_read_log_reports (results_files : list string) :
  emits_only no_gate_read (@log_reports W results_files).
Proof.
  intros s. rewrite log_reports_run. unfold events_of. simpl.
  induction results_files as [|r l IH]; [reflexivity|exact IH].
Qed.

Lemma no_gate_read_run_audit (base_dir binaries : string) :
  emits_only no_gate_read (run_audit w running_config base_dir binaries).
Proof. unfold run_audit. emits_script. apply no_gate_read_execute. Qed.

Lemma no_gate_read_list_reports (output_directory : string) :
  emits_only no_gate_read (list_reports w output_directory).
Proof.
  unfold list_reports. emits_script;
    first [apply no_gate_read_listdir | apply no_gate_read_log_reports].
Qed.

Lemma no_gate_read_merge (sarif_reports : list string) :
  emits_only no_gate_read (merge_sarif_files w running_config sarif_reports).
Proof. unfold merge_sarif_files. emits_script. apply no_gate_read_execute. Qed.





(** Without enforcement no diagnostics file is read by the gate. *)
Lemma no_gate_without_enforcement (base_dir binaries : string) :
  enforce running_config = false ->
  emits_only no_gate_read (discovery_run w running_config base_dir binaries).
Proof.
  intros E.
  assert (Hu : forall sarif,
             emits_only no_gate_read (upload_and_enforce w running_config sarif)).
  { intros sarif. unfold upload_and_enforce. rewrite E.
    emits_script. apply no_gate_read_upload. }
  assert (Hp : forall od report acc,
             emits_only no_gate_read (process_report w running_config od report acc)).
  { intros od report acc. unfold process_report.
    emits_script; first [apply no_gate_read_execute | apply Hu]. }
  assert (Hl : forall od reports acc,
             emits_only no_gate_read (process_reports w running_config od reports acc)).
  { intros od reports. induction reports as [|report rest IH]; intros acc.
    - apply emits_only_ret.
    - cbn [process_reports]. apply emits_only_bind; [apply Hp|exact IH]. }
  unfold discovery_run.
  apply emits_only_bind; [apply no_gate_read_run_audit|intros od].
  apply emits_only_bind; [apply no_gate_read_list_reports|intros reports].
  apply emits_only_bind; [apply Hl|intros acc].
  apply no_gate_read_merge.
Qed.

End GatedScript.



(** *** The gate follows every conversion *)



Section GateFollows.

Context {W : Type} (w : world W) (running_config : RunningConfiguration).

Hypothesis enforced : enforce running_config = true.











End GateFollows.


Example findings_run :
  outcome_of (sample_run findings_world true) = Exit 1
  /\ map fst (conversions (events_of (sample_run findings_world true)))
     = map (convert_args "/github/workspace/c0ffee")
         ["a.yaml.audit-report.json"; "b.yaml.audit-report.json"]
  /\ checked (events_of (sample_run findings_world true))
     = ["a.yaml.audit-report.sarif"; "b.yaml.audit-report.sarif"]
  /\ merges (events_of (sample_run findings_world true)) = []
  /\ filter is_network (events_of (sample_run findings_world true)) = [].
Proof. vm_compute. repeat split. Qed.


(** * Further properties of the script *)

(** ** The log level of the configuration *)

Lemma lower_char_idempotent (c : ascii) :
  PyStr.lower_char (PyStr.lower_char c) = PyStr.lower_char c.
Proof. dest_ascii c; reflexivity. Qed.

Lemma lower_idempotent (s : string) : PyStr.lower (PyStr.lower s) = PyStr.lower s.
Proof.
  induction s as [|c s IH]; [reflexivity|].
  simpl. now rewrite lower_char_idempotent, IH.
Qed.

Lemma known_log_levels_lower (l : string) :
  In l known_log_levels -> PyStr.lower l = l.
Proof.
  intros H. repeat (destruct H as [<- | H]; [reflexivity|]). destruct H.
Qed.

Lemma known_log_levels_not_empty (l : string) :
  In l known_log_levels -> PyStr.is_empty l = false.
Proof.
  intros H. repeat (destruct H as [<- | H]; [reflexivity|]). destruct H.
Qed.

Lemma existsb_eqb_In (x : string) (l : list string) :
  existsb (String.eqb x) l = true <-> In x l.
Proof.
  rewrite existsb_exists. split.
  - intros (y & Hy & E). apply String.eqb_eq in E. now subst.
  - intros H. exists x. split; [exact H|apply String.eqb_refl].
Qed.

Lemma resolve_log_level_known (value : option string) :
  In (resolve_log_level value) known_log_levels.
Proof.
  unfold resolve_log_level. destruct value as [l|]; [|simpl; tauto].
  destruct (existsb (String.eqb (PyStr.lower l)) known_log_levels) eqn:E; cbn [negb].
  - now apply existsb_eqb_In.
  - simpl. tauto.
Qed.

Lemma log_level_of_configuration (env : environ) :
  log_level (get_running_configuration env)
  = resolve_log_level (getenv env "INPUT_LOG-LEVEL" (Some "info")).
Proof.
  unfold get_running_configuration, post_init.
  set (r := resolve_log_level (getenv env "INPUT_LOG-LEVEL" (Some "info"))).
  pose proof (resolve_log_level_known (getenv env "INPUT_LOG-LEVEL" (Some "info"))) as H.
  fold r in H. cbn [log_level].
  rewrite (known_log_levels_lower r H), (known_log_levels_not_empty r H).
  cbn [log_level]. apply known_log_levels_lower, H.
Qed.

(** X1. The log level of a loaded configuration is always one of fail,
    error, warn, info and debug: it is the value of [INPUT_LOG-LEVEL] in
    lower case when that is one of the five, and info for every other value
    and for a variable that is not set. *)
Theorem log_level_always_known (env : environ) :
  let level := log_level (get_running_configuration env) in
  In level known_log_levels
  /\ (forall s, env "INPUT_LOG-LEVEL" = Some s ->
                In (PyStr.lower s) known_log_levels -> level = PyStr.lower s)
  /\ (forall s, env "INPUT_LOG-LEVEL" = Some s ->
                ~ In (PyStr.lower s) known_log_levels -> level = "info")
  /\ (env "INPUT_LOG-LEVEL" = None -> level = "info").
Proof.
  intros level. subst level. rewrite log_level_of_configuration.
  split; [apply resolve_log_level_known|].
  unfold getenv, resolve_log_level. repeat split.
  - intros s -> H. apply existsb_eqb_In in H. now rewrite H.
  - intros s -> H.
    destruct (existsb (String.eqb (PyStr.lower s)) known_log_levels) eqn:E; [|reflexivity].
    apply existsb_eqb_In in E. contradiction.
  - intros ->. reflexivity.
Qed.

Lemma log_level_always_known_witness :
  log_level (get_running_configuration (log_level_env "DEBUG")) = "debug"
  /\ log_level (get_running_configuration (log_level_env "verbose")) = "info".
Proof.
  split.
  - apply (proj1 (proj2 (log_level_always_known (log_level_env "DEBUG"))) "DEBUG").
    + reflexivity.
    + simpl. tauto.
  - apply (proj1 (proj2 (proj2 (log_level_always_known (log_level_env "verbose"))))
             "verbose").
    + reflexivity.
    + simpl. intros H.
      repeat (destruct H as [H | H]; [discriminate H|]). exact H.
Defined.

(** X2. [__post_init__] leaves a configuration whose log level is in lower
    case, changes no other field through a second application, and so is
    idempotent. *)
Theorem post_init_idempotent (c : RunningConfiguration) :
  PyStr.lower (log_level (post_init c)) = log_level (post_init c)
  /\ post_init (post_init c) = post_init c.
Proof.
  unfold post_init. destruct (PyStr.is_empty (log_level c)) eqn:E.
  - rewrite E. split; [|reflexivity].
    destruct (log_level c); [reflexivity|discriminate E].
  - cbn [log_level enforce data_enrich upload_to_code_scanning sarif_report export_as_pdf
           github_token github_repository github_organization github_repository_owner
           github_ref github_sha].
    rewrite lower_idempotent. split; [reflexivity|].
    destruct (PyStr.is_empty (PyStr.lower (log_level c))); reflexivity.
Qed.

(** ** More on the process runner *)

Lemma split_not_nil (c : ascii) (s : string) : PyStr.split c s <> [].
Proof.
  destruct s as [|d s]; simpl; [discriminate|].
  destruct (Ascii.eqb d c); [discriminate|].
  destruct (PyStr.split c s); discriminate.
Qed.

Lemma concat_cons_char (sep : string) (d : ascii) (x : string) (l : list string) :
  String.concat sep (String d x :: l) = String d (String.concat sep (x :: l)).
Proof. destruct l; reflexivity. Qed.

Lemma join_split (c : ascii) (s : string) :
  PyStr.join (String c EmptyString) (PyStr.split c s) = s.
Proof.
  unfold PyStr.join. induction s as [|d s IH]; [reflexivity|].
  cbn [PyStr.split]. destruct (Ascii.eqb_spec d c) as [->|Hd].
  - pose proof (split_not_nil c s) as Hn.
    destruct (PyStr.split c s) as [|x l]; [contradiction|].
    cbn [String.concat]. simpl. now rewrite <- IH.
  - pose proof (split_not_nil c s) as Hn.
    destruct (PyStr.split c s) as [|x l]; [contradiction|].
    rewrite concat_cons_char. now rewrite IH.
Qed.

Lemma split_pieces_no_sep (c : ascii) (s : string) :
  Forall (fun piece => PyStr.contains (String c EmptyString) piece = false)
    (PyStr.split c s).
Proof.
  induction s as [|d s IH]; [repeat constructor|].
  cbn [PyStr.split]. destruct (Ascii.eqb d c) eqn:Hd.
  - constructor; [reflexivity|exact IH].
  - destruct (PyStr.split c s) as [|x l]; [repeat constructor|].
    + rewrite contains_char_cons, Hd. reflexivity.
    + inversion IH as [|? ? Hx Hl]; subst. constructor; [|exact Hl].
      rewrite contains_char_cons, Hd. exact Hx.
Qed.

(** X3. A command given as one string is cut at every space: no argument
    handed to the subprocess contains a space, there is at least one
    argument, and the arguments joined by single spaces are the string. *)
Theorem execute_string_command (s : string) :
  exists pieces,
    argv (CmdStr s) = map Some pieces
    /\ pieces <> []
    /\ Forall (fun piece => ~ occurs_in " " piece) pieces
    /\ PyStr.join " " pieces = s.
Proof.
  exists (PyStr.split " " s). split; [reflexivity|].
  split; [apply split_not_nil|]. split; [|apply join_split].
  pose proof (split_pieces_no_sep " " s) as H.
  induction H as [|x l Hx Hl IH]; constructor; [|exact IH].
  now apply not_contains_iff.
Qed.

Example execute_string_command_ex :
  argv (CmdStr "42ctl audit  run") = [Some "42ctl"; Some "audit"; Some EmptyString; Some "run"].
Proof. reflexivity. Qed.

Lemma argv_present (cmd : list (option string)) :
  all_present cmd = true -> cmd = map Some (present cmd).
Proof.
  induction cmd as [|[x|] cmd IH]; [reflexivity| |discriminate].
  cbn [all_present forallb andb]. intros H.
  change (present (Some x :: cmd)) with (x :: present cmd).
  cbn [map]. f_equal. now apply IH.
Qed.

(** [execute] in one equation. *)
Lemma execute_run {W} (w : world W) (command : command) (capture_output : bool) (s : W) :
  execute w command capture_output s
  = if all_present (argv command) then
      match present (argv command) with
      | [] => (Raise IndexError, s, [])
      | executable :: rest =>
          match subprocess_start w executable with
          | Some e => (Raise (spawn_exn e), s, [])
          | None =>
              let args := executable :: rest in
              let result := fst (subprocess_run w s args) in
              (execute_outcome w result capture_output, snd (subprocess_run w s args),
               [EvRun args result])
          end
      end
    else (Raise TypeError, s, []).
Proof.
  destruct (all_present (argv command)) eqn:Ha.
  - destruct (present (argv command)) as [|executable rest] eqn:Ep.
    + unfold execute. cbv zeta. unfold bind at 1, call_subprocess_run.
      now rewrite Ha, Ep.
    + apply execute_args. rewrite <- Ep. now apply argv_present.
  - unfold execute. cbv zeta. unfold bind at 1, call_subprocess_run. now rewrite Ha.
Qed.

(** X4. One call of [execute] starts at most one subprocess.  It starts
    one, whatever its exit code, when every argument is there and the
    executable can be started.  It starts none when an argument is [None]
    ([TypeError]), when the command has no argument at all ([IndexError])
    and when the executable cannot be started: the error of the operating
    system is raised then. *)
Theorem execute_runs_once {W} (w : world W) (command : command)
    (capture_output : bool) (s : W) :
  let run := execute w command capture_output s in
  (all_present (argv command) = false ->
   events_of run = [] /\ outcome_of run = Raise TypeError)
  /\ (argv command = [] ->
      events_of run = [] /\ outcome_of run = Raise IndexError)
  /\ (forall executable rest,
         all_present (argv command) = true ->
         present (argv command) = executable :: rest ->
         match subprocess_start w executable with
         | Some e => events_of run = [] /\ outcome_of run = Raise (spawn_exn e)
         | None =>
             events_of run
             = [EvRun (executable :: rest)
                  (fst (subprocess_run w s (executable :: rest)))]
         end).
Proof.
  intros run. subst run. rewrite execute_run. split; [|split].
  - intros ->. split; reflexivity.
  - intros ->. split; reflexivity.
  - intros executable rest -> ->.
    destruct (subprocess_start w executable); [split|]; reflexivity.
Qed.

Lemma execute_runs_once_witness :
  events_of (execute boom_world (CmdStr "42ctl audit") true tt)
  = [EvRun ["42ctl"; "audit"] (mkCompleted 2 EmptyString "boom")]
  /\ (events_of (execute (without_executable boom_world "42ctl") (CmdStr "42ctl audit")
                   true tt) = []
      /\ outcome_of (execute (without_executable boom_world "42ctl") (CmdStr "42ctl audit")
                       true tt) = Raise FileNotFoundError)
  /\ (events_of (execute boom_world (CmdList [Some "42ctl"; None]) true tt) = []
      /\ outcome_of (execute boom_world (CmdList [Some "42ctl"; None]) true tt)
         = Raise TypeError)
  /\ (events_of (execute boom_world (CmdList []) true tt) = []
      /\ outcome_of (execute boom_world (CmdList []) true tt) = Raise IndexError).
Proof.
  split; [|split; [|split]].
  - apply (proj2 (proj2 (execute_runs_once boom_world (CmdStr "42ctl audit") true tt))
             "42ctl" ["audit"]); reflexivity.
  - apply (proj2 (proj2 (execute_runs_once (without_executable boom_world "42ctl")
                           (CmdStr "42ctl audit") true tt))
             "42ctl" ["audit"]); reflexivity.
  - apply (proj1 (execute_runs_once boom_world (CmdList [Some "42ctl"; None]) true tt)).
    reflexivity.
  - apply (proj1 (proj2 (execute_runs_once boom_world (CmdList []) true tt))).
    reflexivity.
Defined.

(** ** More on the gate evaluator *)

Ltac len_results_cases H :=
  unfold len_results, and_then, getitem_key, getitem_0, py_len in H;
  repeat match type of H with
         | context [match ?x with _ => _ end] =>
             is_var x; destruct x; try discriminate H
         | context [match dict_get ?m ?k with _ => _ end] =>
             destruct (dict_get m k); try discriminate H
         end.

Lemma len_results_never_exits (doc : json) (c : Z) : len_results doc <> Exit c.
Proof. intros H. len_results_cases H. Qed.

Lemma len_results_raises (doc : json) (e : exn) :
  len_results doc = Raise e -> e = KeyError \/ e = IndexError \/ e = TypeError.
Proof.
  intros H. len_results_cases H; injection H as <-; auto.
Qed.

Lemma security_issues_in_cases (doc : json) :
  (exists issues, security_issues_in doc = Ret (true, issues) /\ (0 < issues)%Z
                  /\ len_results doc = Ret issues)
  \/ security_issues_in doc = Ret (false, (-1)%Z)
  \/ security_issues_in doc = Raise TypeError.
Proof.
  unfold security_issues_in.
  destruct (len_results doc) as [n|c|e] eqn:E.
  - destruct (0 <? n)%Z eqn:Hn; [|auto].
    left. exists n. repeat split. now apply Z.ltb_lt.
  - exfalso. exact (len_results_never_exits doc c E).
  - destruct (len_results_raises doc e E) as [-> | [-> | ->]]; auto.
Qed.

(** X5. Whatever the gate evaluator returns is either "issues found" with a
    count that is positive, or "no issues" with the count -1: the count
    alone tells the verdict, and zero is never returned. *)
Theorem gate_verdict_and_count {W} (w : world W) (path : string) (s : W)
    (found : bool) (issues : Z) :
  outcome_of (is_security_issues_found w path s) = Ret (found, issues) ->
  (found = true /\ (0 < issues)%Z) \/ (found = false /\ issues = (-1)%Z).
Proof.
  rewrite is_security_issues_found_unfold. unfold outcome_of.
  destruct (fst (read_file w s path)) as [content|]; [|discriminate].
  cbn [fst]. destruct (json_loads w content) as [doc|]; [|discriminate].
  destruct (security_issues_in_cases doc) as [(n & -> & Hn & _) | [-> | ->]].
  - intros [= <- <-]. now left.
  - intros [= <- <-]. now right.
  - discriminate.
Qed.

Lemma gate_verdict_and_count_witness :
  (true = true /\ (0 < 3)%Z) \/ (true = false /\ 3%Z = (-1)%Z).
Proof.
  apply (gate_verdict_and_count gate_world "three.sarif" tt true 3). reflexivity.
Defined.

(** X6. On a file that was read and parsed, the only exception the gate
    evaluator lets out is [TypeError], never [KeyError] or [IndexError] and
    never an exit; and it does raise [TypeError] when the document is not a
    mapping at its top. *)
Theorem gate_type_errors {W} (w : world W) (path content : string) (doc : json) (s : W) :
  fst (read_file w s path) = Some content ->
  json_loads w content = Some doc ->
  let verdict := outcome_of (is_security_issues_found w path s) in
  (forall e, verdict = Raise e -> e = TypeError)
  /\ (forall c, verdict <> Exit c)
  /\ (match doc with JDict _ => False | _ => True end -> verdict = Raise TypeError).
Proof.
  intros Hread Hparse verdict. subst verdict.
  rewrite is_security_issues_found_unfold, Hread, Hparse. unfold outcome_of. cbn [fst].
  split; [|split].
  - intros e H.
    destruct (security_issues_in_cases doc) as [(n & E & _) | [E | E]];
      rewrite E in H; congruence.
  - intros c H.
    destruct (security_issues_in_cases doc) as [(n & E & _) | [E | E]];
      rewrite E in H; congruence.
  - intros H. destruct doc; try reflexivity. contradiction.
Qed.

Lemma gate_type_errors_witness :
  outcome_of (is_security_issues_found list_document_world "list.sarif" tt)
  = Raise TypeError.
Proof.
  apply (proj2 (proj2 (gate_type_errors list_document_world "list.sarif" "[]" (JList []) tt
                         eq_refl eq_refl))).
  exact I.
Defined.

(** ** More on the uploader *)

Section Upload.

Context {W : Type} (w : world W).

Lemma upload_sarif_run (token : string) (github_repository github_sha ref : option string)
    (path : string) (s : W) :
  PyStr.is_empty token = false ->
  upload_sarif w (Some token) github_repository github_sha ref path s
  = let s1 := snd (read_file w s path) in
    match fst (read_file w s path) with
    | None =>
        (Exit 1, s1,
         [EvOpenBytes path None;
          EvLog ERROR (display_header "SARIF file not found"
                         ("Unable to upload SARIF file to GitHub code scanning: "
                          +++ os_path_abspath w s1 path +++ " not found"))])
    | Some content =>
        match github_repository with
        | None => (Raise TypeError, s1, [EvOpenBytes path (Some content)])
        | Some r =>
            if PyStr.contains "/" r then
              let req := upload_request token r github_sha ref
                           (b64encode w (gzip_compress w content)) (os_getcwd w s1) in
              let response := fst (urlopen w s1 req) in
              (upload_answer_outcome w response tt, snd (urlopen w s1 req),
               [EvOpenBytes path (Some content);
                EvLog DEBUG ("Uploading SARIF file to GitHub code scanning: " +++ url req);
                EvUrlopen req response] ++ upload_answer_logs w response)
            else
              (Exit 1, s1,
               [EvOpenBytes path (Some content);
                EvLog ERROR (display_header "Invalid repository"
                               ("Unable to upload SARIF file to GitHub code scanning: '"
                                +++ r +++ "' is not a valid repository"))])
        end
    end.
Proof.
  intros Ht. unfold upload_sarif. cbn [PyStr.truthy]. rewrite Ht. cbn [negb].
  unfold bind, try_except, call_open_bytes, call_abspath, call_getcwd, call_urlopen,
    call_decode, log, emit, sys_exit, raise, ret.
  cbv zeta.
  destruct (read_file w s path) as [[content|] s1]; cbn [fst snd]; [|reflexivity].
  destruct github_repository as [r|]; [|reflexivity].
  destruct (PyStr.contains "/" r); cbn [negb]; [|reflexivity].
  unfold upload_request, upload_answer_outcome, upload_answer_logs.
  cbn [url PyStr.str_of_opt].
  destruct (urlopen w s1 _) as [[body|code reason body|message] s2]; cbn [fst snd];
    try destruct (bytes_decode w body); reflexivity.
Qed.

End Upload.

(** X7. With a token, an upload of a file that does not exist ends the
    process with exit code 1 right after the failed read: the banner names
    the absolute path of the file, and no connection is opened. *)
Theorem upload_missing_file_fatal {W} (w : world W) (token : string)
    (github_repository github_sha ref : option string) (path : string) (s : W) :
  token <> EmptyString ->
  fst (read_file w s path) = None ->
  let run := upload_sarif w (Some token) github_repository github_sha ref path s in
  outcome_of run = Exit 1
  /\ events_of run
     = [EvOpenBytes path None;
        EvLog ERROR (display_header "SARIF file not found"
                       ("Unable to upload SARIF file to GitHub code scanning: "
                        +++ os_path_abspath w (snd (read_file w s path)) path
                        +++ " not found"))].
Proof.
  intros Ht Hread run. subst run.
  rewrite upload_sarif_run by (destruct token; [contradiction|reflexivity]).
  cbv zeta. rewrite Hread. split; reflexivity.
Qed.

Lemma upload_missing_file_fatal_witness :
  outcome_of (upload_sarif gate_world (Some "secret") (Some "owner/repo") None None
                "missing.sarif" tt) = Exit 1
  /\ events_of (upload_sarif gate_world (Some "secret") (Some "owner/repo") None None
                  "missing.sarif" tt)
     = [EvOpenBytes "missing.sarif" None;
        EvLog ERROR (display_header "SARIF file not found"
                       ("Unable to upload SARIF file to GitHub code scanning: "
                        +++ os_path_abspath gate_world
                              (snd (read_file gate_world tt "missing.sarif")) "missing.sarif"
                        +++ " not found"))].
Proof.
  apply (upload_missing_file_fatal gate_world "secret" (Some "owner/repo") None None
           "missing.sarif" tt).
  - discriminate.
  - reflexivity.
Defined.

(** X8. An upload with a token, a file that exists and a repository name
    with a slash opens exactly one connection.  Its request goes to the
    code-scanning address of that repository, carries the token as bearer,
    the commit and the ref as given, the working directory as checkout
    address and, as SARIF, the content of the very file compressed and then
    encoded. *)
Theorem upload_sends_one_request {W} (w : world W) (token repository : string)
    (github_sha ref : option string) (path content : string) (s : W) :
  token <> EmptyString ->
  occurs_in "/" repository ->
  fst (read_file w s path) = Some content ->
  let run := upload_sarif w (Some token) (Some repository) github_sha ref path s in
  let s1 := snd (read_file w s path) in
  let req := upload_request token repository github_sha ref
               (b64encode w (gzip_compress w content)) (os_getcwd w s1) in
  filter is_network (events_of run) = [EvUrlopen req (fst (urlopen w s1 req))].
Proof.
  intros Ht Hr Hread run s1 req. subst run.
  rewrite upload_sarif_run by (destruct token; [contradiction|reflexivity]).
  cbv zeta. rewrite Hread. apply contains_iff in Hr. rewrite Hr.
  fold s1. fold req. unfold events_of, upload_answer_logs. cbn [snd].
  destruct (fst (urlopen w s1 req)) as [body|code reason body|message];
    try destruct (bytes_decode w body); reflexivity.
Qed.

Lemma upload_sends_one_request_witness :
  filter is_network
    (events_of (upload_sarif gate_world (Some "secret") (Some "owner/repo") (Some "abc123")
                  (Some "refs/heads/main") "three.sarif" tt))
  = [EvUrlopen
       (upload_request "secret" "owner/repo" (Some "abc123") (Some "refs/heads/main")
          (b64encode gate_world (gzip_compress gate_world "three results"))
          (os_getcwd gate_world (snd (read_file gate_world tt "three.sarif"))))
       (fst (urlopen gate_world (snd (read_file gate_world tt "three.sarif"))
               (upload_request "secret" "owner/repo" (Some "abc123") (Some "refs/heads/main")
                  (b64encode gate_world (gzip_compress gate_world "three results"))
                  (os_getcwd gate_world (snd (read_file gate_world tt "three.sarif"))))))].
Proof.
  apply (upload_sends_one_request gate_world "secret" "owner/repo" (Some "abc123")
           (Some "refs/heads/main") "three.sarif" "three results" tt).
  - discriminate.
  - apply contains_iff. reflexivity.
  - reflexivity.
Defined.

(** X9. Once the request is sent, the answer decides how the upload ends.
    After an answer that is no error it returns when the body read has a
    text, and raises [TypeError] without a banner when it has none.  After
    an HTTP error whose body has a text it logs the status, the reason and
    that text and exits with code 1; when the body has no text it raises
    [UnicodeDecodeError] from the handler, without a banner and without an
    exit code.  After any other failure it raises [TypeError] without a
    banner, because the banner is then built from a title alone. *)
Theorem upload_ends_by_answer {W} (w : world W) (token repository : string)
    (github_sha ref : option string) (path content : string) (s : W) :
  token <> EmptyString ->
  occurs_in "/" repository ->
  fst (read_file w s path) = Some content ->
  let run := upload_sarif w (Some token) (Some repository) github_sha ref path s in
  let s1 := snd (read_file w s path) in
  let req := upload_request token repository github_sha ref
               (b64encode w (gzip_compress w content)) (os_getcwd w s1) in
  match fst (urlopen w s1 req) with
  | HttpOk body =>
      outcome_of run = match bytes_decode w body with
                       | Some _ => Ret tt
                       | None => Raise TypeError
                       end
      /\ filter is_error_log (events_of run) = []
  | HttpError code reason body =>
      match bytes_decode w body with
      | Some text =>
          outcome_of run = Exit 1
          /\ filter is_error_log (events_of run)
             = [EvLog ERROR
                  (display_header ("Unable to upload SARIF file to GitHub code scanning: "
                                   +++ PyStr.str_of_Z code +++ ". " +++ reason) text)]
      | None =>
          outcome_of run = Raise UnicodeDecodeError
          /\ filter is_error_log (events_of run) = []
      end
  | OtherError _ =>
      outcome_of run = Raise TypeError
      /\ filter is_error_log (events_of run) = []
  end.
Proof.
  intros Ht Hr Hread run s1 req. subst run.
  rewrite upload_sarif_run by (destruct token; [contradiction|reflexivity]).
  cbv zeta. rewrite Hread. apply contains_iff in Hr. rewrite Hr.
  fold s1. fold req. unfold events_of, outcome_of. cbn [fst snd].
  unfold upload_answer_outcome, upload_answer_logs.
  destruct (fst (urlopen w s1 req)) as [body|code reason body|message];
    try destruct (bytes_decode w body); split; reflexivity.
Qed.

Lemma upload_ends_by_answer_witness :
  (outcome_of (upload_sarif forbidden_world (Some "secret") (Some "owner/repo") None None
                 "a.yaml.audit-report.sarif" tt) = Exit 1
   /\ filter is_error_log
        (events_of (upload_sarif forbidden_world (Some "secret") (Some "owner/repo") None
                      None "a.yaml.audit-report.sarif" tt))
      = [EvLog ERROR
           (display_header "Unable to upload SARIF file to GitHub code scanning: 403. Forbidden"
              "Resource not accessible by integration")])
  /\ (outcome_of (upload_sarif bad_gateway_world (Some "secret") (Some "owner/repo") None None
                    "a.yaml.audit-report.sarif" tt) = Raise UnicodeDecodeError
      /\ filter is_error_log
           (events_of (upload_sarif bad_gateway_world (Some "secret") (Some "owner/repo") None
                         None "a.yaml.audit-report.sarif" tt)) = [])
  /\ (outcome_of (upload_sarif offline_world (Some "secret") (Some "owner/repo") None None
                    "a.yaml.audit-report.sarif" tt) = Raise TypeError
      /\ filter is_error_log
           (events_of (upload_sarif offline_world (Some "secret") (Some "owner/repo") None
                         None "a.yaml.audit-report.sarif" tt)) = []).
Proof.
  split; [|split].
  - apply (upload_ends_by_answer forbidden_world "secret" "owner/repo" None None
             "a.yaml.audit-report.sarif" "no result" tt).
    + discriminate.
    + apply contains_iff. reflexivity.
    + reflexivity.
  - apply (upload_ends_by_answer bad_gateway_world "secret" "owner/repo" None None
             "a.yaml.audit-report.sarif" "no result" tt).
    + discriminate.
    + apply contains_iff. reflexivity.
    + reflexivity.
  - apply (upload_ends_by_answer offline_world "secret" "owner/repo" None None
             "a.yaml.audit-report.sarif" "no result" tt).
    + discriminate.
    + apply contains_iff. reflexivity.
    + reflexivity.
Defined.

Example upload_answers :
  outcome_of (upload_sarif forbidden_world (Some "secret") (Some "owner/repo") None None
                "a.yaml.audit-report.sarif" tt) = Exit 1
  /\ outcome_of (upload_sarif offline_world (Some "secret") (Some "owner/repo") None None
                   "a.yaml.audit-report.sarif" tt) = Raise TypeError
  /\ outcome_of (upload_sarif gate_world (Some "secret") (Some "owner/repo") None None
                   "three.sarif" tt) = Ret tt.
Proof. vm_compute. repeat split. Qed.

(** ** The audit at the start of [discovery_run] *)

Lemma split_with_sep (c : ascii) (s : string) :
  PyStr.contains (String c EmptyString) s = true ->
  exists a b rest, PyStr.split c s = a :: b :: rest.
Proof.
  induction s as [|d s IH]; [discriminate|].
  rewrite contains_char_cons. cbn [PyStr.split].
  destruct (Ascii.eqb d c); cbn [orb].
  - intros _. pose proof (split_not_nil c s) as Hn.
    destruct (PyStr.split c s) as [|x l]; [contradiction|]. eauto.
  - intros H. destruct (IH H) as (a & b & rest & ->). eauto.
Qed.

Section Audit.

Context {W : Type} (w : world W) (running_config : RunningConfiguration).

Lemma discovery_run_after_audit (base_dir binaries : string) (s : W) :
  discovery_run w running_config base_dir binaries s
  = match run_audit w running_config base_dir binaries s with
    | (Ret output_directory, s1, t1) =>
        let '(o, s2, t2) :=
          (reports <- list_reports w output_directory ;;
           sarif_reports <- process_reports w running_config output_directory reports [] ;;
           merge_sarif_files w running_config sarif_reports) s1 in
        (o, s2, t1 ++ t2)
    | (Exit c, s1, t1) => (Exit c, s1, t1)
    | (Raise e, s1, t1) => (Raise e, s1, t1)
    end.
Proof. reflexivity. Qed.

Lemma run_audit_run (owner organization repository : string) (name : string)
    (base_dir binaries : string) (s : W) :
  github_repository_owner running_config = Some owner ->
  github_organization running_config = Some organization ->
  github_repository running_config = Some repository ->
  nth_error (PyStr.split "/" repository) 1 = Some name ->
  run_audit w running_config base_dir binaries s
  = let hex := fst (uuid4_hex w s) in
    let s0 := snd (uuid4_hex w s) in
    let output_directory := PosixPath.join base_dir hex in
    let args := audit_args running_config owner organization repository base_dir binaries
                  output_directory in
    let result := fst (subprocess_run w s0 args) in
    let before := EvUuid hex
                  :: EvLog DEBUG ("Running configuration: " +++ repr running_config)
                  :: audit_logs running_config name base_dir output_directory in
    match subprocess_start w "42ctl" with
    | Some e => (Raise (spawn_exn e), s0, before)
    | None =>
        if (returncode result =? 0)%Z then
          match bytes_decode w (stdout result), bytes_decode w (stderr result) with
          | Some out, Some err =>
              (Ret output_directory, snd (subprocess_run w s0 args),
               before ++ [EvRun args result; EvPrint "STDOUT"; EvPrint out;
                          EvPrint "STDERR"; EvPrint err])
          | _, _ =>
              (Raise UnicodeDecodeError, snd (subprocess_run w s0 args),
               before ++ [EvRun args result])
          end
        else
          match failure_message w result with
          | Some message =>
              (Exit 1, snd (subprocess_run w s0 args),
               before ++ [EvRun args result;
                          EvLog ERROR (display_header "Audit command failed" message)])
          | None =>
              (Raise UnicodeDecodeError, snd (subprocess_run w s0 args),
               before ++ [EvRun args result])
          end
    end.
Proof.
  intros Ho Hg Hr Hn. unfold run_audit. rewrite Hr, Hn.
  unfold bind, call_uuid4_hex, log, print, emit, ret, try_except.
  destruct (uuid4_hex w s) as [hex s0]. cbn [fst snd]. cbv zeta.
  rewrite (execute_args w _ "42ctl"
             (tl (audit_args running_config owner organization repository base_dir binaries
                    (PosixPath.join base_dir hex))) true s0)
    by (unfold audit_args; rewrite ?Ho, ?Hg, ?Hr;
        destruct (data_enrich running_config); reflexivity).
  cbv zeta.
  change ("42ctl" :: tl (audit_args running_config owner organization repository base_dir
                           binaries (PosixPath.join base_dir hex)))
    with (audit_args running_config owner organization repository base_dir binaries
            (PosixPath.join base_dir hex)).
  unfold audit_logs. rewrite Ho, Hg.
  destruct (subprocess_start w "42ctl") as [[]|]; [reflexivity..|].
  unfold execute_outcome.
  destruct (returncode _ =? 0)%Z.
  - destruct (bytes_decode w (stdout _)); [|reflexivity].
    destruct (bytes_decode w (stderr _)); reflexivity.
  - destruct (failure_message w _); reflexivity.
Qed.

Lemma run_audit_incomplete (base_dir binaries : string) (s : W) :
  github_repository_owner running_config = None
  \/ github_organization running_config = None ->
  forall repository name,
  github_repository running_config = Some repository ->
  nth_error (PyStr.split "/" repository) 1 = Some name ->
  run_audit w running_config base_dir binaries s
  = (Raise TypeError, snd (uuid4_hex w s),
     EvUuid (fst (uuid4_hex w s))
     :: EvLog DEBUG ("Running configuration: " +++ repr running_config)
     :: audit_logs running_config name base_dir
          (PosixPath.join base_dir (fst (uuid4_hex w s)))).
Proof.
  intros H repository name Hr Hn. unfold run_audit. rewrite Hr, Hn.
  unfold bind, call_uuid4_hex, log, print, emit, ret, try_except, execute, bind,
    call_subprocess_run.
  destruct (uuid4_hex w s) as [hex s0]. cbn [fst snd]. cbv zeta. unfold audit_logs.
  destruct H as [H | H]; rewrite H;
    destruct (data_enrich running_config);
    try destruct (github_repository_owner running_config);
    try destruct (github_organization running_config);
    reflexivity.
Qed.

Lemma bind_events_ret {A B} (m : M W A) (f : A -> M W B) (s s1 : W) (a : A)
    (t1 : list event) :
  m s = (Ret a, s1, t1) -> events_of (bind m f s) = t1 ++ events_of (f a s1).
Proof.
  intros E. unfold bind, events_of. rewrite E. now destruct (f a s1) as [[o s2] t2].
Qed.

Lemma bind_events_begin {A B} (m : M W A) (f : A -> M W B) (s : W) :
  exists rest, events_of (bind m f s) = events_of (m s) ++ rest.
Proof.
  unfold bind, events_of. destruct (m s) as [[[a|c|e] s1] t1]; cbn [snd].
  - destruct (f a s1) as [[o s2] t2]. now exists t2.
  - exists []. now rewrite app_nil_r.
  - exists []. now rewrite app_nil_r.
Qed.

Lemma run_audit_begins (base_dir binaries : string) (s : W) :
  exists rest,
    events_of (run_audit w running_config base_dir binaries s)
    = EvUuid (fst (uuid4_hex w s))
      :: EvLog DEBUG ("Running configuration: " +++ repr running_config) :: rest.
Proof.
  unfold run_audit.
  rewrite (bind_events_ret _ _ s (snd (uuid4_hex w s)) (fst (uuid4_hex w s))
             [EvUuid (fst (uuid4_hex w s))])
    by (unfold call_uuid4_hex; now destruct (uuid4_hex w s)).
  rewrite (bind_events_ret _ _ (snd (uuid4_hex w s)) (snd (uuid4_hex w s)) tt
             [EvLog DEBUG ("Running configuration: " +++ repr running_config)])
    by reflexivity.
  eexists. reflexivity.
Qed.

Lemma discovery_run_begins (base_dir binaries : string) (s : W) :
  exists rest,
    events_of (discovery_run w running_config base_dir binaries s)
    = EvUuid (fst (uuid4_hex w s))
      :: EvLog DEBUG ("Running configuration: " +++ repr running_config) :: rest.
Proof.
  unfold discovery_run.
  destruct (bind_events_begin (run_audit w running_config base_dir binaries)
              (fun output_directory =>
                 reports <- list_reports w output_directory ;;
                 sarif_reports <-
                   process_reports w running_config output_directory reports [] ;;
                 merge_sarif_files w running_config sarif_reports) s) as (rest & ->).
  destruct (run_audit_begins base_dir binaries s) as (rest' & ->).
  exists (rest' ++ rest). reflexivity.
Qed.

End Audit.

Lemma repr_has_token (c : RunningConfiguration) (token : string) :
  github_token c = Some token -> occurs_in token (repr c).
Proof.
  intros H. unfold repr. rewrite H. cbn [PyStr.str_of_opt].
  repeat first [apply occurs_in_here | apply occurs_in_append_l].
Qed.

(** X10. Every run of [discovery_run] hands the access token to the logger:
    its second event is the debug line with the configuration, and that
    line contains the token as it is. *)
Theorem configuration_log_has_token {W} (w : world W)
    (running_config : RunningConfiguration) (base_dir binaries : string) (s : W)
    (token : string) :
  github_token running_config = Some token ->
  exists msg,
    nth_error (events_of (discovery_run w running_config base_dir binaries s)) 1
    = Some (EvLog DEBUG msg)
    /\ occurs_in token msg.
Proof.
  intros H. destruct (discovery_run_begins w running_config base_dir binaries s) as (rest & ->).
  eexists. split; [reflexivity|].
  apply occurs_in_append_l. now apply repr_has_token.
Qed.

Lemma configuration_log_has_token_witness :
  exists msg,
    nth_error (events_of (sample_run second_fails_world false)) 1 = Some (EvLog DEBUG msg)
    /\ occurs_in "secret" msg.
Proof.
  apply (configuration_log_has_token second_fails_world
           (sample_config false (Some "owner/repo")) "/github/workspace"
           "/usr/local/bin/42c-ast-linux-amd64" tt "secret").
  reflexivity.
Defined.

Section AuditOutcome.

Context {W : Type} (w : world W) (running_config : RunningConfiguration).

Lemma run_audit_without_repository (base_dir binaries : string) (s : W) :
  github_repository running_config = None
  \/ (exists r, github_repository running_config = Some r
                /\ PyStr.contains "/" r = false) ->
  filter is_run (events_of (run_audit w running_config base_dir binaries s)) = []
  /\ exists e, outcome_of (run_audit w running_config base_dir binaries s) = Raise e.
Proof.
  intros H. unfold run_audit.
  destruct H as [E | (r & E & Hr)]; rewrite E.
  - run_script. destruct (uuid4_hex w s) as [hex s1]. simpl. eauto.
  - rewrite (split_no_sep _ _ Hr).
    run_script. destruct (uuid4_hex w s) as [hex s1]. simpl. eauto.
Qed.

(** An audit that returned was started. *)
Lemma run_audit_started (base_dir binaries : string) (s : W) (output_directory : string) :
  outcome_of (run_audit w running_config base_dir binaries s) = Ret output_directory ->
  subprocess_start w "42ctl" = None.
Proof.
  intros H.
  destruct (github_repository running_config) as [repository|] eqn:Hr.
  2:{ destruct (run_audit_without_repository base_dir binaries s (or_introl Hr))
        as (_ & e & He). congruence. }
  destruct (PyStr.contains "/" repository) eqn:Hs.
  2:{ destruct (run_audit_without_repository base_dir binaries s
                  (or_intror (ex_intro _ repository (conj Hr Hs)))) as (_ & e & He).
      congruence. }
  destruct (split_with_sep _ _ Hs) as (a & name & rest & Hsplit).
  assert (Hn : nth_error (PyStr.split "/" repository) 1 = Some name)
    by now rewrite Hsplit.
  destruct (github_repository_owner running_config) as [owner|] eqn:Ho.
  2:{ rewrite (run_audit_incomplete w running_config base_dir binaries s (or_introl Ho)
                 repository name Hr Hn) in H. discriminate H. }
  destruct (github_organization running_config) as [organization|] eqn:Hg.
  2:{ rewrite (run_audit_incomplete w running_config base_dir binaries s (or_intror Hg)
                 repository name Hr Hn) in H. discriminate H. }
  rewrite (run_audit_run w running_config owner organization repository name
             base_dir binaries s Ho Hg Hr Hn) in H.
  cbv zeta in H. destruct (subprocess_start w "42ctl"); [discriminate H|reflexivity].
Qed.

Lemma discovery_run_stops_with_audit (base_dir binaries : string) (s : W) :
  (forall od, outcome_of (run_audit w running_config base_dir binaries s) <> Ret od) ->
  discovery_run w running_config base_dir binaries s
  = match run_audit w running_config base_dir binaries s with
    | (Ret _, s1, t1) => (Ret tt, s1, t1)
    | (Exit c, s1, t1) => (Exit c, s1, t1)
    | (Raise e, s1, t1) => (Raise e, s1, t1)
    end.
Proof.
  intros H. rewrite discovery_run_after_audit. unfold outcome_of in H.
  destruct (run_audit w running_config base_dir binaries s) as [[[od|c|e] s1] t1];
    try reflexivity.
  exfalso. exact (H od eq_refl).
Qed.

End AuditOutcome.

(** X11. A failure of the audit command ends the run.  With owner,
    organization and repository set and an audit that was started and exits
    with a code other than zero, the audit is the only subprocess of the
    run and no directory is listed.  When the captured output has a text,
    the run ends with exit code 1 after the banner with the message; when
    it has none, the run ends with [UnicodeDecodeError] and no banner. *)
Theorem audit_failure_fatal {W} (w : world W) (running_config : RunningConfiguration)
    (owner organization repository base_dir binaries : string) (s : W) :
  github_repository_owner running_config = Some owner ->
  github_organization running_config = Some organization ->
  github_repository running_config = Some repository ->
  occurs_in "/" repository ->
  subprocess_start w "42ctl" = None ->
  let run := discovery_run w running_config base_dir binaries s in
  let args := audit_args running_config owner organization repository base_dir binaries
                (PosixPath.join base_dir (fst (uuid4_hex w s))) in
  let result := fst (subprocess_run w (snd (uuid4_hex w s)) args) in
  returncode result <> 0%Z ->
  filter is_run (events_of run) = [EvRun args result]
  /\ listings (events_of run) = []
  /\ match failure_message w result with
     | Some message =>
         outcome_of run = Exit 1
         /\ filter is_error_log (events_of run)
            = [EvLog ERROR (display_header "Audit command failed" message)]
     | None =>
         outcome_of run = Raise UnicodeDecodeError
         /\ filter is_error_log (events_of run) = []
     end.
Proof.
  intros Ho Hg Hr Hs Hstart run args result Hrc. subst run.
  apply contains_iff in Hs. destruct (split_with_sep _ _ Hs) as (a & name & rest & Hsplit).
  assert (Hn : nth_error (PyStr.split "/" repository) 1 = Some name)
    by now rewrite Hsplit.
  pose proof (run_audit_run w running_config owner organization repository name
                base_dir binaries s Ho Hg Hr Hn) as E.
  cbv zeta in E. fold args in E. fold result in E.
  apply Z.eqb_neq in Hrc. rewrite Hstart, Hrc in E.
  destruct (failure_message w result) as [message|];
    (rewrite discovery_run_stops_with_audit by (rewrite E; discriminate));
    rewrite E; unfold outcome_of, events_of; cbn [fst snd];
    unfold audit_logs; repeat split.
Qed.

Lemma audit_failure_fatal_witness :
  (filter is_run (events_of (sample_run audit_fails_world false))
   = [EvRun (audit_args (sample_config false (Some "owner/repo")) "owner" "owner"
               "owner/repo" "/github/workspace" "/usr/local/bin/42c-ast-linux-amd64"
               "/github/workspace/c0ffee")
        (mkCompleted 3 "scanning" "no OpenAPI file found")]
   /\ listings (events_of (sample_run audit_fails_world false)) = []
   /\ outcome_of (sample_run audit_fails_world false) = Exit 1
   /\ filter is_error_log (events_of (sample_run audit_fails_world false))
      = [EvLog ERROR
           (display_header "Audit command failed"
              ("Command failed with exit code 3" +++ PyStr.nl +++ "stdout: scanning"
               +++ PyStr.nl +++ "stderr: no OpenAPI file found"))])
  /\ (filter is_run (events_of (sample_run audit_garbled_world false))
      = [EvRun (audit_args (sample_config false (Some "owner/repo")) "owner" "owner"
                  "owner/repo" "/github/workspace" "/usr/local/bin/42c-ast-linux-amd64"
                  "/github/workspace/c0ffee")
           (mkCompleted 3 not_utf8 EmptyString)]
      /\ listings (events_of (sample_run audit_garbled_world false)) = []
      /\ outcome_of (sample_run audit_garbled_world false) = Raise UnicodeDecodeError
      /\ filter is_error_log (events_of (sample_run audit_garbled_world false)) = []).
Proof.
  split.
  - apply (audit_failure_fatal audit_fails_world (sample_config false (Some "owner/repo"))
             "owner" "owner" "owner/repo" "/github/workspace"
             "/usr/local/bin/42c-ast-linux-amd64" tt).
    + reflexivity.
    + reflexivity.
    + reflexivity.
    + apply contains_iff. reflexivity.
    + reflexivity.
    + vm_compute. discriminate.
  - apply (audit_failure_fatal audit_garbled_world (sample_config false (Some "owner/repo"))
             "owner" "owner" "owner/repo" "/github/workspace"
             "/usr/local/bin/42c-ast-linux-amd64" tt).
    + reflexivity.
    + reflexivity.
    + reflexivity.
    + apply contains_iff. reflexivity.
    + reflexivity.
    + vm_compute. discriminate.
Defined.

Example audit_fails_banner :
  filter is_error_log (events_of (sample_run audit_fails_world false))
  = [EvLog ERROR
       (display_header "Audit command failed"
          ("Command failed with exit code 3" +++ PyStr.nl +++ "stdout: scanning"
           +++ PyStr.nl +++ "stderr: no OpenAPI file found"))].
Proof. vm_compute. reflexivity. Qed.

Lemma discovery_run_first_run {W} (w : world W) (running_config : RunningConfiguration)
    (owner organization repository name base_dir binaries : string) (s : W) :
  github_repository_owner running_config = Some owner ->
  github_organization running_config = Some organization ->
  github_repository running_config = Some repository ->
  nth_error (PyStr.split "/" repository) 1 = Some name ->
  let args := audit_args running_config owner organization repository base_dir binaries
                (PosixPath.join base_dir (fst (uuid4_hex w s))) in
  match subprocess_start w "42ctl" with
  | Some _ =>
      filter is_run (events_of (discovery_run w running_config base_dir binaries s)) = []
  | None =>
      exists later,
        filter is_run (events_of (discovery_run w running_config base_dir binaries s))
        = EvRun args (fst (subprocess_run w (snd (uuid4_hex w s)) args)) :: later
  end.
Proof.
  intros Ho Hg Hr Hn args.
  pose proof (run_audit_run w running_config owner organization repository name
                base_dir binaries s Ho Hg Hr Hn) as E.
  cbv zeta in E. fold args in E.
  destruct (subprocess_start w "42ctl").
  { rewrite discovery_run_stops_with_audit by (rewrite E; discriminate).
    rewrite E. unfold events_of, audit_logs. reflexivity. }
  destruct (returncode (fst (subprocess_run w (snd (uuid4_hex w s)) args)) =? 0)%Z.
  - destruct (bytes_decode w (stdout _)) as [out|];
      [destruct (bytes_decode w (stderr _)) as [err|]|].
    + unfold discovery_run. rewrite (bind_events_ret _ _ _ _ _ _ E).
      rewrite !filter_app. unfold audit_logs. simpl. eexists. reflexivity.
    + rewrite discovery_run_stops_with_audit by (rewrite E; discriminate).
      rewrite E. unfold events_of. cbn [snd]. rewrite !filter_app.
      unfold audit_logs. simpl. eexists. reflexivity.
    + rewrite discovery_run_stops_with_audit by (rewrite E; discriminate).
      rewrite E. unfold events_of. cbn [snd]. rewrite !filter_app.
      unfold audit_logs. simpl. eexists. reflexivity.
  - destruct (failure_message w _);
      (rewrite discovery_run_stops_with_audit by (rewrite E; discriminate));
      rewrite E; unfold events_of; cbn [snd]; rewrite !filter_app;
      unfold audit_logs; simpl; eexists; reflexivity.
Qed.

(** X12. Whenever a run of [discovery_run] starts a subprocess, the first
    one is the audit: owner, organization and repository are set, and the
    command names the binary, the base directory as input, the base
    directory joined with the fresh identifier as output, the identity, the
    log level, and [--enrich] as its last word exactly when enrichment is
    on. *)
Theorem audit_is_first_subprocess {W} (w : world W)
    (running_config : RunningConfiguration) (base_dir binaries : string) (s : W)
    (cmd : list string) (result : completed) (later : list event) :
  filter is_run (events_of (discovery_run w running_config base_dir binaries s))
  = EvRun cmd result :: later ->
  exists owner organization repository,
    github_repository_owner running_config = Some owner
    /\ github_organization running_config = Some organization
    /\ github_repository running_config = Some repository
    /\ cmd = audit_args running_config owner organization repository base_dir binaries
               (PosixPath.join base_dir (fst (uuid4_hex w s)))
    /\ result = fst (subprocess_run w (snd (uuid4_hex w s)) cmd).
Proof.
  intros H.
  destruct (github_repository running_config) as [repository|] eqn:Hr.
  2:{ exfalso.
      destruct (run_audit_without_repository w running_config base_dir binaries s
                  (or_introl Hr)) as (Hq & e & He).
      rewrite discovery_run_stops_with_audit in H by (rewrite He; discriminate).
      unfold events_of, outcome_of in *.
      destruct (run_audit w running_config base_dir binaries s) as [[[od|c|e'] s1] t1];
        cbn [fst snd] in *; congruence. }
  destruct (PyStr.contains "/" repository) eqn:Hs.
  2:{ exfalso.
      destruct (run_audit_without_repository w running_config base_dir binaries s
                  (or_intror (ex_intro _ repository (conj Hr Hs)))) as (Hq & e & He).
      rewrite discovery_run_stops_with_audit in H by (rewrite He; discriminate).
      unfold events_of, outcome_of in *.
      destruct (run_audit w running_config base_dir binaries s) as [[[od|c|e'] s1] t1];
        cbn [fst snd] in *; congruence. }
  destruct (split_with_sep _ _ Hs) as (a & name & rest & Hsplit).
  assert (Hn : nth_error (PyStr.split "/" repository) 1 = Some name)
    by now rewrite Hsplit.
  destruct (github_repository_owner running_config) as [owner|] eqn:Ho.
  2:{ exfalso.
      pose proof (run_audit_incomplete w running_config base_dir binaries s
                    (or_introl Ho) repository name Hr Hn) as E.
      rewrite discovery_run_stops_with_audit in H by (rewrite E; discriminate).
      rewrite E in H. unfold events_of, audit_logs in H. simpl in H. discriminate H. }
  destruct (github_organization running_config) as [organization|] eqn:Hg.
  2:{ exfalso.
      pose proof (run_audit_incomplete w running_config base_dir binaries s
                    (or_intror Hg) repository name Hr Hn) as E.
      rewrite discovery_run_stops_with_audit in H by (rewrite E; discriminate).
      rewrite E in H. unfold events_of, audit_logs in H. simpl in H. discriminate H. }
  exists owner, organization, repository.
  pose proof (discovery_run_first_run w running_config owner organization repository name
                base_dir binaries s Ho Hg Hr Hn) as E.
  cbv zeta in E.
  destruct (subprocess_start w "42ctl"); [rewrite E in H; discriminate H|].
  destruct E as (later' & E).
  rewrite E in H. injection H as <- <- _. repeat split.
Qed.

Lemma audit_is_first_subprocess_witness :
  exists owner organization repository,
    github_repository_owner (sample_config false (Some "owner/repo")) = Some owner
    /\ github_organization (sample_config false (Some "owner/repo")) = Some organization
    /\ github_repository (sample_config false (Some "owner/repo")) = Some repository
    /\ ["42ctl"; "audit"; "run"; "local"; "-b"; "/usr/local/bin/42c-ast-linux-amd64";
        "-i"; "/github/workspace"; "-r"; "/github/workspace/c0ffee"; "-c";
        "--github-user"; "owner"; "--github-org"; "owner"; "--log-level"; "info";
        "--github-repo"; "owner/repo"]
       = audit_args (sample_config false (Some "owner/repo")) owner organization repository
           "/github/workspace" "/usr/local/bin/42c-ast-linux-amd64"
           (PosixPath.join "/github/workspace" (fst (uuid4_hex second_fails_world tt)))
    /\ succeeded
       = fst (subprocess_run second_fails_world (snd (uuid4_hex second_fails_world tt))
                ["42ctl"; "audit"; "run"; "local"; "-b"; "/usr/local/bin/42c-ast-linux-amd64";
                 "-i"; "/github/workspace"; "-r"; "/github/workspace/c0ffee"; "-c";
                 "--github-user"; "owner"; "--github-org"; "owner"; "--log-level"; "info";
                 "--github-repo"; "owner/repo"]).
Proof.
  apply (audit_is_first_subprocess second_fails_world
           (sample_config false (Some "owner/repo")) "/github/workspace"
           "/usr/local/bin/42c-ast-linux-amd64" tt _ _
           (tl (filter is_run (events_of (sample_run second_fails_world false))))).
  vm_compute. reflexivity.
Defined.

(** X13. With a repository name that has a slash but no owner or no
    organization, the audit command holds a [None]: [discovery_run] raises
    [TypeError] when it starts the audit, without a subprocess and without
    an error banner. *)
Theorem audit_needs_owner_and_organization {W} (w : world W)
    (running_config : RunningConfiguration) (repository base_dir binaries : string)
    (s : W) :
  github_repository running_config = Some repository ->
  occurs_in "/" repository ->
  github_repository_owner running_config = None
  \/ github_organization running_config = None ->
  let run := discovery_run w running_config base_dir binaries s in
  outcome_of run = Raise TypeError
  /\ filter is_run (events_of run) = []
  /\ filter is_error_log (events_of run) = [].
Proof.
  intros Hr Hs H run. subst run.
  apply contains_iff in Hs. destruct (split_with_sep _ _ Hs) as (a & name & rest & Hsplit).
  assert (Hn : nth_error (PyStr.split "/" repository) 1 = Some name)
    by now rewrite Hsplit.
  pose proof (run_audit_incomplete w running_config base_dir binaries s H repository name
                Hr Hn) as E.
  rewrite discovery_run_stops_with_audit by (rewrite E; discriminate).
  rewrite E. unfold outcome_of, events_of, audit_logs. cbn [fst snd]. repeat split.
Qed.

Lemma audit_needs_owner_and_organization_witness :
  outcome_of (discovery_run gate_world no_owner_config "/github/workspace"
                "/usr/local/bin/42c-ast-linux-amd64" tt) = Raise TypeError
  /\ filter is_run (events_of (discovery_run gate_world no_owner_config "/github/workspace"
                                 "/usr/local/bin/42c-ast-linux-amd64" tt)) = []
  /\ filter is_error_log
       (events_of (discovery_run gate_world no_owner_config "/github/workspace"
                     "/usr/local/bin/42c-ast-linux-amd64" tt)) = [].
Proof.
  apply (audit_needs_owner_and_organization gate_world no_owner_config "owner/repo"
           "/github/workspace" "/usr/local/bin/42c-ast-linux-amd64" tt).
  - reflexivity.
  - apply contains_iff. reflexivity.
  - left. reflexivity.
Defined.

(** ** The run after the audit *)

Section AfterAudit.

Context {W : Type} (w : world W) (running_config : RunningConfiguration).

Lemma emits_only_listdir (p : event -> bool) (path : string) :
  (forall names, p (EvListdir path names) = true) -> emits_only p (call_listdir w path).
Proof.
  intros H s. unfold call_listdir, events_of.
  destruct (os_listdir w s path) as [[names|] s1]; simpl; now rewrite H.
Qed.

Lemma emits_only_log_reports (p : event -> bool) (results_files : list string) :
  (forall msg, p (EvLog DEBUG msg) = true) ->
  emits_only p (@log_reports W results_files).
Proof.
  intros H s. rewrite log_reports_run. unfold events_of. cbn [snd].
  induction results_files as [|r l IH]; [reflexivity|].
  simpl. now rewrite H.
Qed.

Lemma no_network_before_loop (base_dir binaries : string) :
  emits_only (fun e => negb (is_network e))
    (output_directory <- run_audit w running_config base_dir binaries ;;
     reports <- list_reports w output_directory ;;
     ret (output_directory, reports)).
Proof.
  unfold run_audit, list_reports. emits_script;
    first [ apply emits_only_execute; reflexivity
          | apply emits_only_listdir; reflexivity
          | apply emits_only_log_reports; reflexivity ].
Qed.

Lemma list_reports_failed (output_directory : string) (s : W) :
  (forall reports, outcome_of (list_reports w output_directory s) <> Ret reports) ->
  length (listings (events_of (list_reports w output_directory s))) <= 1.
Proof.
  unfold list_reports, bind, call_listdir, log, emit.
  destruct (os_listdir w s output_directory) as [[files|] s1];
    [|intros _; unfold events_of; simpl; lia].
  rewrite log_reports_run.
  destruct (os_listdir w s1 output_directory) as [[names|] s2];
    unfold events_of, outcome_of; cbn [fst snd].
  - intros H. exfalso. exact (H names eq_refl).
  - intros _. destruct (listings_logs files (fun report => " - " +++ report)) as (L1 & _).
    rewrite ?listings_app, L1. simpl. lia.
Qed.

(** The run either ends before the loop, or is the loop over the second
    listing followed by the merge. *)
Lemma discovery_run_cases (base_dir binaries : string) (s : W) :
  let run := discovery_run w running_config base_dir binaries s in
  (conversions (events_of run) = [] /\ merges (events_of run) = []
   /\ length (listings (events_of run)) <= 1
   /\ forall u, outcome_of run <> Ret u)
  \/ exists output_directory results_files reports s2 before,
       listings before = [(output_directory, results_files); (output_directory, reports)]
       /\ conversions before = [] /\ merges before = []
       /\ filter is_network before = []
       /\ subprocess_start w "42ctl" = None
       /\ run
          = match process_reports w running_config output_directory reports [] s2 with
            | (Ret sarif_reports, s3, t3) =>
                let '(o4, s4, t4) := merge_sarif_files w running_config sarif_reports s3 in
                (o4, s4, before ++ t3 ++ t4)
            | (Exit c, s3, t3) => (Exit c, s3, before ++ t3)
            | (Raise e, s3, t3) => (Raise e, s3, before ++ t3)
            end.
Proof.
  intros run. subst run.
  pose proof (no_network_before_loop base_dir binaries s) as Hnet.
  unfold discovery_run, bind in *. unfold events_of in Hnet.
  pose proof (run_audit_events w running_config base_dir binaries s) as Ha.
  apply forallb_preliminary in Ha as (A1 & A2 & A3). unfold events_of in A1, A2, A3.
  pose proof (run_audit_started w running_config base_dir binaries s) as Hstart.
  unfold outcome_of in Hstart.
  destruct (run_audit w running_config base_dir binaries s) as [[[od|c|e] s1] t1];
    cbn [fst snd] in *;
    try (left; unfold events_of, outcome_of; cbn [fst snd]; rewrite A1, A2, A3;
         repeat split; [simpl; lia|discriminate]).
  specialize (Hstart od eq_refl).
  pose proof (list_reports_spec w od s1) as Hl. cbv zeta in Hl.
  pose proof (list_reports_failed od s1) as Hf.
  unfold events_of, outcome_of in Hl, Hf.
  destruct (list_reports w od s1) as [[[names|c|e] s2] t2]; cbn [fst snd] in *;
    destruct Hl as (L1 & L2 & L3);
    try (left; unfold events_of, outcome_of; cbn [fst snd];
         rewrite conversions_app, merges_app, listings_app, A1, A2, A3, L1, L2;
         repeat split; [apply Hf; discriminate|discriminate]).
  destruct (L3 names eq_refl) as (files & L4). clear L3 Hf.
  right. exists od, files, names, s2, (t1 ++ t2).
  rewrite listings_app, conversions_app, merges_app, A1, A2, A3, L1, L2, L4.
  unfold ret in Hnet. cbn [snd] in Hnet. rewrite app_nil_r in Hnet.
  repeat split.
  - clear - Hnet. induction (t1 ++ t2) as [|x l IH]; [reflexivity|].
    simpl in *. apply andb_true_iff in Hnet as [Hx Hl].
    apply negb_true_iff in Hx. rewrite Hx. now apply IH.
  - exact Hstart.
  - destruct (process_reports w running_config od names [] s2) as [[[acc|c|e] s3] t3];
      try (now rewrite app_assoc).
    destruct (merge_sarif_files w running_config acc s3) as [[o4 s4] t4].
    now rewrite app_assoc.
Qed.

Lemma process_reports_unmarked (output_directory : string) (reports : list string) :
  filter marked reports = [] ->
  forall sarif_reports s,
    process_reports w running_config output_directory reports sarif_reports s
    = (Ret sarif_reports, s, []).
Proof.
  induction reports as [|report rest IH]; intros H acc s; [reflexivity|].
  cbn [filter] in H. destruct (marked report) eqn:Hm; [discriminate H|].
  rewrite process_reports_cons, (process_report_unmarked _ _ _ _ _ _ Hm), (IH H).
  reflexivity.
Qed.

End AfterAudit.

Section FromListing.

Context {W : Type} (w : world W) (running_config : RunningConfiguration).

(** A run that obtained its second listing is the loop over that listing
    followed by the merge. *)
Lemma discovery_run_from_listing (base_dir binaries : string) (s : W)
    (output_directory : string) (reports : list string) :
  let run := discovery_run w running_config base_dir binaries s in
  nth_error (listings (events_of run)) 1 = Some (output_directory, reports) ->
  exists s2 before,
    conversions before = [] /\ merges before = [] /\ filter is_network before = []
    /\ subprocess_start w "42ctl" = None
    /\ run
       = match process_reports w running_config output_directory reports [] s2 with
         | (Ret sarif_reports, s3, t3) =>
             let '(o4, s4, t4) := merge_sarif_files w running_config sarif_reports s3 in
             (o4, s4, before ++ t3 ++ t4)
         | (Exit c, s3, t3) => (Exit c, s3, before ++ t3)
         | (Raise e, s3, t3) => (Raise e, s3, before ++ t3)
         end.
Proof.
  intros run H. subst run.
  destruct (discovery_run_cases w running_config base_dir binaries s)
    as [(_ & _ & Hlen & _) | (od & files & names & s2 & before & L & C & M & N & S & E)].
  - exfalso. apply nth_error_None in Hlen. congruence.
  - assert (Hl : listings (events_of (discovery_run w running_config base_dir binaries s))
                 = [(od, files); (od, names)]).
    { rewrite E.
      pose proof (process_reports_spec w running_config od names [] s2) as Hp.
      cbv zeta in Hp. unfold events_of, outcome_of in *.
      destruct (process_reports w running_config od names [] s2) as [[[acc|c|e] s3] t3];
        cbn [fst snd] in *; destruct Hp as (_ & P2 & _).
      - pose proof (merge_sarif_files_spec w running_config acc s3) as Hm.
        cbv zeta in Hm. unfold events_of in Hm.
        destruct (merge_sarif_files w running_config acc s3) as [[o4 s4] t4].
        cbn [fst snd] in *. destruct Hm as (_ & M2 & _).
        now rewrite !listings_app, L, P2, M2.
      - now rewrite !listings_app, L, P2.
      - now rewrite !listings_app, L, P2. }
    rewrite Hl in H. injection H as <- <-.
    exists s2, before. repeat split; assumption.
Qed.

End FromListing.

(** X14. When the listing holds no report file, nothing is converted and
    nothing is uploaded; a configured merge is started all the same, with
    the output path and no input file, and without a merge path the run
    ends normally. *)
Theorem no_report_in_listing {W} (w : world W) (running_config : RunningConfiguration)
    (base_dir binaries : string) (s : W) (output_directory : string)
    (reports : list string) :
  let run := discovery_run w running_config base_dir binaries s in
  nth_error (listings (events_of run)) 1 = Some (output_directory, reports) ->
  filter marked reports = [] ->
  conversions (events_of run) = []
  /\ filter is_network (events_of run) = []
  /\ (forall c out, sarif_report running_config = Some (String c out) ->
                    merges (events_of run) = [merge_args (String c out) []])
  /\ (PyStr.truthy (sarif_report running_config) = false -> outcome_of run = Ret tt).
Proof.
  intros run H Hm. subst run.
  destruct (discovery_run_from_listing w running_config base_dir binaries s _ _ H)
    as (s2 & before & C & M & N & S & E).
  rewrite E, (process_reports_unmarked w running_config _ _ Hm).
  rewrite merge_sarif_files_run, S.
  destruct (sarif_report running_config) as [[|c out]|]; cbv zeta;
    try (unfold events_of, outcome_of; cbn [fst snd app];
         rewrite conversions_app, filter_app, C, N;
         repeat split; intros; discriminate).
  destruct (returncode _ =? 0)%Z; [|destruct (failure_message w _)];
    unfold events_of, outcome_of; cbn [fst snd app];
    rewrite conversions_app, merges_app, filter_app, C, M, N;
    (split; [reflexivity|]); (split; [reflexivity|]);
    (split; [|discriminate]); intros c' out' [= <- <-]; reflexivity.
Qed.

Lemma no_report_in_listing_witness :
  conversions (events_of (sample_run no_report_world false)) = []
  /\ filter is_network (events_of (sample_run no_report_world false)) = []
  /\ (forall c out,
         sarif_report (sample_config false (Some "owner/repo")) = Some (String c out) ->
         merges (events_of (sample_run no_report_world false))
         = [merge_args (String c out) []])
  /\ (PyStr.truthy (sarif_report (sample_config false (Some "owner/repo"))) = false ->
      outcome_of (sample_run no_report_world false) = Ret tt).
Proof.
  apply (no_report_in_listing no_report_world (sample_config false (Some "owner/repo"))
           "/github/workspace" "/usr/local/bin/42c-ast-linux-amd64" tt
           "/github/workspace/c0ffee" ["audit.log"]).
  - vm_compute. reflexivity.
  - reflexivity.
Defined.

Example no_report_merge :
  merges (events_of (sample_run no_report_world false))
  = [["42ctl"; "audit"; "report"; "sarif"; "merge"; "-o"; "merged.sarif"]].
Proof. vm_compute. reflexivity. Qed.

Lemma In_run_merges (t : list event) (cmd : list string) (result : completed) :
  In (EvRun cmd result) t -> is_merge cmd = true -> In cmd (merges t).
Proof.
  intros H Hm. induction t as [|e t IH]; [destruct H|].
  change (e :: t) with ([e] ++ t) in *. rewrite merges_app.
  apply in_or_app. apply in_app_or in H.
  destruct H as [[-> | []] | H]; [left|right; now apply IH].
  unfold merges. simpl. rewrite Hm. now left.
Qed.

Lemma In_last_part {A} (x : A) (a b c : list A) :
  In x (a ++ b ++ c) -> ~ In x a -> ~ In x b -> In x c.
Proof.
  intros H Ha Hb. apply in_app_or in H as [H | H]; [contradiction|].
  apply in_app_or in H as [H | H]; [contradiction|exact H].
Qed.

(** X15. A merge is the last subprocess of a run and decides how the run
    ends.  After a merge that exits with zero nothing more happens and the
    run returns.  After a merge that fails and whose output has a text, the
    banner with its message is logged and the run ends with exit code 1;
    when the output has no text, nothing is logged and the run ends with
    [UnicodeDecodeError]. *)
Theorem merge_decides_exit {W} (w : world W) (running_config : RunningConfiguration)
    (base_dir binaries : string) (s : W) (cmd : list string) (result : completed) :
  let run := discovery_run w running_config base_dir binaries s in
  In (EvRun cmd result) (events_of run) ->
  is_merge cmd = true ->
  exists before,
    if (returncode result =? 0)%Z then
      events_of run = before ++ [EvRun cmd result] /\ outcome_of run = Ret tt
    else
      match failure_message w result with
      | Some message =>
          events_of run
          = before ++ [EvRun cmd result;
                       EvLog ERROR (display_header "Merge SARIF files command failed"
                                      message)]
          /\ outcome_of run = Exit 1
      | None =>
          events_of run = before ++ [EvRun cmd result]
          /\ outcome_of run = Raise UnicodeDecodeError
      end.
Proof.
  intros run Hin Hm. subst run.
  destruct (discovery_run_cases w running_config base_dir binaries s)
    as [(_ & M & _ & _) | (od & files & names & s2 & before & L & C & M & N & S & E)].
  - exfalso. pose proof (In_run_merges _ _ _ Hin Hm) as H. rewrite M in H. destruct H.
  - rewrite E in *. clear E.
    pose proof (process_reports_spec w running_config od names [] s2) as Hp.
    cbv zeta in Hp. unfold events_of, outcome_of in *.
    assert (Hb : ~ In (EvRun cmd result) before).
    { intros H. pose proof (In_run_merges _ _ _ H Hm) as H'. rewrite M in H'. destruct H'. }
    destruct (process_reports w running_config od names [] s2) as [[[acc|c|e] s3] t3];
      cbn [fst snd] in *; destruct Hp as (P1 & _ & _);
      assert (H3 : ~ In (EvRun cmd result) t3)
        by (intros H; pose proof (In_run_merges _ _ _ H Hm) as H'; rewrite P1 in H';
            destruct H');
      try (exfalso; apply in_app_or in Hin as [H | H]; contradiction).
    rewrite merge_sarif_files_run, S in *.
    destruct (sarif_report running_config) as [[|c out]|]; cbv zeta in *;
      try (exfalso; cbn [snd] in Hin;
           apply (In_last_part _ _ _ _ Hin Hb) in H3; destruct H3 as [H | []];
           discriminate H).
    set (logs := [EvLog DEBUG "Merging SARIF files is enabled";
                  EvLog INFO ("Merging SARIF files into '" +++ String c out +++ "'")]) in *.
    exists (before ++ t3 ++ logs).
    destruct (returncode (fst (subprocess_run w s3 (merge_args (String c out) acc))) =? 0)%Z
      eqn:Hrc; [|destruct (failure_message w (fst (subprocess_run w s3 _))) eqn:Hf];
      cbn [fst snd] in *;
      apply (In_last_part _ _ _ _ Hin Hb) in H3; simpl in H3;
      repeat (destruct H3 as [H | H3]; [try discriminate H|]); try destruct H3;
      injection H as <- <-; rewrite Hrc, ?Hf;
      (split; [|reflexivity]); rewrite <- !app_assoc; reflexivity.
Qed.

Lemma merge_decides_exit_witness :
  exists before,
    events_of (sample_run merge_fails_world false)
    = before
      ++ [EvRun (merge_args "merged.sarif"
                   ["a.yaml.audit-report.sarif"; "b.yaml.audit-report.sarif";
                    "c.yaml.audit-report.sarif"])
            (mkCompleted 1 EmptyString "cannot merge");
          EvLog ERROR (display_header "Merge SARIF files command failed"
                         ("Command failed with exit code 1" +++ PyStr.nl
                          +++ "stderr: cannot merge"))]
    /\ outcome_of (sample_run merge_fails_world false) = Exit 1.
Proof.
  apply (merge_decides_exit merge_fails_world (sample_config false (Some "owner/repo"))
           "/github/workspace" "/usr/local/bin/42c-ast-linux-amd64" tt
           (merge_args "merged.sarif"
              ["a.yaml.audit-report.sarif"; "b.yaml.audit-report.sarif";
               "c.yaml.audit-report.sarif"])
           (mkCompleted 1 EmptyString "cannot merge")).
  - vm_compute. repeat first [left; reflexivity | right].
  - reflexivity.
Defined.

Example merge_garbled_run :
  outcome_of (sample_run merge_garbled_world false) = Raise UnicodeDecodeError
  /\ filter is_error_log (events_of (sample_run merge_garbled_world false)) = []
  /\ length (merges (events_of (sample_run merge_garbled_world false))) = 1.
Proof. vm_compute. repeat split. Qed.

(** X20. With upload and enforcement off, and as long as the output of
    every command that failed has a text, no conversion can fail the run.
    Once the listing is there, a conversion is started for every report of
    the listing; a configured merge is started, with the SARIF files of
    exactly the conversions that exited with zero, in their order; and the
    run ends normally, unless the merge itself fails. *)
Theorem conversion_failures_are_skipped {W} (w : world W)
    (running_config : RunningConfiguration) (base_dir binaries : string) (s : W)
    (output_directory : string) (reports : list string) :
  upload_to_code_scanning running_config = false ->
  enforce running_config = false ->
  let run := discovery_run w running_config base_dir binaries s in
  nth_error (listings (events_of run)) 1 = Some (output_directory, reports) ->
  existsb (garbled w) (events_of run) = false ->
  map fst (conversions (events_of run))
  = map (convert_args output_directory) (filter marked reports)
  /\ (forall c out,
         sarif_report running_config = Some (String c out) ->
         merges (events_of run) = [merge_args (String c out) (converted (events_of run))])
  /\ (PyStr.truthy (sarif_report running_config) = false -> outcome_of run = Ret tt)
  /\ (outcome_of run = Ret tt
      \/ exists cmd result,
           In (EvRun cmd result) (events_of run) /\ is_merge cmd = true
           /\ returncode result <> 0%Z /\ outcome_of run = Exit 1).
Proof.
  intros Hu He run H Hg. subst run.
  destruct (discovery_run_from_listing w running_config base_dir binaries s _ _ H)
    as (s2 & before & C & M & N & S & E).
  rewrite E in *. clear E H.
  pose proof (process_reports_completes w running_config output_directory reports Hu He S
                [] s2) as Hc.
  pose proof (process_reports_spec w running_config output_directory reports [] s2) as Hp.
  cbv zeta in Hp. unfold outcome_of, events_of in *.
  destruct (process_reports w running_config output_directory reports [] s2)
    as [[o s3] t3]. cbn [fst snd] in *.
  assert (H3 : existsb (garbled w) t3 = false).
  { destruct o as [acc|c|e].
    - destruct (merge_sarif_files w running_config acc s3) as [[o4 s4] t4].
      cbn [snd] in Hg. rewrite !existsb_app in Hg.
      apply orb_false_iff in Hg as [_ Hg]. now apply orb_false_iff in Hg as [Hg _].
    - cbn [snd] in Hg. rewrite existsb_app in Hg. now apply orb_false_iff in Hg as [_ Hg].
    - cbn [snd] in Hg. rewrite existsb_app in Hg. now apply orb_false_iff in Hg as [_ Hg]. }
  destruct (Hc H3) as (acc & ->). destruct Hp as (P1 & _ & P3).
  destruct (P3 acc eq_refl) as [P4 P5]. cbn [app] in P5.
  rewrite merge_sarif_files_run, S in *.
  destruct (sarif_report running_config) as [[|c out]|]; cbv zeta in *; cbn [fst snd] in *;
    try (rewrite !conversions_app, C; cbn [app conversions flat_map];
         rewrite app_nil_r; split; [exact P4|]; split; [discriminate|];
         split; [reflexivity|now left]).
  assert (Ec : forall t4, conversions t4 = [] ->
                          conversions (before ++ t3 ++ t4) = conversions t3).
  { intros t4 E4. now rewrite !conversions_app, C, E4, app_nil_r. }
  destruct (returncode (fst (subprocess_run w s3 (merge_args (String c out) acc))) =? 0)%Z
    eqn:Hrc; [|destruct (failure_message w (fst (subprocess_run w s3 _))) eqn:Hf];
    cbn [fst snd] in *.
  - match goal with
    | |- context [before ++ t3 ++ ?t4] => pose proof (Ec t4 eq_refl) as Ec'
    end.
    rewrite (converted_of_conversions _ _ Ec'), Ec'.
    rewrite !merges_app, M, P1.
    split; [exact P4|]. split; [|split; [discriminate|now left]].
    intros c' out' [= <- <-]. now rewrite <- P5.
  - match goal with
    | |- context [before ++ t3 ++ ?t4] => pose proof (Ec t4 eq_refl) as Ec'
    end.
    rewrite (converted_of_conversions _ _ Ec'), Ec'.
    rewrite !merges_app, M, P1.
    split; [exact P4|]. split; [|split; [discriminate|]].
    + intros c' out' [= <- <-]. now rewrite <- P5.
    + right. exists (merge_args (String c out) acc),
        (fst (subprocess_run w s3 (merge_args (String c out) acc))).
      repeat split.
      * apply in_or_app. right. apply in_or_app. right. simpl. tauto.
      * now apply Z.eqb_neq.
  - exfalso. rewrite !existsb_app in Hg.
    apply orb_false_iff in Hg as [_ Hg]. apply orb_false_iff in Hg as [_ Hg].
    cbn [existsb app garbled] in Hg. rewrite Hrc, Hf in Hg. discriminate Hg.
Qed.

Lemma conversion_failures_are_skipped_witness :
  map fst (conversions (events_of (sample_run second_fails_world false)))
  = map (convert_args "/github/workspace/c0ffee") (filter marked three_reports)
  /\ (forall c out,
         sarif_report (sample_config false (Some "owner/repo")) = Some (String c out) ->
         merges (events_of (sample_run second_fails_world false))
         = [merge_args (String c out)
              (converted (events_of (sample_run second_fails_world false)))])
  /\ (PyStr.truthy (sarif_report (sample_config false (Some "owner/repo"))) = false ->
      outcome_of (sample_run second_fails_world false) = Ret tt)
  /\ (outcome_of (sample_run second_fails_world false) = Ret tt
      \/ exists cmd result,
           In (EvRun cmd result) (events_of (sample_run second_fails_world false))
           /\ is_merge cmd = true
           /\ returncode result <> 0%Z
           /\ outcome_of (sample_run second_fails_world false) = Exit 1).
Proof.
  apply (conversion_failures_are_skipped second_fails_world
           (sample_config false (Some "owner/repo")) "/github/workspace"
           "/usr/local/bin/42c-ast-linux-amd64" tt "/github/workspace/c0ffee" three_reports).
  - reflexivity.
  - reflexivity.
  - vm_compute. reflexivity.
  - vm_compute. reflexivity.
Defined.

Example conversions_fail_run :
  outcome_of (sample_run conversions_fail_world false) = Ret tt
  /\ converted (events_of (sample_run conversions_fail_world false)) = []
  /\ length (conversions (events_of (sample_run conversions_fail_world false))) = 3
  /\ merges (events_of (sample_run conversions_fail_world false))
     = [["42ctl"; "audit"; "report"; "sarif"; "merge"; "-o"; "merged.sarif"]].
Proof. vm_compute. repeat split. Qed.

(** ** What the flags switch off *)

Section Flags.

Context {W : Type} (w : world W) (running_config : RunningConfiguration).

Lemma no_upload_without_flag (base_dir binaries : string) :
  upload_to_code_scanning running_config = false ->
  emits_only no_upload (discovery_run w running_config base_dir binaries).
Proof.
  intros E.
  assert (Hx : forall command capture, emits_only no_upload (execute w command capture))
    by (intros; apply emits_only_execute; reflexivity).
  assert (Hu : forall sarif, emits_only no_upload (upload_and_enforce w running_config sarif)).
  { intros sarif. unfold upload_and_enforce, is_security_issues_found. rewrite E.
    emits_script. }
  assert (Hp : forall od report acc,
             emits_only no_upload (process_report w running_config od report acc)).
  { intros od report acc. unfold process_report.
    emits_script; first [apply Hx | apply Hu]. }
  assert (Hl : forall od reports acc,
             emits_only no_upload (process_reports w running_config od reports acc)).
  { intros od reports. induction reports as [|report rest IH]; intros acc.
    - apply emits_only_ret.
    - cbn [process_reports]. apply emits_only_bind; [apply Hp|exact IH]. }
  unfold discovery_run, run_audit, list_reports, merge_sarif_files.
  emits_script;
    first [ apply Hx | apply Hl
          | apply emits_only_listdir; reflexivity
          | apply emits_only_log_reports; reflexivity ].
Qed.

End Flags.

(** X17. With upload off, a run opens no connection and reads no file for
    an upload, whatever the audit and the conversions produce. *)
Theorem upload_needs_its_flag {W} (w : world W) (running_config : RunningConfiguration)
    (base_dir binaries : string) (s : W) :
  upload_to_code_scanning running_config = false ->
  let run := discovery_run w running_config base_dir binaries s in
  filter is_network (events_of run) = []
  /\ forall path content, ~ In (EvOpenBytes path content) (events_of run).
Proof.
  intros E run. subst run.
  pose proof (no_upload_without_flag w running_config base_dir binaries E s) as H.
  rewrite forallb_forall in H. split.
  - induction (events_of (discovery_run w running_config base_dir binaries s))
      as [|e t IH]; [reflexivity|].
    simpl. pose proof (H e (or_introl eq_refl)) as He.
    destruct e; try discriminate He; apply IH; intros x Hx; apply H; now right.
  - intros path content Hin. apply H in Hin. discriminate Hin.
Qed.

Lemma upload_needs_its_flag_witness :
  filter is_network (events_of (sample_run findings_world true)) = []
  /\ forall path content,
       ~ In (EvOpenBytes path content) (events_of (sample_run findings_world true)).
Proof.
  apply (upload_needs_its_flag findings_world (sample_config true (Some "owner/repo"))
           "/github/workspace" "/usr/local/bin/42c-ast-linux-amd64" tt).
  reflexivity.
Defined.

(** X18. With enforcement off, no event of a run is the read of a
    diagnostics file for the gate, so no finding can end it. *)
Theorem gate_needs_its_flag {W} (w : world W) (running_config : RunningConfiguration)
    (base_dir binaries : string) (s : W) :
  enforce running_config = false ->
  let run := discovery_run w running_config base_dir binaries s in
  forallb no_gate_read (events_of run) = true
  /\ existsb (finds_issues w) (events_of run) = false.
Proof.
  intros E run. subst run.
  pose proof (no_gate_without_enforcement w running_config base_dir binaries E s) as H.
  split; [exact H|]. now apply no_gate_read_clean.
Qed.

Lemma gate_needs_its_flag_witness :
  forallb no_gate_read (events_of (sample_run findings_world false)) = true
  /\ existsb (finds_issues findings_world) (events_of (sample_run findings_world false))
     = false.
Proof.
  apply (gate_needs_its_flag findings_world (sample_config false (Some "owner/repo"))
           "/github/workspace" "/usr/local/bin/42c-ast-linux-amd64" tt).
  reflexivity.
Defined.

(** ** Events that end a run *)

Section Halting.

Context {W : Type} (bad : event -> bool) (tail : event -> list event)
  (final : event -> ending).

Lemma ended_not_ret {A} (h : ending) (a : A) : ended h <> Ret a.
Proof. destruct h; discriminate. Qed.

Lemma ended_exit {A B} (h : ending) (c : Z) : @Exit A c = ended h -> @Exit B c = ended h.
Proof. destruct h; simpl; congruence. Qed.

Lemma ended_raise {A B} (h : ending) (e : exn) :
  @Raise A e = ended h -> @Raise B e = ended h.
Proof. destruct h; simpl; congruence. Qed.

Lemma halted_clean {A} (o : outcome A) (t : list event) (a : A) :
  halted_by bad tail final o t -> o = Ret a -> existsb bad t = false.
Proof.
  intros [H | (pre & g & _ & _ & _ & E)] Ho; [exact H|].
  subst o. exfalso. exact (ended_not_ret _ a Ho).
Qed.

Lemma halted_app {A} (o : outcome A) (t1 t2 : list event) :
  existsb bad t1 = false ->
  halted_by bad tail final o t2 -> halted_by bad tail final o (t1 ++ t2).
Proof.
  intros H1 [H2 | (pre & g & -> & Hpre & Hg & Ho)].
  - left. rewrite existsb_app. now rewrite H1, H2.
  - right. exists (t1 ++ pre), g. rewrite app_assoc. repeat split; try assumption.
    rewrite existsb_app. now rewrite H1, Hpre.
Qed.

Lemma halted_retype {A B} (o : outcome A) (o' : outcome B) (t : list event) :
  halted_by bad tail final o t -> (forall h, o = ended h -> o' = ended h) ->
  halted_by bad tail final o' t.
Proof.
  intros [H | (pre & g & E & Hpre & Hg & Ho)] Hr; [now left|].
  right. exists pre, g. repeat split; try assumption. now apply Hr.
Qed.

Lemma halts_bind {A B} (m : M W A) (f : A -> M W B) :
  halts bad tail final m -> (forall a, halts bad tail final (f a)) ->
  halts bad tail final (bind m f).
Proof.
  intros Hm Hf s. specialize (Hm s). unfold bind, outcome_of, events_of in *.
  destruct (m s) as [[[a|c|e] s1] t1]; cbn [fst snd] in *.
  - specialize (Hf a s1). unfold outcome_of, events_of in Hf.
    destruct (f a s1) as [[o s2] t2]. cbn [fst snd] in *.
    apply halted_app; [|exact Hf].
    exact (halted_clean _ _ a Hm eq_refl).
  - apply (halted_retype _ _ _ Hm). intros h. apply ended_exit.
  - apply (halted_retype _ _ _ Hm). intros h. apply ended_raise.
Qed.

(** A handler that does not name the exception of a [bad] event leaves the
    property alone. *)
Lemma halts_try {A} (m : M W A) (h : exn -> option (M W A)) :
  halts bad tail final m ->
  (forall g e, bad g = true -> final g = EndRaise e -> h e = None) ->
  (forall e k, h e = Some k -> halts bad tail final k) ->
  halts bad tail final (try_except m h).
Proof.
  intros Hm Hside Hh s. specialize (Hm s). unfold try_except, outcome_of, events_of in *.
  destruct (m s) as [[[a|c|e] s1] t1]; cbn [fst snd] in *; try exact Hm.
  destruct (h e) as [k|] eqn:E; [|exact Hm].
  specialize (Hh e k E s1). unfold outcome_of, events_of in Hh.
  destruct (k s1) as [[o s2] t2]. cbn [fst snd] in *.
  apply halted_app; [|exact Hh].
  destruct Hm as [H | (pre & g & _ & _ & Hg & Ho)]; [exact H|].
  exfalso. destruct (final g) as [c|e'] eqn:Ef; [discriminate Ho|].
  injection Ho as ->. rewrite (Hside g e' Hg Ef) in E. discriminate E.
Qed.

Lemma halts_of_emits {A} (m : M W A) :
  emits_only (fun e => negb (bad e)) m -> halts bad tail final m.
Proof.
  intros H s. left. specialize (H s).
  induction (events_of (m s)) as [|e t IH]; [reflexivity|].
  simpl in *. apply andb_true_iff in H as [He Ht].
  apply negb_true_iff in He. rewrite He. now apply IH.
Qed.

Lemma first_bad_unique (pre pre' post post' : list event) (g g' : event) :
  pre ++ g :: post = pre' ++ g' :: post' ->
  existsb bad pre = false -> bad g = true ->
  existsb bad post = false -> bad g' = true ->
  pre = pre' /\ g = g' /\ post = post'.
Proof.
  revert pre'. induction pre as [|a pre IH]; intros [|b pre'] E Hpre Hg Hpost Hg'.
  - inversion E. now repeat split.
  - exfalso. cbn [app] in E. inversion E; subst.
    rewrite existsb_app in Hpost. cbn [existsb] in Hpost.
    rewrite Hg', orb_true_r in Hpost. discriminate.
  - exfalso. cbn [app] in E. inversion E; subst.
    cbn [existsb] in Hpre. rewrite Hg' in Hpre. discriminate.
  - cbn [app] in E. inversion E; subst.
    cbn [existsb] in Hpre. apply orb_false_iff in Hpre as [_ Hpre].
    destruct (IH pre' H1 Hpre Hg Hpost Hg') as (-> & -> & ->). now repeat split.
Qed.

(** A [bad] event of the trace is the one that ended the computation. *)
Lemma halted_at {A} (o : outcome A) (pre post : list event) (e : event) :
  (forall g, existsb bad (tail g) = false) ->
  halted_by bad tail final o (pre ++ e :: post) ->
  bad e = true ->
  o = ended (final e) /\ post = tail e /\ existsb bad pre = false.
Proof.
  intros Htail [H | (pre' & g & E & Hpre & Hg & Ho)] He.
  - exfalso. rewrite existsb_app in H. cbn [existsb] in H.
    rewrite He, orb_true_r in H. discriminate.
  - symmetry in E.
    destruct (first_bad_unique pre' pre (tail g) post g e E Hpre Hg (Htail g) He)
      as (-> & -> & <-).
    now repeat split.
Qed.

End Halting.

Ltac halts_step side :=
  lazymatch goal with
  | |- halts _ _ _ (bind _ _) => apply halts_bind; [|intros]
  | |- halts _ _ _ (try_except _ _) =>
      apply halts_try;
      [|side
       |let e := fresh "e" in
        let k := fresh "k" in
        let E := fresh "E" in
        intros e k E; destruct e; inversion E; subst; clear E]
  | |- halts _ _ _ (if ?b then _ else _) => destruct b
  | |- halts _ _ _ (match ?x with _ => _ end) => destruct x
  end.

(** ** A failed upload in the loop *)

Section UploadHalts.

Context {W : Type} (w : world W).

Lemma upload_tail_clean (g : event) :
  existsb (failed_upload w) (upload_tail w g) = false.
Proof.
  destruct g as [| | | | | | |req [body|code reason body|message]]; try reflexivity.
  cbn [upload_tail upload_answer_logs]. now destruct (bytes_decode w body).
Qed.

Lemma upload_ending_raises (g : event) (e : exn) :
  upload_ending w g = EndRaise e -> e = TypeError \/ e = UnicodeDecodeError.
Proof.
  destruct g as [| | | | | | |req [body|code reason body|message]];
    cbn [upload_ending]; try (intros [= <-]; now left).
  destruct (bytes_decode w body); [discriminate|]. intros [= <-]. now right.
Qed.

Lemma halts_upload_sarif (github_token github_repository github_sha ref : option string)
    (path : string) :
  halts (failed_upload w) (upload_tail w) (upload_ending w)
    (upload_sarif w github_token github_repository github_sha ref path).
Proof.
  intros s.
  destruct github_token as [[|c token]|];
    try (left; unfold upload_sarif; reflexivity).
  rewrite upload_sarif_run by reflexivity. cbv zeta.
  destruct (fst (read_file w s path)) as [content|]; [|left; reflexivity].
  destruct github_repository as [r|]; [|left; reflexivity].
  destruct (PyStr.contains "/" r); [|left; reflexivity].
  match goal with
  | |- context [EvUrlopen ?q _] => set (req := q)
  end.
  unfold outcome_of, events_of. cbn [fst snd].
  set (before := [EvOpenBytes path (Some content);
                  EvLog DEBUG ("Uploading SARIF file to GitHub code scanning: "
                               +++ url req)]).
  destruct (fst (urlopen w (snd (read_file w s path)) req))
    as [body|code reason body|message] eqn:Er.
  - destruct (bytes_decode w body) eqn:Ed.
    + left. cbn [upload_answer_logs app existsb failed_upload]. now rewrite Ed.
    + right. exists before, (EvUrlopen req (HttpOk body)).
      cbn [upload_tail upload_answer_logs upload_answer_outcome upload_ending
           failed_upload ended].
      rewrite Ed. repeat split.
  - right. exists before, (EvUrlopen req (HttpError code reason body)).
    cbn [upload_tail upload_answer_logs upload_answer_outcome upload_ending
         failed_upload ended].
    destruct (bytes_decode w body); repeat split.
  - right. exists before, (EvUrlopen req (OtherError message)).
    repeat split.
Qed.

End UploadHalts.

Ltac upload_side :=
  let g := fresh "g" in
  let e := fresh "e" in
  let Hb := fresh "Hb" in
  let Hf := fresh "Hf" in
  intros g e Hb Hf;
  destruct (upload_ending_raises _ g e Hf) as [-> | ->]; reflexivity.

Section UploadHaltsScript.

Context {W : Type} (w : world W) (running_config : RunningConfiguration).

Local Notation "'upload_halts'" :=
  (halts (failed_upload w) (upload_tail w) (upload_ending w)).

Lemma upload_halts_execute (command : command) (capture_output : bool) :
  upload_halts (execute w command capture_output).
Proof. apply halts_of_emits, emits_only_execute. reflexivity. Qed.

Lemma upload_halts_gate (path : string) :
  upload_halts (is_security_issues_found w path).
Proof.
  apply halts_of_emits. unfold is_security_issues_found. emits_script.
Qed.

Lemma upload_halts_upload_and_enforce (sarif : string) :
  upload_halts (upload_and_enforce w running_config sarif).
Proof.
  unfold upload_and_enforce. repeat halts_step upload_side;
    first [ apply halts_upload_sarif
          | apply upload_halts_gate
          | apply halts_of_emits; emits_script ].
Qed.

Lemma upload_halts_process_report (output_directory report : string)
    (sarif_reports : list string) :
  upload_halts (process_report w running_config output_directory report sarif_reports).
Proof.
  unfold process_report. repeat halts_step upload_side;
    first [ apply upload_halts_upload_and_enforce
          | apply upload_halts_execute
          | apply halts_of_emits; emits_script ].
Qed.

Lemma upload_halts_process_reports (output_directory : string) (reports : list string) :
  forall sarif_reports,
    upload_halts (process_reports w running_config output_directory reports sarif_reports).
Proof.
  induction reports as [|report rest IH]; intros acc.
  - apply halts_of_emits, emits_only_ret.
  - cbn [process_reports].
    apply halts_bind; [apply upload_halts_process_report|exact IH].
Qed.

Lemma upload_halts_discovery_run (base_dir binaries : string) :
  upload_halts (discovery_run w running_config base_dir binaries).
Proof.
  unfold discovery_run.
  apply halts_bind.
  { apply halts_of_emits. unfold run_audit. emits_script.
    apply emits_only_execute. reflexivity. }
  intros od. apply halts_bind.
  { apply halts_of_emits. unfold list_reports.
    emits_script;
      first [ apply emits_only_listdir; reflexivity
            | apply emits_only_log_reports; reflexivity ]. }
  intros reports. apply halts_bind; [apply upload_halts_process_reports|].
  intros acc. apply halts_of_emits. unfold merge_sarif_files. emits_script.
  apply emits_only_execute. reflexivity.
Qed.

End UploadHaltsScript.

(** X19. An upload that is not answered well ends the whole run: the run
    ends as that upload does (exit code 1 after an HTTP error whose body
    has a text, [UnicodeDecodeError] after one whose body has none,
    [TypeError] otherwise), nothing but the banner of the HTTP error follows
    it, and every upload before it was answered well. *)
Theorem failed_upload_ends_run {W} (w : world W) (running_config : RunningConfiguration)
    (base_dir binaries : string) (s : W) (pre post : list event) (req : request)
    (response : http_result) :
  events_of (discovery_run w running_config base_dir binaries s)
  = pre ++ EvUrlopen req response :: post ->
  failed_upload w (EvUrlopen req response) = true ->
  outcome_of (discovery_run w running_config base_dir binaries s)
  = upload_answer_outcome w response tt
  /\ post = upload_answer_logs w response
  /\ existsb (failed_upload w) pre = false.
Proof.
  intros E He.
  pose proof (upload_halts_discovery_run w running_config base_dir binaries s) as H.
  rewrite E in H.
  destruct (halted_at _ _ _ _ pre post _ (upload_tail_clean w) H He) as (Ho & Hp & Hpre).
  split; [|split; assumption].
  rewrite Ho. cbn [failed_upload] in He.
  destruct response as [body|code reason body|message];
    cbn [upload_ending upload_answer_outcome ended];
    try destruct (bytes_decode w body); try reflexivity; discriminate He.
Qed.

Lemma failed_upload_ends_run_witness :
  (outcome_of forbidden_run
   = upload_answer_outcome forbidden_world
       (HttpError 403 "Forbidden" "Resource not accessible by integration") tt
   /\ skipn 31 (events_of forbidden_run)
      = upload_answer_logs forbidden_world
          (HttpError 403 "Forbidden" "Resource not accessible by integration")
   /\ existsb (failed_upload forbidden_world) (firstn 30 (events_of forbidden_run)) = false)
  /\ (outcome_of bad_gateway_run
      = upload_answer_outcome bad_gateway_world (HttpError 502 "Bad Gateway" not_utf8) tt
      /\ skipn 31 (events_of bad_gateway_run)
         = upload_answer_logs bad_gateway_world (HttpError 502 "Bad Gateway" not_utf8)
      /\ existsb (failed_upload bad_gateway_world) (firstn 30 (events_of bad_gateway_run))
         = false).
Proof.
  split.
  - refine (failed_upload_ends_run forbidden_world upload_config "/github/workspace"
              "/usr/local/bin/42c-ast-linux-amd64" tt
              (firstn 30 (events_of forbidden_run)) (skipn 31 (events_of forbidden_run))
              (upload_request "secret" "owner/repo" (Some "abc123") (Some "refs/heads/main")
                 "no result" "/github/workspace")
              (HttpError 403 "Forbidden" "Resource not accessible by integration") _ _).
    + vm_compute. reflexivity.
    + vm_compute. reflexivity.
  - refine (failed_upload_ends_run bad_gateway_world upload_config "/github/workspace"
              "/usr/local/bin/42c-ast-linux-amd64" tt
              (firstn 30 (events_of bad_gateway_run)) (skipn 31 (events_of bad_gateway_run))
              (upload_request "secret" "owner/repo" (Some "abc123") (Some "refs/heads/main")
                 "no result" "/github/workspace")
              (HttpError 502 "Bad Gateway" not_utf8) _ _).
    + vm_compute. reflexivity.
    + vm_compute. reflexivity.
Defined.

Example forbidden_run_stops :
  outcome_of forbidden_run = Exit 1
  /\ map (fun c => nth 8 (fst c) EmptyString) (conversions (events_of forbidden_run))
     = ["a.yaml"]
  /\ merges (events_of forbidden_run) = [].
Proof. vm_compute. repeat split. Qed.

Example bad_gateway_run_stops :
  outcome_of bad_gateway_run = Raise UnicodeDecodeError
  /\ filter is_error_log (events_of bad_gateway_run) = []
  /\ map (fun c => nth 8 (fst c) EmptyString) (conversions (events_of bad_gateway_run))
     = ["a.yaml"]
  /\ merges (events_of bad_gateway_run) = [].
Proof. vm_compute. repeat split. Qed.

(** ** A failed command whose output has no text *)

Section GarbledHalts.

Context {W : Type} (w : world W) (running_config : RunningConfiguration).

Local Notation "'garbled_halts'" :=
  (halts (garbled w) (fun _ => []) (fun _ => EndRaise UnicodeDecodeError)).

Lemma garbled_halts_execute (command : command) (capture_output : bool) :
  garbled_halts (execute w command capture_output).
Proof.
  intros s. rewrite execute_run.
  destruct (all_present (argv command)); [|left; reflexivity].
  destruct (present (argv command)) as [|executable rest]; [left; reflexivity|].
  destruct (subprocess_start w executable); [left; reflexivity|].
  cbv zeta. unfold outcome_of, events_of, execute_outcome. cbn [fst snd].
  set (args := executable :: rest).
  destruct (returncode (fst (subprocess_run w s args)) =? 0)%Z eqn:Hrc.
  - left. cbn [existsb garbled]. now rewrite Hrc.
  - destruct (failure_message w (fst (subprocess_run w s args))) eqn:Hf.
    + left. cbn [existsb garbled]. now rewrite Hrc, Hf.
    + right. exists [], (EvRun args (fst (subprocess_run w s args))).
      cbn [garbled]. rewrite Hrc, Hf. repeat split.
Qed.

Lemma garbled_halts_upload_and_enforce (sarif : string) :
  garbled_halts (upload_and_enforce w running_config sarif).
Proof.
  apply halts_of_emits.
  unfold upload_and_enforce, upload_sarif, is_security_issues_found. emits_script.
Qed.

Lemma garbled_halts_process_report (output_directory report : string)
    (sarif_reports : list string) :
  garbled_halts (process_report w running_config output_directory report sarif_reports).
Proof.
  unfold process_report.
  repeat halts_step ltac:(intros ? ? _ [= <-]; reflexivity);
    first [ apply garbled_halts_upload_and_enforce
          | apply garbled_halts_execute
          | apply halts_of_emits; emits_script ].
Qed.

Lemma garbled_halts_process_reports (output_directory : string) (reports : list string) :
  forall sarif_reports,
    garbled_halts (process_reports w running_config output_directory reports sarif_reports).
Proof.
  induction reports as [|report rest IH]; intros acc.
  - apply halts_of_emits, emits_only_ret.
  - cbn [process_reports].
    apply halts_bind; [apply garbled_halts_process_report|exact IH].
Qed.

Lemma garbled_halts_run_audit (base_dir binaries : string) :
  garbled_halts (run_audit w running_config base_dir binaries).
Proof.
  unfold run_audit.
  repeat halts_step ltac:(intros ? ? _ [= <-]; reflexivity);
    first [ apply garbled_halts_execute
          | apply halts_of_emits; emits_script
          | apply halts_of_emits; apply emits_only_uuid; reflexivity ].
Qed.

Lemma garbled_halts_discovery_run (base_dir binaries : string) :
  garbled_halts (discovery_run w running_config base_dir binaries).
Proof.
  unfold discovery_run.
  apply halts_bind; [apply garbled_halts_run_audit|intros od].
  apply halts_bind.
  { apply halts_of_emits. unfold list_reports.
    emits_script;
      first [ apply emits_only_listdir; reflexivity
            | apply emits_only_log_reports; reflexivity ]. }
  intros reports. apply halts_bind; [apply garbled_halts_process_reports|].
  intros acc. unfold merge_sarif_files.
  repeat halts_step ltac:(intros ? ? _ [= <-]; reflexivity);
    first [ apply garbled_halts_execute
          | apply halts_of_emits; emits_script ].
Qed.

End GarbledHalts.

(** C2.  What the code does against the claim.  A command that failed and
    whose captured output has no text (bytes that are not UTF-8) ends the
    whole run: the run raises [UnicodeDecodeError], that command is its
    last event, and no banner is logged for it.  For a conversion this means
    that the report is not skipped: no later report is converted and no
    merge is started. *)
Theorem garbled_failure_ends_run {W} (w : world W) (running_config : RunningConfiguration)
    (base_dir binaries : string) (s : W) (pre post : list event) (cmd : list string)
    (result : completed) :
  events_of (discovery_run w running_config base_dir binaries s)
  = pre ++ EvRun cmd result :: post ->
  returncode result <> 0%Z ->
  failure_message w result = None ->
  outcome_of (discovery_run w running_config base_dir binaries s) = Raise UnicodeDecodeError
  /\ post = []
  /\ existsb (garbled w) pre = false.
Proof.
  intros E Hrc Hf.
  pose proof (garbled_halts_discovery_run w running_config base_dir binaries s) as H.
  rewrite E in H.
  apply (halted_at (garbled w) (fun _ => []) (fun _ => EndRaise UnicodeDecodeError)
           _ pre post _ (fun _ => eq_refl) H).
  cbn [garbled]. apply Z.eqb_neq in Hrc. now rewrite Hrc, Hf.
Qed.

(** Three reports; the conversion of the second exits with code 1 and
    writes a byte that is not UTF-8 to stderr. *)
Lemma garbled_failure_ends_run_witness :
  outcome_of (sample_run second_garbled_world false) = Raise UnicodeDecodeError
  /\ skipn 32 (events_of (sample_run second_garbled_world false)) = []
  /\ existsb (garbled second_garbled_world)
       (firstn 31 (events_of (sample_run second_garbled_world false))) = false.
Proof.
  refine (garbled_failure_ends_run second_garbled_world
            (sample_config false (Some "owner/repo")) "/github/workspace"
            "/usr/local/bin/42c-ast-linux-amd64" tt
            (firstn 31 (events_of (sample_run second_garbled_world false)))
            (skipn 32 (events_of (sample_run second_garbled_world false)))
            (convert_args "/github/workspace/c0ffee" "b.yaml.audit-report.json")
            (mkCompleted 1 EmptyString not_utf8) _ _ _).
  - vm_compute. reflexivity.
  - discriminate.
  - reflexivity.
Defined.

Example second_garbled_run :
  outcome_of (sample_run second_garbled_world false) = Raise UnicodeDecodeError
  /\ map (fun c => nth 8 (fst c) EmptyString)
       (conversions (events_of (sample_run second_garbled_world false)))
     = ["a.yaml"; "b.yaml"]
  /\ merges (events_of (sample_run second_garbled_world false)) = []
  /\ filter is_error_log (events_of (sample_run second_garbled_world false)) = [].
Proof. vm_compute. repeat split. Qed.

(** ** The SARIF file of a report *)

Lemma has_sep_append (a b : string) :
  PosixPath.has_sep (a +++ b) = PosixPath.has_sep a || PosixPath.has_sep b.
Proof.
  induction a as [|c a IH]; [reflexivity|].
  change (String c a +++ b) with (String c (a +++ b)).
  now rewrite !has_sep_cons, IH, orb_assoc.
Qed.

Lemma has_sep_substring (q : string) :
  PosixPath.has_sep q = false -> forall n, PosixPath.has_sep (substring 0 n q) = false.
Proof.
  induction q as [|c q IH]; intros H n.
  - now destruct n.
  - rewrite has_sep_cons in H. apply orb_false_iff in H as [Hc Hq].
    destruct n as [|n]; [reflexivity|].
    cbn [substring]. rewrite has_sep_cons, Hc. now apply IH.
Qed.

Lemma has_sep_basename (p : string) : PosixPath.has_sep (PosixPath.basename p) = false.
Proof.
  induction p as [|c p IH]; [reflexivity|].
  cbn [PosixPath.basename].
  destruct (PosixPath.has_sep p) eqn:Hp; [exact IH|].
  destruct (Ascii.eqb c PosixPath.sep) eqn:Hc; [exact Hp|].
  now rewrite has_sep_cons, Hc, Hp.
Qed.

Lemma has_sep_splitext (q : string) :
  PosixPath.has_sep q = false -> PosixPath.has_sep (fst (PosixPath.splitext q)) = false.
Proof.
  intros H. unfold PosixPath.splitext. cbv zeta.
  destruct (_ <? _)%Z; [|exact H].
  destruct (PosixPath.all_char _ _); [exact H|].
  cbn [fst]. now apply has_sep_substring.
Qed.

(** X16. The SARIF file of a report never has a directory part and always
    ends with [.sarif]: it is written where the action runs, not into the
    output directory, and for a report name without a slash it is the same
    in every output directory. *)
Theorem sarif_file_in_working_directory :
  (forall report_path,
      ~ occurs_in "/" (sarif_file report_path)
      /\ ends_with ".sarif" (sarif_file report_path))
  /\ (forall output_directory report,
         ~ occurs_in "/" report ->
         sarif_file (PosixPath.join output_directory report) = sarif_file report).
Proof.
  split.
  - intros report_path. split.
    + apply not_contains_iff. unfold sarif_file.
      change (PyStr.contains "/") with PosixPath.has_sep.
      rewrite has_sep_append, has_sep_splitext by apply has_sep_basename.
      reflexivity.
    + unfold sarif_file. eexists. reflexivity.
  - intros od report H. apply not_contains_iff in H.
    unfold sarif_file. rewrite basename_join by exact H.
    now rewrite basename_no_sep by exact H.
Qed.

Example sarif_file_of_nested_report :
  sarif_file "/github/workspace/c0ffee/api/v1.yaml.audit-report.json"
  = "v1.yaml.audit-report.sarif".
Proof. reflexivity. Qed.

(** ** The binary and the entry point *)

Lemma get_audit_binary_cases {W} (h : host W) (_is_local_development : bool) (s : W) :
  (exists path,
      _get_audit_binary h _is_local_development s = (Ret path, s, [])
      /\ In path known_binaries)
  \/ _get_audit_binary h _is_local_development s
     = (Exit 1, s,
        notice "[!] Unable to detect operating system from GitHub action environment variables").
Proof.
  unfold _get_audit_binary, known_binaries.
  destruct _is_local_development.
  { left. eexists. split; [reflexivity|]. simpl. tauto. }
  unfold bind, call_platform_system. cbn beta iota.
  destruct (platform_system h s =? "Windows").
  { left. eexists. split; [reflexivity|]. simpl. tauto. }
  destruct (platform_system h s =? "Darwin").
  { left. eexists. split; [reflexivity|]. simpl. tauto. }
  destruct (platform_system h s =? "Linux").
  { left. eexists. split; [reflexivity|]. simpl. tauto. }
  right. reflexivity.
Qed.

Lemma check_binary_exists_run {W} (h : host W) (ast_binary : string) (s : W) :
  _check_binary_exists h ast_binary s
  = if os_path_isfile h s ast_binary then (Ret tt, s, [])
    else (Exit 1, s, notice ("[!] Unable to find binary at " +++ ast_binary)).
Proof.
  unfold _check_binary_exists, bind, call_isfile. cbn beta iota.
  now destruct (os_path_isfile h s ast_binary).
Qed.

Lemma get_binary_path_run {W} (h : host W) (env : environ) (s : W) :
  get_binary_path h env s
  = match _get_audit_binary h (PyStr.truthy (getenv env "LOCAL_DEVELOPMENT" None)) s with
    | (Ret path, s1, t1) =>
        if os_path_isfile h s1 path then (Ret path, s1, t1 ++ [])
        else (Exit 1, s1, t1 ++ notice ("[!] Unable to find binary at " +++ path))
    | (Exit c, s1, t1) => (Exit c, s1, t1)
    | (Raise e, s1, t1) => (Raise e, s1, t1)
    end.
Proof.
  unfold get_binary_path.
  replace (if PyStr.truthy (getenv env "LOCAL_DEVELOPMENT" None)
           then _get_audit_binary h true else _get_audit_binary h false)
    with (_get_audit_binary h (PyStr.truthy (getenv env "LOCAL_DEVELOPMENT" None)))
    by now destruct (PyStr.truthy _).
  unfold bind at 1.
  destruct (_get_audit_binary h _ s) as [[[path|c|e] s1] t1]; try reflexivity.
  unfold bind. rewrite check_binary_exists_run.
  now destruct (os_path_isfile h s1 path).
Qed.

Lemma get_binary_path_cases {W} (h : host W) (env : environ) (s : W) :
  (exists path,
      get_binary_path h env s = (Ret path, s, [])
      /\ In path known_binaries
      /\ os_path_isfile h s path = true)
  \/ (exists msg,
         get_binary_path h env s = (Exit 1, s, notice ("[!] Unable to " +++ msg))).
Proof.
  rewrite get_binary_path_run.
  destruct (get_audit_binary_cases h (PyStr.truthy (getenv env "LOCAL_DEVELOPMENT" None)) s)
    as [(path & -> & Hin) | ->].
  - destruct (os_path_isfile h s path) eqn:E.
    + left. exists path. now repeat split.
    + right. exists ("find binary at " +++ path). reflexivity.
  - right. eexists. reflexivity.
Qed.

(** X21. [get_binary_path] never raises.  What it returns is one of the
    three paths it knows and names a file on the host, and nothing was
    printed.  When it exits, the code is 1 and what was printed is a
    message that starts with "[!] Unable to", between two empty lines. *)
Theorem binary_path_known_and_present {W} (h : host W) (env : environ) (s : W) :
  (forall e, outcome_of (get_binary_path h env s) <> Raise e)
  /\ (forall path,
         outcome_of (get_binary_path h env s) = Ret path ->
         In path known_binaries
         /\ os_path_isfile h s path = true
         /\ events_of (get_binary_path h env s) = [])
  /\ (forall code,
         outcome_of (get_binary_path h env s) = Exit code ->
         code = 1%Z
         /\ exists msg,
              events_of (get_binary_path h env s) = notice ("[!] Unable to " +++ msg)).
Proof.
  destruct (get_binary_path_cases h env s) as [(path & -> & Hin & Hf) | (msg & ->)];
    unfold outcome_of, events_of; cbn [fst snd].
  - split; [discriminate|]. split.
    + intros p E. injection E as <-. now repeat split.
    + discriminate.
  - split; [discriminate|]. split; [discriminate|].
    intros c E. injection E as <-. split; [reflexivity|]. now exists msg.
Qed.

(** X22. Any non-empty value of [LOCAL_DEVELOPMENT], [false] and [0]
    included, selects the macOS binary on every platform: the platform of
    the host is not looked at. *)
Theorem local_development_selects_darwin {W} (h : host W) (env : environ)
    (value : string) (s : W) :
  env "LOCAL_DEVELOPMENT" = Some value ->
  value <> EmptyString ->
  outcome_of (get_binary_path h env s)
  = if os_path_isfile h s "/usr/local/bin/42c-ast-darwin-amd64"
    then Ret "/usr/local/bin/42c-ast-darwin-amd64"
    else Exit 1.
Proof.
  intros He Hv. rewrite get_binary_path_run.
  assert (Ht : PyStr.truthy (getenv env "LOCAL_DEVELOPMENT" None) = true).
  { unfold getenv. rewrite He. destruct value; [contradiction|reflexivity]. }
  rewrite Ht. unfold _get_audit_binary, ret.
  now destruct (os_path_isfile h s "/usr/local/bin/42c-ast-darwin-amd64").
Qed.

Lemma local_development_selects_darwin_witness :
  outcome_of (get_binary_path
                (table_host "Linux" ["/usr/local/bin/42c-ast-linux-amd64"])
                (local_development_env "false") tt)
  = if os_path_isfile (table_host "Linux" ["/usr/local/bin/42c-ast-linux-amd64"]) tt
         "/usr/local/bin/42c-ast-darwin-amd64"
    then Ret "/usr/local/bin/42c-ast-darwin-amd64"
    else Exit 1.
Proof.
  apply (local_development_selects_darwin
           (table_host "Linux" ["/usr/local/bin/42c-ast-linux-amd64"])
           (local_development_env "false") "false" tt).
  - reflexivity.
  - discriminate.
Defined.

Example local_development_on_linux :
  outcome_of (get_binary_path
                (table_host "Linux" ["/usr/local/bin/42c-ast-linux-amd64"])
                (local_development_env "false") tt) = Exit 1
  /\ outcome_of (get_binary_path
                   (table_host "Linux" ["/usr/local/bin/42c-ast-linux-amd64"])
                   (fun _ => None) tt) = Ret "/usr/local/bin/42c-ast-linux-amd64".
Proof. vm_compute. repeat split. Qed.

Lemma get_binary_path_selected {W} (h : host W) (env : environ) (s : W) :
  get_binary_path h env s
  = match selected_binary (PyStr.truthy (getenv env "LOCAL_DEVELOPMENT" None))
            (platform_system h s) with
    | Some binary =>
        if os_path_isfile h s binary then (Ret binary, s, [])
        else (Exit 1, s, notice ("[!] Unable to find binary at " +++ binary))
    | None =>
        (Exit 1, s,
         notice "[!] Unable to detect operating system from GitHub action environment variables")
    end.
Proof.
  rewrite get_binary_path_run. unfold selected_binary, _get_audit_binary.
  destruct (PyStr.truthy (getenv env "LOCAL_DEVELOPMENT" None)).
  { unfold ret. now destruct (os_path_isfile h s _). }
  unfold bind, call_platform_system. cbn beta iota.
  destruct (platform_system h s =? "Windows").
  { unfold ret. now destruct (os_path_isfile h s _). }
  destruct (platform_system h s =? "Darwin").
  { unfold ret. now destruct (os_path_isfile h s _). }
  destruct (platform_system h s =? "Linux").
  { unfold ret. now destruct (os_path_isfile h s _). }
  reflexivity.
Qed.

(** X23. [main] runs [discovery_run] exactly when [get_binary_path]
    returns: on the configuration of the environment, with the working
    directory as base directory and the very path returned.  That is the
    case when the path gone for (the macOS one under local development,
    else the one of the platform) names a file on the host.  When it names
    none, or the platform is not known, [main] exits with code 1 after
    three printed lines: nothing is logged, no identifier is drawn and no
    subprocess is started. *)
Theorem main_runs_discovery_on_found_binary {W} (w : world W) (h : host W)
    (env : environ) (s : W) :
  (forall binary,
      outcome_of (get_binary_path h env s) = Ret binary ->
      main w h env s
      = discovery_run w (get_running_configuration env) (os_getcwd w s) binary s)
  /\ main w h env s
     = match selected_binary (PyStr.truthy (getenv env "LOCAL_DEVELOPMENT" None))
             (platform_system h s) with
       | Some binary =>
           if os_path_isfile h s binary
           then discovery_run w (get_running_configuration env) (os_getcwd w s) binary s
           else (Exit 1, s, notice ("[!] Unable to find binary at " +++ binary))
       | None =>
           (Exit 1, s,
            notice
              "[!] Unable to detect operating system from GitHub action environment variables")
       end.
Proof.
  assert (Hret : forall binary,
             get_binary_path h env s = (Ret binary, s, []) ->
             main w h env s
             = discovery_run w (get_running_configuration env) (os_getcwd w s) binary s).
  { intros binary E. unfold main, bind. rewrite E. unfold call_getcwd.
    now destruct (discovery_run w (get_running_configuration env) (os_getcwd w s) binary s)
      as [[o s1] t1]. }
  split.
  - intros binary H. apply Hret.
    destruct (get_binary_path_cases h env s) as [(path & E & _) | (msg & E)];
      rewrite E in *; unfold outcome_of in H; cbn [fst] in H; [|discriminate H].
    now injection H as ->.
  - pose proof (get_binary_path_selected h env s) as E.
    destruct (selected_binary _ _) as [binary|].
    + destruct (os_path_isfile h s binary); [now apply Hret|].
      unfold main, bind. now rewrite E.
    + unfold main, bind. now rewrite E.
Qed.

(** On a Linux host that holds the binary. *)
Lemma main_runs_discovery_on_found_binary_witness :
  main gate_world (table_host "Linux" ["/usr/local/bin/42c-ast-linux-amd64"]) (fun _ => None) tt
  = discovery_run gate_world (get_running_configuration (fun _ => None))
      "/github/workspace" "/usr/local/bin/42c-ast-linux-amd64" tt.
Proof.
  apply (proj1 (main_runs_discovery_on_found_binary gate_world
                  (table_host "Linux" ["/usr/local/bin/42c-ast-linux-amd64"])
                  (fun _ => None) tt)).
  reflexivity.
Defined.

Example main_without_binary :
  main gate_world (table_host "Linux" []) (fun _ => None) tt
  = (Exit 1, tt, notice "[!] Unable to find binary at /usr/local/bin/42c-ast-linux-amd64").
Proof. vm_compute. reflexivity. Qed.
